(** * nrk_download: identifier resolution, subtitle location and conversion

    A shallow embedding of [nrk_download.py].  Python strings are modelled as
    lists of characters with code points below 256 ([ascii]); on that range
    the regular-expression class [\d] is exactly [0-9] and [str.splitlines]
    splits at the line boundaries listed in [is_linebreak].  Effects (the
    console, the network, the file system, exceptions) are made explicit in
    the state-and-exception monad [M]. *)

From Stdlib Require Import List Arith Bool Lia ZArith.
From Stdlib Require Import Ascii String DecimalString DecimalNat.
Import ListNotations.

Local Open Scope string_scope.
Local Open Scope nat_scope.
Local Open Scope list_scope.
Local Abbreviation length := List.length.

(** ** Strings *)

Definition str : Type := list ascii.

Definition lit (s : string) : str := list_ascii_of_string s.
Coercion lit : string >-> str.

Definition cat (a b : str) : str := a ++ b.

Definition chr_eqb (a b : ascii) : bool := Ascii.eqb a b.

Fixpoint str_eqb (a b : str) : bool :=
  match a, b with
  | [], [] => true
  | x :: a', y :: b' => chr_eqb x y && str_eqb a' b'
  | _, _ => false
  end.

Definition in_range (lo hi c : ascii) : bool :=
  (nat_of_ascii lo <=? nat_of_ascii c) && (nat_of_ascii c <=? nat_of_ascii hi).

(** [str.startswith] *)
Fixpoint startswith (s prefix : str) {struct prefix} : bool :=
  match prefix, s with
  | [], _ => true
  | p :: prefix', c :: s' => chr_eqb c p && startswith s' prefix'
  | _ :: _, [] => false
  end.

(** [sep.join(parts)] *)
Fixpoint join (sep : str) (parts : list str) : str :=
  match parts with
  | [] => []
  | [p] => p
  | p :: rest => p ++ sep ++ join sep rest
  end.

(** [s.replace(a, b)] for one-character [a] and [b]. *)
Definition replace_chr (a b : ascii) (s : str) : str :=
  map (fun c => if chr_eqb c a then b else c) s.

(** [needle in haystack] for strings. *)
Fixpoint contains (haystack needle : str) : bool :=
  startswith haystack needle ||
  match haystack with
  | [] => false
  | _ :: h => contains h needle
  end.

(** Decimal rendering of a non-negative integer, as [str.format] does. *)
Definition str_of_nat (n : nat) : str :=
  lit (NilEmpty.string_of_uint (Nat.to_uint n)).

(** *** [str.splitlines]

    A line ends at LF, CR, CRLF, VT, FF, FS, GS, RS or NEL; the terminator is
    dropped and a final terminator opens no further line. *)
Definition is_linebreak (c : ascii) : bool :=
  let n := nat_of_ascii c in
  (n =? 10) || (n =? 13) || (n =? 11) || (n =? 12) ||
  (n =? 28) || (n =? 29) || (n =? 30) || (n =? 133).

Definition CR : ascii := ascii_of_nat 13.
Definition LF : ascii := ascii_of_nat 10.
Definition NL : str := [LF].

Fixpoint splitlines_aux (cur : str) (s : str) : list str :=
  match s with
  | [] => match cur with [] => [] | _ => [rev cur] end
  | c :: t =>
      if is_linebreak c then
        rev cur ::
        (if chr_eqb c CR then
           match t with
           | d :: t' => if chr_eqb d LF then splitlines_aux [] t'
                        else splitlines_aux [] t
           | [] => splitlines_aux [] t
           end
         else splitlines_aux [] t)
      else splitlines_aux (c :: cur) t
  end.

Definition splitlines (s : str) : list str := splitlines_aux [] s.

(** ** Regular expressions

    The fragment of Python's [re] syntax that the script uses, with the
    backtracking semantics of [re]: alternatives are tried left to right,
    repetition is greedy, and a later failure backtracks into earlier
    choices.  A matcher is written in continuation-passing style; the
    continuation receives the position reached, the remaining input and the
    groups captured so far. *)

Inductive regex : Type :=
| Bol                                   (* ^ *)
| Eol                                   (* $ *)
| Chr (c : ascii)                       (* a literal character *)
| Str (s : str)                         (* a literal string *)
| Cls (p : ascii -> bool)               (* [...] *)
| Opt (c : ascii)                       (* c? *)
| Rep (n : nat) (p : ascii -> bool)     (* [...]{n} *)
| Plus (p : ascii -> bool)              (* [...]+ *)
| Seq (r1 r2 : regex)
| Alt (r1 r2 : regex)                   (* r1|r2 *)
| Grp (n : nat) (r : regex).            (* the n-th parenthesis *)

Definition groups : Type := list (nat * str).

Fixpoint group_lookup (n : nat) (g : groups) : option str :=
  match g with
  | [] => None
  | (m, s) :: g' => if n =? m then Some s else group_lookup n g'
  end.

Section Matcher.
Context {R : Type}.
Definition cont : Type := nat -> str -> groups -> option R.

Fixpoint rep_loop (n : nat) (p : ascii -> bool)
         (i : nat) (rest : str) (g : groups) (k : cont) : option R :=
  match n with
  | 0 => k i rest g
  | S n' =>
      match rest with
      | c :: t => if p c then rep_loop n' p (S i) t g k else None
      | [] => None
      end
  end.

(** Greedy [+]: consume as much as possible, give back one character at a
    time while the continuation fails. *)
Fixpoint plus_loop (p : ascii -> bool)
         (i : nat) (rest : str) (g : groups) (k : cont) : option R :=
  match rest with
  | c :: t =>
      if p c then
        match plus_loop p (S i) t g k with
        | Some r => Some r
        | None => k (S i) t g
        end
      else None
  | [] => None
  end.

Fixpoint rmatch (r : regex) (i : nat) (rest : str) (g : groups) (k : cont)
  : option R :=
  match r with
  | Bol => if i =? 0 then k i rest g else None
  | Eol =>
      match rest with
      | [] => k i rest g
      | [c] => if chr_eqb c LF then k i rest g else None
      | _ => None
      end
  | Chr c =>
      match rest with
      | x :: t => if chr_eqb x c then k (S i) t g else None
      | [] => None
      end
  | Str s =>
      if startswith rest s
      then k (i + length s) (skipn (length s) rest) g else None
  | Cls p =>
      match rest with
      | x :: t => if p x then k (S i) t g else None
      | [] => None
      end
  | Opt c =>
      let taken :=
        match rest with
        | x :: t => if chr_eqb x c then k (S i) t g else None
        | [] => None
        end in
      match taken with
      | Some res => Some res
      | None => k i rest g
      end
  | Rep n p => rep_loop n p i rest g k
  | Plus p => plus_loop p i rest g k
  | Seq r1 r2 =>
      rmatch r1 i rest g (fun i' rest' g' => rmatch r2 i' rest' g' k)
  | Alt r1 r2 =>
      match rmatch r1 i rest g k with
      | Some res => Some res
      | None => rmatch r2 i rest g k
      end
  | Grp n r' =>
      rmatch r' i rest g
             (fun i' rest' g' => k i' rest' ((n, firstn (i' - i) rest) :: g'))
  end.
End Matcher.

(** A match object: where the match ended and what the groups captured. *)
Record rematch : Type := MkMatch {
  m_start : nat;
  m_end : nat;
  m_groups : groups
}.

(** [m.group(n)] for [n >= 1]; [None] when the group took no part. *)
Definition group (m : rematch) (n : nat) : option str :=
  group_lookup n (m_groups m).

Definition match_at (r : regex) (i : nat) (rest : str) : option rematch :=
  rmatch r i rest [] (fun j _ g => Some (MkMatch i j g)).

(** [re.search]: the match at the leftmost position that has one. *)
Fixpoint search_from (r : regex) (i : nat) (rest : str) : option rematch :=
  match match_at r i rest with
  | Some m => Some m
  | None =>
      match rest with
      | [] => None
      | _ :: t => search_from r (S i) t
      end
  end.

Definition re_search (r : regex) (s : str) : option rematch :=
  search_from r 0 s.

(** [re.split] for a pattern without groups: the pieces between successive
    leftmost matches.  [skip] counts the characters of a match still to be
    passed over.  Empty matches do not split; the one pattern the script
    splits on always consumes at least two characters. *)
Fixpoint split_loop (r : regex) (i : nat) (rest : str) (skip : nat) (cur : str)
  : list str :=
  match rest with
  | [] => [rev cur]
  | c :: t =>
      match skip with
      | S k => split_loop r (S i) t k cur
      | 0 =>
          match match_at r i rest with
          | Some m =>
              match m_end m - i with
              | S k => rev cur :: split_loop r (S i) t k []
              | 0 => split_loop r (S i) t 0 (c :: cur)
              end
          | None => split_loop r (S i) t 0 (c :: cur)
          end
      end
  end.

Definition re_split (r : regex) (s : str) : list str := split_loop r 0 s 0 [].

(** [re.sub(r, repl, s)] for a pattern without groups and a literal
    replacement: the pieces of [re.split] glued with [repl]. *)
Definition re_sub (r : regex) (repl : str) (s : str) : str :=
  join repl (re_split r s).

(** *** Character classes *)
Definition upper (c : ascii) : bool := in_range "A" "Z" c.      (* [A-Z] *)
Definition digit (c : ascii) : bool := in_range "0" "9" c.      (* \d, [0-9] *)
Definition hexhy (c : ascii) : bool :=                           (* [\da-f-] *)
  digit c || in_range "a" "f" c || chr_eqb c "-".
Definition QUOTE : ascii := ascii_of_nat 34.
Definition not_quote (c : ascii) : bool := negb (chr_eqb c QUOTE). (* any but the double quote *)
Definition unsafe_chr (c : ascii) : bool :=                      (* [/\\?%*:|<>] and the double quote *)
  existsb (chr_eqb c) ["/"; "\"; "?"; "%"; "*"; ":"; "|"; QUOTE; "<"; ">"]%char.

(** *** The patterns of the script *)

(** [(^|/)([A-Z]{4}\d{8})($|/)] *)
Definition direct_re : regex :=
  Seq (Grp 1 (Alt Bol (Chr "/")))
      (Seq (Grp 2 (Seq (Rep 4 upper) (Rep 8 digit)))
           (Grp 3 (Alt Eol (Chr "/")))).

(** [(^|/)PS\*([\da-f-]+)($|/)] *)
Definition star_re : regex :=
  Seq (Grp 1 (Alt Bol (Chr "/")))
      (Seq (Str "PS*")
           (Seq (Grp 2 (Plus hexhy))
                (Grp 3 (Alt Eol (Chr "/"))))).

(** [(^|mediaId=)([0-9]+)($|&)] *)
Definition media_re : regex :=
  Seq (Grp 1 (Alt Bol (Str "mediaId=")))
      (Seq (Grp 2 (Plus digit))
           (Grp 3 (Alt Eol (Chr "&")))).

(** [URI=QUOTE([^QUOTE]+)QUOTE] *)
Definition uri_re : regex :=
  Seq (Str (cat "URI=" [QUOTE])) (Seq (Grp 1 (Plus not_quote)) (Chr QUOTE)).

(** [\r?\n\r?\n] *)
Definition blank_line_re : regex :=
  Seq (Opt CR) (Seq (Chr LF) (Seq (Opt CR) (Chr LF))).

(** The character class of [create_filename_base]. *)
Definition unsafe_re : regex := Cls unsafe_chr.

(** [template.format(args...)]: each [{}] of the template is replaced by the
    next argument; the arguments are not scanned again.  Every template of
    the script has as many fields as it is given arguments. *)
Fixpoint format (template : str) (args : list str) : str :=
  match template with
  | "{"%char :: t1 =>
      match t1, args with
      | "}"%char :: t, a :: args' => a ++ format t args'
      | _, _ => "{"%char :: format t1 args
      end
  | c :: t => c :: format t args
  | [] => []
  end.

(** ** Python values *)

#[local] Set Warnings "-register-all".

Inductive value : Type :=
| VNone
| VBool (b : bool)
| VInt (z : Z)
| VFloat (m e : Z)                      (* m * 2^e *)
| VStr (s : str)
| VList (l : list value)
| VDict (d : list (str * value)).

(** Truth value of an object, as [if x], [not x] and [x or y] take it. *)
Definition truthy (v : value) : bool :=
  match v with
  | VNone => false
  | VBool b => b
  | VInt z => negb (Z.eqb z 0)
  | VFloat m _ => negb (Z.eqb m 0)
  | VStr s => match s with [] => false | _ => true end
  | VList l => match l with [] => false | _ => true end
  | VDict d => match d with [] => false | _ => true end
  end.

(** [x or y] *)
Definition py_or (x y : value) : value := if truthy x then x else y.

Fixpoint assoc {A : Type} (k : str) (d : list (str * A)) : option A :=
  match d with
  | [] => None
  | (k', v) :: d' => if str_eqb k k' then Some v else assoc k d'
  end.

(** [d.get(k, default)] on a dictionary *)
Definition dict_get (d : list (str * value)) (k : str) (default : value) : value :=
  match assoc k d with
  | Some v => v
  | None => default
  end.

(** ** Exceptions, state and the monad *)

Inductive exn : Type :=
| NameError (name : string)
| UnboundLocalError (name : string)
| AttributeError (attr : string)
| IndexError
| KeyError (key : str)
| TypeError
| ValueError
| RecursionError
| OSError
| UnicodeEncodeError
| ExternalError (what : string).

Inductive result (A : Type) : Type :=
| Ok (a : A)
| Raise (e : exn).
Arguments Ok {A} a.
Arguments Raise {A} e.

(** What the script can observe and change: the files of the working
    directory, the lines printed so far, and the URLs handed to
    [requests.get] so far (oldest first). *)
Record state : Type := MkState {
  files : list (str * str);
  stdout : list str;
  requested : list str
}.

Definition M (A : Type) : Type := state -> result A * state.

Definition ret {A} (a : A) : M A := fun st => (Ok a, st).
Definition raise {A} (e : exn) : M A := fun st => (Raise e, st).
Definition bind {A B} (c : M A) (k : A -> M B) : M B :=
  fun st =>
    match c st with
    | (Ok a, st') => k a st'
    | (Raise e, st') => (Raise e, st')
    end.

Notation "x <- c ;; k" := (bind c (fun x => k))
  (at level 61, c at next level, right associativity).
Notation "c ;; k" := (bind c (fun _ => k))
  (at level 61, right associativity).

(** The state after one more line is printed, and after one more URL is
    requested. *)
Definition printed (line : str) (st : state) : state :=
  MkState (files st) (stdout st ++ [line]) (requested st).

Definition logged (url : str) (st : state) : state :=
  MkState (files st) (stdout st) (requested st ++ [url]).

(** [print(line)] *)
Definition print (line : str) : M unit :=
  fun st => (Ok tt, printed line st).

Definition isfile (path : str) (st : state) : bool :=
  existsb (fun f => str_eqb path (fst f)) (files st).

(** The state after the file [filename] has been given the content
    [content], whether it existed or not. *)
Definition put_file (filename content : str) (st : state) : state :=
  MkState ((filename, content) ::
           filter (fun f => negb (str_eqb filename (fst f))) (files st))
          (stdout st) (requested st).

(** ** The libraries and the world outside the script *)

(** A response of [requests]: [bool(r)] is [r.ok], the body is [r.text]. *)
Record response : Type := MkResponse {
  ok : bool;
  text : str
}.

(** [requests.exceptions.MissingSchema] is a [RequestException]; the handlers
    of [get_req] tell it from the others. *)
Inductive request_error : Type :=
| MissingSchema (msg : str)
| RequestException (msg : str).

(** A parsed document of [bs4]. *)
Inductive node : Type :=
| Tag (name : str) (attrs : list (str * str)) (children : list node)
| Text (s : str).

Class External : Type := {
  (** [requests.get(url, headers = headers)] *)
  requests_get : str -> value -> response + request_error;
  (** [BeautifulSoup(text, 'lxml')] *)
  BeautifulSoup : str -> node;
  (** [json.loads(text)]; [None] stands for a [ValueError] *)
  json_loads : str -> option value;
  (** [requests.compat.urljoin(base, url)] *)
  urljoin : str -> str -> str;
  (** [str(v)] of an object that is not a string *)
  py_repr : value -> str;
  (** [hls.dump(url, filename, progress)] of the repository's [libs] package *)
  hls_dump : value -> str -> state -> result unit * state;
  (** [io.open(filename, 'w')]: the exception it raises, if it raises *)
  io_open : str -> option exn;
  (** [f.write(content)] and the closing of the file: when one of them
      raises, what the file then holds and the exception *)
  f_write : str -> str -> option (str * exn)
}.

(** *** The part of [bs4] the script uses *)

(** The first element in document order, among [n] and its descendants, that
    [p] accepts. *)
Fixpoint find_node (p : str -> list (str * str) -> bool) (n : node) : option node :=
  match n with
  | Text _ => None
  | Tag name attrs children =>
      if p name attrs then Some n
      else (fix go (l : list node) : option node :=
              match l with
              | [] => None
              | c :: l' =>
                  match find_node p c with
                  | Some r => Some r
                  | None => go l'
                  end
              end) children
  end.

Fixpoint find_first (p : str -> list (str * str) -> bool) (l : list node) : option node :=
  match l with
  | [] => None
  | c :: l' =>
      match find_node p c with
      | Some r => Some r
      | None => find_first p l'
      end
  end.

(** [soup.find(name, attrs)], and [soup.script] and [soup.figure]: the first
    element below the root that [p] accepts. *)
Definition soup_find (soup : node) (p : str -> list (str * str) -> bool) : option node :=
  match soup with
  | Tag _ _ children => find_first p children
  | Text _ => None
  end.

(** [tag.get(attr)] *)
Definition tag_get (t : node) (attr : str) : value :=
  match t with
  | Tag _ attrs _ =>
      match assoc attr attrs with
      | Some v => VStr v
      | None => VNone
      end
  | Text _ => VNone
  end.

(** [tag.get_text()] *)
Fixpoint get_text (n : node) : str :=
  match n with
  | Text s => s
  | Tag _ _ children =>
      (fix go (l : list node) : str :=
         match l with
         | [] => []
         | c :: l' => get_text c ++ go l'
         end) children
  end.

(** ** The script *)

Definition VERSION : str := "1.1.3".
Definition TVAPI_HEADERS : value := VDict [(lit "app-version-android", VStr "999")].
Definition TVAPI_BASE_URL : str := "https://tvapi.nrk.no/v1/programs/{}".
Definition MIMIR_BASE_URL : str := "https://mimir.nrk.no/plugin/1.0/static?mediaId={}".

(** The names bound at module level, with the value of those that are data.
    The others are the imported modules and the functions of the script. *)
Definition module_globals : list (string * option value) :=
  [("re", None); ("os", None); ("io", None); ("sys", None);
   ("requests", None); ("argparse", None); ("json", None);
   ("BeautifulSoup", None); ("hls", None);
   ("VERSION", Some (VStr VERSION));
   ("TVAPI_HEADERS", Some TVAPI_HEADERS);
   ("TVAPI_BASE_URL", Some (VStr TVAPI_BASE_URL));
   ("MIMIR_BASE_URL", Some (VStr MIMIR_BASE_URL));
   ("progress", None); ("error", None); ("get_req", None);
   ("create_filename_base", None); ("nrk_vtt_to_srt", None);
   ("get_vtt_file_url", None); ("save_subtitles", None);
   ("save_stream", None); ("download", None);
   ("get_program_id_from_html", None);
   ("get_program_id_from_media_id", None); ("get_program_id", None);
   ("main", None); ("get_argument_parser", None); ("programs", None)].

Fixpoint lookup_global (name : string) (l : list (string * option value))
  : option (option value) :=
  match l with
  | [] => None
  | (n, v) :: l' => if String.eqb name n then Some v else lookup_global name l'
  end.

(** Reading a name that is not a local variable: a [NameError] when nothing
    binds it.  A module or a function is no [value] of this model; the script
    passes none of them where a value is expected. *)
Definition load_global (name : string) : M value :=
  match lookup_global name module_globals with
  | Some (Some v) => ret v
  | Some None => raise TypeError
  | None => raise (NameError name)
  end.

(** The interpreter's bound on nested calls ([sys.getrecursionlimit()]). *)
Definition recursion_limit : nat := 1000.

Section Script.
Context {E : External}.

(** [str(v)] as [format] and [requests] take it. *)
Definition py_str (v : value) : str :=
  match v with
  | VStr s => s
  | _ => py_repr v
  end.

Definition error (message : str) : M unit :=
  print (format "Error: {}" [message]).

Definition log_request (url : str) : M unit :=
  fun st => (Ok tt, logged url st).

(** [get_req(url, headers = None)].  [depth] bounds the nesting of the
    recursive call, as the interpreter does. *)
Fixpoint get_req_depth (depth : nat) (url : str) (headers : value)
  : M (option response) :=
  match depth with
  | 0 => raise RecursionError
  | S depth' =>
      log_request url ;;
      match requests_get url headers with
      | inl req => ret (Some req)
      | inr (MissingSchema _) =>
          session <- load_global "session" ;;
          get_req_depth depth' (format "https://{}" [url]) session
      | inr (RequestException e) =>
          error e ;;
          ret None
      end
  end.

Definition get_req (url : str) (headers : value) : M (option response) :=
  get_req_depth recursion_limit url headers.

(** [req.text] and [req.json()] where [req] may be [None] *)
Definition req_text (req : option response) : M str :=
  match req with
  | Some r => ret (text r)
  | None => raise (AttributeError "text")
  end.

Definition req_json (req : option response) : M value :=
  match req with
  | Some r =>
      match json_loads (text r) with
      | Some v => ret v
      | None => raise ValueError
      end
  | None => raise (AttributeError "json")
  end.

(** [not req] *)
Definition not_req (req : option response) : bool :=
  match req with
  | Some r => negb (ok r)
  | None => true
  end.

(** The [while] loop of [create_filename_base]: the first [i], counting
    from the given one, for which no file [basename (i).ts] exists.
    [fuel] bounds the search; [first_free_fuel] shows that one more than the
    number of files is enough. *)
Fixpoint first_free (fuel : nat) (basename : str) (i : nat) (st : state) : nat :=
  match fuel with
  | 0 => i
  | S fuel' =>
      if isfile (format "{} ({}).ts" [basename; str_of_nat i]) st
      then first_free fuel' basename (S i) st
      else i
  end.

Definition create_filename_base (title : value) : M str :=
  match title with
  | VStr title =>
      let basename := re_sub unsafe_re "_" title in
      fun st =>
        if isfile (format "{}.ts" [basename]) st then
          let i := first_free (S (length (files st))) basename 1 st in
          (Ok (format "{} ({}).ts" [basename; str_of_nat i]), st)
        else (Ok basename, st)
  | _ => raise TypeError
  end.

(** [cue_lines[1] = cue_lines[1].replace('.', ',')] *)
Definition convert_cue_lines (cue_lines : list str) : M (list str) :=
  match cue_lines with
  | l0 :: l1 :: rest => ret (l0 :: replace_chr "." "," l1 :: rest)
  | _ => raise IndexError
  end.

(** The [for] loop of [nrk_vtt_to_srt], with [srt_cues] as accumulator. *)
Fixpoint convert_cues (vtt_cues : list str) (srt_cues : list str) : M (list str) :=
  match vtt_cues with
  | [] => ret srt_cues
  | cue :: rest =>
      cue_lines <- convert_cue_lines (splitlines cue) ;;
      convert_cues rest (srt_cues ++ [join NL cue_lines])
  end.

Definition nrk_vtt_to_srt (vtt : str) : M str :=
  let vtt_cues := tl (re_split blank_line_re vtt) in
  srt_cues <- convert_cues vtt_cues [] ;;
  ret (join (NL ++ NL) srt_cues).

(** The first loop of [get_vtt_file_url]: [Some line] when the loop binds
    [sub_stream_line]. *)
Fixpoint find_sub_stream_line (lines : list str) : option str :=
  match lines with
  | [] => None
  | line :: rest =>
      if startswith line "#EXT-X-MEDIA:TYPE=SUBTITLES" then Some line
      else find_sub_stream_line rest
  end.

(** The second loop: [line[0]] fails on an empty line. *)
Fixpoint find_sub_filename (lines : list str) : M (option str) :=
  match lines with
  | [] => ret None
  | line :: rest =>
      match line with
      | [] => raise IndexError
      | c :: _ =>
          if negb (chr_eqb c "#") then ret (Some line)
          else find_sub_filename rest
      end
  end.

Definition get_vtt_file_url (media_url : value) : M str :=
  main_manifest_req <- get_req (py_str media_url) VNone ;;
  main_text <- req_text main_manifest_req ;;
  match find_sub_stream_line (splitlines main_text) with
  | None => raise (UnboundLocalError "sub_stream_line")
  | Some sub_stream_line =>
      match re_search uri_re sub_stream_line with
      | None => raise (AttributeError "group")
      | Some m =>
          match group m 1 with
          | None => raise TypeError   (* group 1 takes part in every match *)
          | Some sub_manifest_url =>
              sub_manifest_req <- get_req sub_manifest_url VNone ;;
              sub_text <- req_text sub_manifest_req ;;
              found <- find_sub_filename (splitlines sub_text) ;;
              match found with
              | None => raise (UnboundLocalError "sub_filename")
              | Some sub_filename => ret (urljoin sub_manifest_url sub_filename)
              end
          end
      end
  end.

(** [io.open(filename, 'w')]: when it raises, the files are as they were;
    otherwise the file exists and is empty. *)
Definition open_for_writing (filename : str) : M unit :=
  fun st =>
    match io_open filename with
    | Some e => (Raise e, st)
    | None => (Ok tt, put_file filename [] st)
    end.

(** [f.write(content)] and the end of the [with] block: a failure leaves in
    the file what had been written. *)
Definition write_and_close (filename content : str) : M unit :=
  fun st =>
    match f_write filename content with
    | Some (partial, e) => (Raise e, put_file filename partial st)
    | None => (Ok tt, put_file filename content st)
    end.

(** [with io.open(filename, 'w') as f: f.write(content)] *)
Definition write_file (filename content : str) : M unit :=
  open_for_writing filename ;;
  write_and_close filename content.

Definition save_subtitles (media_url : value) (filename : str) : M unit :=
  print (format "Saving {}" [filename]) ;;
  sub_url <- get_vtt_file_url media_url ;;
  vtt_req <- get_req sub_url VNone ;;
  vtt <- req_text vtt_req ;;
  srt <- nrk_vtt_to_srt vtt ;;
  write_file filename srt.

(** [json_data[key]] on a dictionary *)
Definition dict_item (d : list (str * value)) (key : str) : M value :=
  match assoc key d with
  | Some v => ret v
  | None => raise (KeyError key)
  end.

Definition save_stream (json_data : value) : M unit :=
  match json_data with
  | VDict d =>
      let title := py_or (dict_get d "fullTitle" VNone) (dict_get d "title" VNone) in
      print (format "Found {}" [py_str title]) ;;
      filename_base <- create_filename_base title ;;
      (if truthy (dict_get d "hasSubtitles" VNone) then
         media_url <- dict_item d "mediaUrl" ;;
         save_subtitles media_url (format "{}.srt" [filename_base])
       else ret tt) ;;
      print (format (cat "Saving {}.ts" NL) [filename_base]) ;;
      media_url <- dict_item d "mediaUrl" ;;
      hls_dump media_url (format "{}.ts" [filename_base])
  | _ => raise (AttributeError "get")
  end.

(** ['mediaUrl' in response_data] *)
Definition has_mediaUrl (response_data : value) : M bool :=
  match response_data with
  | VDict d => ret (match assoc (lit "mediaUrl") d with Some _ => true | None => false end)
  | VList l =>
      ret (existsb (fun v => match v with
                             | VStr s => str_eqb s "mediaUrl"
                             | _ => false
                             end) l)
  | VStr s => ret (contains s "mediaUrl")
  | _ => raise TypeError
  end.

Definition download (program_id : value) : M unit :=
  req <- get_req (format TVAPI_BASE_URL [py_str program_id]) TVAPI_HEADERS ;;
  response_data <- req_json req ;;
  if negb (truthy response_data) then
    error "Empty response from server. Non-existing program ID?"
  else
    has <- has_mediaUrl response_data ;;
    if negb has then
      error "Could not find media stream. No longer available?"
    else
      save_stream response_data ;;
      print NL.

Definition is_section_program_info (name : str) (attrs : list (str * str)) : bool :=
  str_eqb name "section" &&
  match assoc (lit "id") attrs with
  | Some v => str_eqb v "program-info"
  | None => false
  end.

Definition is_tag (tag : str) (name : str) (attrs : list (str * str)) : bool :=
  str_eqb name tag.

(** [a or b] where each is a tag or [None]; a tag is always true. *)
Definition or_else {A} (a b : option A) : option A :=
  match a with
  | Some _ => a
  | None => b
  end.

Definition get_program_id_from_html (url : str) : M value :=
  req <- get_req url VNone ;;
  if not_req req then ret VNone
  else
    req_text_ <- req_text req ;;
    let soup := BeautifulSoup req_text_ in
    let id_element := or_else (soup_find soup is_section_program_info)
                              (soup_find soup (is_tag "figure")) in
    match id_element with
    | None => ret VNone
    | Some id_element =>
        ret (py_or (tag_get id_element "data-ga-from-id")
                   (tag_get id_element "data-video-id"))
    end.

Definition get_program_id_from_media_id (media_id : value) : M value :=
  let url := format MIMIR_BASE_URL [py_str media_id] in
  req <- get_req url VNone ;;
  if not_req req then ret VNone
  else
    req_text_ <- req_text req ;;
    let soup := BeautifulSoup req_text_ in
    match soup_find soup (is_tag "script") with
    | None => raise (AttributeError "get_text")
    | Some script =>
        match json_loads (get_text script) with
        | None => raise ValueError
        | Some (VDict json_info) =>
            match dict_get json_info "activeMedia" (VDict []) with
            | VDict active => ret (dict_get active "psId" VNone)
            | _ => raise (AttributeError "get")
            end
        | Some _ => raise (AttributeError "get")
        end
    end.

(** [m.group(2)] as a value: a group that took no part gives [None]. *)
Definition group_value (m : rematch) (n : nat) : value :=
  match group m n with
  | Some s => VStr s
  | None => VNone
  end.

Definition get_program_id (passed_string : str) : M value :=
  let program_id_match := or_else (re_search direct_re passed_string)
                                  (re_search star_re passed_string) in
  match program_id_match with
  | Some m => ret (group_value m 2)
  | None =>
      match re_search media_re passed_string with
      | Some media_id_match =>
          get_program_id_from_media_id (group_value media_id_match 2)
      | None => get_program_id_from_html passed_string
      end
  end.

(** The body of the loop of [main]: [i] is the index [enumerate] gives,
    [n] is [len(programs)]. *)
Definition main_body (n i : nat) (program : str) : M unit :=
  print (format "Downloading {} of {}:" [str_of_nat (i + 1); str_of_nat n]) ;;
  program_id <- get_program_id program ;;
  if truthy program_id then download program_id
  else error (format "Could not parse program ID from '{}'" [program]).

Fixpoint main_loop (n i : nat) (programs : list str) : M unit :=
  match programs with
  | [] => ret tt
  | program :: rest =>
      main_body n i program ;;
      main_loop n (S i) rest
  end.

Definition main (programs : list str) : M unit :=
  print (format (cat "NRK Download {}" NL) [VERSION]) ;;
  main_loop (length programs) 0 programs.
End Script.

(** ** Concrete worlds, for evaluation *)

Definition st0 : state := MkState [] [] [].


(** No network: every request fails with a connection error. *)
#[local] Instance offline : External := {
  requests_get := fun _ _ => inr (RequestException "connection refused");
  BeautifulSoup := fun _ => Tag "[document]" [] [];
  json_loads := fun _ => None;
  urljoin := fun base url => url;
  py_repr := fun _ => "?";
  hls_dump := fun _ _ st => (Ok tt, st);
  io_open := fun _ => None;
  f_write := fun _ _ => None
}.

(** [requests] refuses a URL without a scheme; nothing else is reachable. *)
#[local] Instance schemeless : External := {
  requests_get := fun url _ =>
    if startswith url "http" then inr (RequestException "unreachable")
    else inr (MissingSchema "No scheme supplied");
  BeautifulSoup := fun _ => Tag "[document]" [] [];
  json_loads := fun _ => None;
  urljoin := fun base url => url;
  py_repr := fun _ => "?";
  hls_dump := fun _ _ st => (Ok tt, st);
  io_open := fun _ => None;
  f_write := fun _ _ => None
}.

(** The lookup endpoint answers with a page that has no script element. *)
#[local] Instance no_script : External := {
  requests_get := fun _ _ => inl (MkResponse true "<html><body></body></html>");
  BeautifulSoup := fun _ => Tag "[document]" [] [Tag "html" [] [Tag "body" [] []]];
  json_loads := fun _ => None;
  urljoin := fun base url => url;
  py_repr := fun _ => "?";
  hls_dump := fun _ _ st => (Ok tt, st);
  io_open := fun _ => None;
  f_write := fun _ _ => None
}.

Definition master_m3u8 : str :=
  cat "#EXTM3U
#EXT-X-MEDIA:TYPE=SUBTITLES,URI=" (QUOTE :: cat "https://host/path/sub.m3u8" [QUOTE]).

(** A subtitle playlist with an empty line before the segment. *)
Definition sub_m3u8 : str := "#EXTM3U

seg.vtt".

#[local] Instance empty_line : External := {
  requests_get := fun url _ =>
    if str_eqb url "https://host/master.m3u8" then inl (MkResponse true master_m3u8)
    else if str_eqb url "https://host/path/sub.m3u8" then inl (MkResponse true sub_m3u8)
    else inr (RequestException "not found");
  BeautifulSoup := fun _ => Tag "[document]" [] [];
  json_loads := fun _ => None;
  urljoin := fun base url => url;
  py_repr := fun _ => "?";
  hls_dump := fun _ _ st => (Ok tt, st);
  io_open := fun _ => None;
  f_write := fun _ _ => None
}.

(** ** The conversion as the specification words it

    Blocks are separated by a blank line whose two line endings are each
    bare or prefixed by a carriage return; the first block is dropped; in
    each other block the line of index 1 has every [.] replaced by [,]; the
    lines of a block are joined again, and the blocks are joined with a blank
    line between them. *)

Definition blank_line_delimiters : list str :=
  [[LF; LF]; [CR; LF; LF]; [LF; CR; LF]; [CR; LF; CR; LF]].

(** The length of the delimiter that [s] starts with, if it starts with one. *)
Definition delimiter_at (s : str) : option nat :=
  option_map (fun d => length d) (find (startswith s) blank_line_delimiters).

Fixpoint spec_split (s : str) (skip : nat) (cur : str) : list str :=
  match s with
  | [] => [rev cur]
  | c :: t =>
      match skip with
      | S k => spec_split t k cur
      | 0 =>
          match delimiter_at s with
          | Some (S k) => rev cur :: spec_split t k []
          | _ => spec_split t 0 (c :: cur)
          end
      end
  end.

Definition spec_blocks (vtt : str) : list str := spec_split vtt 0 [].

(** [lines] with [f] applied to the line of index [i], the others as they are. *)
Fixpoint update_at (i : nat) (f : str -> str) (lines : list str) : list str :=
  match lines, i with
  | [], _ => []
  | l :: rest, 0 => f l :: rest
  | l :: rest, S i' => l :: update_at i' f rest
  end.

Definition spec_convert_block (block : str) : str :=
  join NL (update_at 1 (replace_chr "." ",") (splitlines block)).

Definition spec_convert (vtt : str) : str :=
  join (NL ++ NL) (map spec_convert_block (tl (spec_blocks vtt))).

Definition has_two_lines (cue : str) : Prop := 2 <= length (splitlines cue).

Definition example_vtt : str := "WEBVTT

1
00:00:01.000 --> 00:00:02.000
Hello".

Definition example_srt : str := "1
00:00:01,000 --> 00:00:02,000
Hello".

(** The example's text followed by two newlines: its last block is empty. *)
Definition trailing_blank_vtt : str := "WEBVTT

1
00:00:01.000 --> 00:00:02.000
Hello

".

(** A cue block of one line. *)
Definition single_line_vtt : str := "WEBVTT

Hello".

Definition is_directive (line : str) : Prop := startswith line "#" = true.


(** The line [main] prints before it handles the reference of index [i]. *)
Definition header (n i : nat) : str :=
  format "Downloading {} of {}:" [str_of_nat (i + 1); str_of_nat n].




(** ** Delimited tokens, as the specification words them

    A token is delimited on the left by the start of the string or a [/],
    on the right by the end of the string or a [/]. *)

Definition left_delimited (pre : str) : Prop :=
  pre = [] \/ exists p, pre = p ++ ["/"%char].

Definition right_delimited (post : str) : Prop :=
  post = [] \/ exists q, post = "/"%char :: q.

(** Four upper-case letters followed by eight digits. *)
Definition is_direct_token (tok : str) : Prop :=
  exists letters digits,
    tok = letters ++ digits /\
    length letters = 4 /\ forallb upper letters = true /\
    length digits = 8 /\ forallb digit digits = true.

(** One or more characters that are a hexadecimal digit or a hyphen. *)
Definition is_star_token (tok : str) : Prop :=
  tok <> [] /\ forallb hexhy tok = true.

(** [s] holds the token [tok], after [pre] and the marker [mark], delimited
    on both sides. *)
Definition occurs (shape : str -> Prop) (mark : str) (s pre tok post : str) : Prop :=
  s = pre ++ mark ++ tok ++ post /\ shape tok /\
  left_delimited pre /\ right_delimited post.

(** *** What the matcher does with those patterns, without the matcher *)

(** [($|/)] on the rest of the input: [$] holds at the end and before a last
    newline. *)
Definition ends_ok (rest : str) : bool :=
  match rest with
  | [] => true
  | c :: t => (match t with [] => chr_eqb c LF | _ => false end) || chr_eqb c "/"
  end.

Fixpoint take_while (p : ascii -> bool) (s : str) : str :=
  match s with
  | c :: t => if p c then c :: take_while p t else []
  | [] => []
  end.

Fixpoint drop_while (p : ascii -> bool) (s : str) : str :=
  match s with
  | c :: t => if p c then drop_while p t else s
  | [] => []
  end.

(** [([A-Z]{4}\d{8})($|/)] at the start of the input: the token. *)
Definition direct_at (rest : str) : option str :=
  if (4 <=? length rest) && forallb upper (firstn 4 rest) then
    if (8 <=? length (skipn 4 rest)) && forallb digit (firstn 8 (skipn 4 rest)) then
      if ends_ok (skipn 8 (skipn 4 rest)) then Some (firstn 12 rest) else None
    else None
  else None.

(** [PS\*([\da-f-]+)($|/)] at the start of the input: the group. *)
Definition star_at (rest : str) : option str :=
  if startswith rest "PS*" then
    match take_while hexhy (skipn 3 rest) with
    | [] => None
    | tok => if ends_ok (drop_while hexhy (skipn 3 rest)) then Some tok else None
    end
  else None.

(** [(^|/)] followed by a token, at position [i]. *)
Definition here (tok_at : str -> option str) (i : nat) (rest : str) : option str :=
  match (if i =? 0 then tok_at rest else None) with
  | Some t => Some t
  | None =>
      match rest with
      | c :: r => if chr_eqb c "/" then tok_at r else None
      | [] => None
      end
  end.

(** The leftmost delimited token: [boundary] tells whether the position is
    the start of the string or follows a [/]. *)
Fixpoint scan (tok_at : str -> option str) (boundary : bool) (rest : str)
  : option str :=
  match (if boundary then tok_at rest else None) with
  | Some t => Some t
  | None =>
      match rest with
      | [] => None
      | c :: r => scan tok_at (chr_eqb c "/") r
      end
  end.

(** Whether a token may start after [done]. *)
Definition boundary_after (done : str) : bool :=
  match rev done with
  | [] => true
  | c :: _ => chr_eqb c "/"
  end.

(** The part of [direct_re] and of [star_re] after [(^|/)]. *)
Definition direct_tail : regex :=
  Seq (Grp 2 (Seq (Rep 4 upper) (Rep 8 digit))) (Grp 3 (Alt Eol (Chr "/"))).

Definition star_tail : regex :=
  Seq (Str "PS*") (Seq (Grp 2 (Plus hexhy)) (Grp 3 (Alt Eol (Chr "/")))).

Definition group2 (m : option rematch) : option (option str) :=
  option_map (fun m => group m 2) m.

(** The continuation of a match that started at [i0]. *)
Definition finish (i0 : nat) : @cont rematch := fun j _ g => Some (MkMatch i0 j g).

(** The two kinds of identifier in a reference: a token of four letters and
    eight digits, and a token of hexadecimal digits and hyphens after the
    marker [PS*]. *)
Definition direct_token_in (s pre tok post : str) : Prop :=
  occurs is_direct_token [] s pre tok post.

Definition star_token_in (s pre tok post : str) : Prop :=
  occurs is_star_token "PS*" s pre tok post.

(** The numbered file name [create_filename_base] tries for [i]. *)
Definition numbered (basename : str) (i : nat) : str :=
  format "{} ({}).ts" [basename; str_of_nat i].


(** The title with every character of the class of [create_filename_base]
    replaced by an underscore. *)
Definition sanitized (title : str) : str :=
  map (fun c => if unsafe_chr c then "_"%char else c) title.

(** A directory where [a.ts] and [a (1).ts] exist. *)
Definition st_taken : state :=
  MkState [(lit "a.ts", lit "x"); (lit "a (1).ts", lit "y")] [] [].

(** The title [save_stream] uses: [fullTitle] when it is true, else [title]. *)
Definition chosen_title (d : list (str * value)) : value :=
  py_or (dict_get d "fullTitle" VNone) (dict_get d "title" VNone).

(** Metadata with a media URL and no title. *)
Definition untitled : list (str * value) :=
  [(lit "mediaUrl", VStr "https://host/master.m3u8")].


(** The marker of the subtitle track in the main manifest. *)
Definition SUBTITLES_MARK : str := "#EXT-X-MEDIA:TYPE=SUBTITLES".

(** Both manifests and the caption asset can be fetched. *)
Definition caption_vtt : str := "WEBVTT

1
00:00:01.000 --> 00:00:02.500
Hei.".

Definition good_sub_m3u8 : str := "#EXTM3U
#EXT-X-TARGETDURATION:10
seg.vtt
#EXT-X-ENDLIST".

#[local] Instance with_subtitles : External := {
  requests_get := fun url _ =>
    if str_eqb url "https://host/master.m3u8" then inl (MkResponse true master_m3u8)
    else if str_eqb url "https://host/path/sub.m3u8" then inl (MkResponse true good_sub_m3u8)
    else if str_eqb url "https://host/path/seg.vtt" then inl (MkResponse true caption_vtt)
    else inr (RequestException "not found");
  BeautifulSoup := fun _ => Tag "[document]" [] [];
  json_loads := fun _ => None;
  urljoin := fun base url => cat "https://host/path/" url;
  py_repr := fun _ => "?";
  hls_dump := fun _ _ st => (Ok tt, st);
  io_open := fun _ => None;
  f_write := fun _ _ => None
}.

(** As [with_subtitles], on a disk that is full: the write of a file gets as
    far as its first two characters. *)
#[local] Instance full_disk : External := {
  requests_get := @requests_get with_subtitles;
  BeautifulSoup := @BeautifulSoup with_subtitles;
  json_loads := @json_loads with_subtitles;
  urljoin := @urljoin with_subtitles;
  py_repr := @py_repr with_subtitles;
  hls_dump := @hls_dump with_subtitles;
  io_open := fun _ => None;
  f_write := fun _ content => Some (firstn 2 content, OSError)
}.

(** The main manifest has no subtitle track. *)
#[local] Instance no_subtitle_track : External := {
  requests_get := fun url _ => inl (MkResponse true "#EXTM3U
#EXT-X-STREAM-INF:BANDWIDTH=1
video.m3u8");
  BeautifulSoup := fun _ => Tag "[document]" [] [];
  json_loads := fun _ => None;
  urljoin := fun base url => url;
  py_repr := fun _ => "?";
  hls_dump := fun _ _ st => (Ok tt, st);
  io_open := fun _ => None;
  f_write := fun _ _ => None
}.

(** A caption text that is only a header: no blank line. *)
Definition header_only_vtt : str := "WEBVTT
Kind: captions
Language: no".

(** The text with a carriage return put before every newline. *)
Definition crlf (s : str) : str :=
  flat_map (fun c => if chr_eqb c LF then [CR; LF] else [c]) s.

(** The same on a reversed text. *)
Definition rcrlf (s : str) : str :=
  flat_map (fun c => if chr_eqb c LF then [LF; CR] else [c]) s.

Definition no_CR (s : str) : bool := forallb (fun c => negb (chr_eqb c CR)) s.

(** The lookup endpoint answers with a page whose script holds JSON with
    [activeMedia.psId]. *)
Definition lookup_json : value :=
  VDict [(lit "activeMedia", VDict [(lit "psId", VStr "XYZA98765432")])].

#[local] Instance lookup_world : External := {
  requests_get := fun url _ =>
    if startswith url "https://mimir.nrk.no/" then inl (MkResponse true "<script>{}</script>")
    else inr (RequestException "not found");
  BeautifulSoup := fun _ =>
    Tag "[document]" [] [Tag "html" [] [Tag "head" [] [Tag "script" [] [Text "{}"]]]];
  json_loads := fun t => if str_eqb t "{}" then Some lookup_json else None;
  urljoin := fun base url => url;
  py_repr := fun _ => "?";
  hls_dump := fun _ _ st => (Ok tt, st);
  io_open := fun _ => None;
  f_write := fun _ _ => None
}.

(** A programme page with a figure, and a section after it that carries only
    the second attribute. *)
Definition programme_page : node :=
  Tag "[document]" []
    [Tag "html" []
       [Tag "body" []
          [Tag "figure" [(lit "data-video-id", lit "FIGU00000000")] [];
           Tag "section" [(lit "id", lit "program-info");
                          (lit "data-ga-from-id", lit "");
                          (lit "data-video-id", lit "KOID75000320")] []]]].

#[local] Instance page_world : External := {
  requests_get := fun url _ => inl (MkResponse true "<html>...</html>");
  BeautifulSoup := fun _ => programme_page;
  json_loads := fun _ => None;
  urljoin := fun base url => url;
  py_repr := fun _ => "?";
  hls_dump := fun _ _ st => (Ok tt, st);
  io_open := fun _ => None;
  f_write := fun _ _ => None
}.

(** The element [get_program_id_from_html] reads, if any: the program-info
    section when the page has one, else its first figure. *)
Definition id_element_of (soup : node) : option node :=
  match soup_find soup is_section_program_info with
  | Some el => Some el
  | None => soup_find soup (is_tag "figure")
  end.

(** The lookup endpoint answers with a script whose JSON has
    [activeMedia] set to [null]. *)
#[local] Instance null_media : External := {
  requests_get := fun _ _ => inl (MkResponse true "<script>{}</script>");
  BeautifulSoup := fun _ =>
    Tag "[document]" [] [Tag "html" [] [Tag "head" [] [Tag "script" [] [Text "{}"]]]];
  json_loads := fun _ => Some (VDict [(lit "activeMedia", VNone)]);
  urljoin := fun base url => url;
  py_repr := fun _ => "?";
  hls_dump := fun _ _ st => (Ok tt, st);
  io_open := fun _ => None;
  f_write := fun _ _ => None
}.

(** Metadata of a programme with subtitles. *)
Definition subtitled : list (str * value) :=
  [(lit "title", VStr "a");
   (lit "mediaUrl", VStr "https://host/master.m3u8");
   (lit "hasSubtitles", VBool true)].


(** The first line [main] prints. *)
Definition banner : str := format (cat "NRK Download {}" NL) [VERSION].

(** [($|&)] on the rest of the input. *)
Definition media_ends_ok (rest : str) : bool :=
  match rest with
  | [] => true
  | c :: t => (match t with [] => chr_eqb c LF | _ => false end) || chr_eqb c "&"
  end.

(** [([0-9]+)($|&)] at the start of the input: the group. *)
Definition media_at (rest : str) : option str :=
  match take_while digit rest with
  | [] => None
  | tok => if media_ends_ok (drop_while digit rest) then Some tok else None
  end.

(** [(^|mediaId=)] followed by that, at position [i]. *)
Definition media_here (i : nat) (rest : str) : option str :=
  match (if i =? 0 then media_at rest else None) with
  | Some t => Some t
  | None => if startswith rest "mediaId=" then media_at (skipn 8 rest) else None
  end.

(** The part of [media_re] after [(^|mediaId=)]. *)
Definition media_tail : regex :=
  Seq (Grp 2 (Plus digit)) (Grp 3 (Alt Eol (Chr "&"))).

(** Whether the marker [mediaId=] starts at one of the first [n] positions
    of [s]. *)
Definition marker_before (s : str) (n : nat) : bool :=
  existsb (fun k => startswith (skipn k s) "mediaId=") (seq 0 n).

(** The lookup endpoint knows the media identifier 12345 only. *)
#[local] Instance school_world : External := {
  requests_get := fun url _ =>
    if str_eqb url "https://mimir.nrk.no/plugin/1.0/static?mediaId=12345"
    then inl (MkResponse true "<script>{}</script>")
    else inr (RequestException "not found");
  BeautifulSoup := fun _ =>
    Tag "[document]" [] [Tag "html" [] [Tag "head" [] [Tag "script" [] [Text "{}"]]]];
  json_loads := fun t => if str_eqb t "{}" then Some lookup_json else None;
  urljoin := fun base url => url;
  py_repr := fun _ => "?";
  hls_dump := fun _ _ st => (Ok tt, st);
  io_open := fun _ => None;
  f_write := fun _ _ => None
}.

(** * Properties *)

(** ** The monad *)

Lemma bind_ok {A B} (c : M A) (k : A -> M B) st a st' :
  c st = (Ok a, st') -> bind c k st = k a st'.
Proof. intros H; unfold bind; now rewrite H. Qed.

Lemma bind_raise {A B} (c : M A) (k : A -> M B) st e st' :
  c st = (Raise e, st') -> bind c k st = (Raise e, st').
Proof. intros H; unfold bind; now rewrite H. Qed.

(** ** File names

    The search of [create_filename_base] for a free name ends within the
    bound the model gives it: among one more name than there are files, one
    is free. *)

Lemma str_eqb_eq (a b : str) : str_eqb a b = true <-> a = b.
Proof.
  revert b. induction a as [|x a IH]; intros [|y b]; cbn [str_eqb];
    try (split; [discriminate | discriminate]); [now split|].
  rewrite andb_true_iff, IH. unfold chr_eqb. rewrite Ascii.eqb_eq.
  split; [intros [-> ->]; reflexivity | intros [= -> ->]; now split].
Qed.

Lemma str_of_nat_inj i j : str_of_nat i = str_of_nat j -> i = j.
Proof.
  unfold str_of_nat, lit. intros H.
  apply (f_equal string_of_list_ascii) in H.
  rewrite !string_of_list_ascii_of_string in H.
  apply (f_equal NilEmpty.uint_of_string) in H. rewrite !NilEmpty.usu in H.
  injection H as H. apply (f_equal Nat.of_uint) in H.
  now rewrite !DecimalNat.Unsigned.of_to in H.
Qed.

Lemma numbered_inj basename i j : numbered basename i = numbered basename j -> i = j.
Proof.
  unfold numbered.
  change (format "{} ({}).ts" [basename; str_of_nat i])
    with (basename ++ lit " (" ++ str_of_nat i ++ lit ").ts").
  change (format "{} ({}).ts" [basename; str_of_nat j])
    with (basename ++ lit " (" ++ str_of_nat j ++ lit ").ts").
  intros H. apply app_inv_head, app_inv_head, app_inv_tail in H.
  now apply str_of_nat_inj.
Qed.

Lemma isfile_In path st : isfile path st = true -> In path (map fst (files st)).
Proof.
  unfold isfile. rewrite existsb_exists. intros [f [Hin Heq]].
  apply str_eqb_eq in Heq. subst path. now apply in_map.
Qed.

Lemma first_free_range basename st fuel : forall i,
  let r := first_free fuel basename i st in
  i <= r <= i + fuel /\
  (forall j, i <= j < r -> isfile (numbered basename j) st = true) /\
  (r < i + fuel -> isfile (numbered basename r) st = false).
Proof.
  induction fuel as [|fuel IH]; intros i; cbn [first_free].
  - cbn zeta. repeat split; try lia.
  - fold (numbered basename i).
    destruct (isfile (numbered basename i) st) eqn:Hi.
    + specialize (IH (S i)). cbn zeta in *. destruct IH as (Hr & Hfiles & Hfree).
      split; [lia|]. split.
      * intros j Hj. destruct (Nat.eq_dec j i) as [-> | Hne]; [exact Hi|].
        apply Hfiles. lia.
      * intros Hlt. apply Hfree. lia.
    + cbn zeta. split; [lia|]. split; [intros j Hj; lia|]. intros _. exact Hi.
Qed.

(** The name the loop stops at is free, and every name before it is taken. *)
Lemma first_free_fuel basename st :
  let i := first_free (S (length (files st))) basename 1 st in
  isfile (numbered basename i) st = false /\
  forall j, 1 <= j < i -> isfile (numbered basename j) st = true.
Proof.
  destruct (first_free_range basename st (S (length (files st))) 1)
    as (Hr & Hfiles & Hfree).
  cbn zeta. split; [|exact Hfiles].
  apply Hfree.
  destruct (Nat.eq_dec (first_free (S (length (files st))) basename 1 st)
                       (1 + S (length (files st)))) as [Heq | Hne]; [|lia].
  exfalso. rewrite Heq in Hfiles.
  assert (Hlen : length (map (numbered basename) (seq 1 (S (length (files st))))) <=
                 length (map fst (files st))).
  { apply NoDup_incl_length.
    - apply NoDup_map_NoDup_ForallPairs; [|apply seq_NoDup].
      intros x y _ _. apply numbered_inj.
    - intros name Hin. apply in_map_iff in Hin as (j & <- & Hj).
      apply in_seq in Hj. apply isfile_In, Hfiles. lia. }
  rewrite !length_map, length_seq in Hlen. lia.
Qed.

(** ** The matcher on the patterns of the resolver *)

Section Loops.
Context {R : Type}.

Lemma rep_loop_spec p n : forall i rest g (k : @cont R),
  rep_loop n p i rest g k =
  if (n <=? length rest) && forallb p (firstn n rest)
  then k (n + i) (skipn n rest) g else None.
Proof.
  induction n as [|n IH]; intros i rest g k; cbn [rep_loop].
  - reflexivity.
  - destruct rest as [|c t]; [reflexivity|].
    cbn [length firstn skipn forallb Nat.leb].
    destruct (p c); cbn [andb].
    + rewrite IH. now rewrite Nat.add_succ_r.
    + now rewrite andb_false_r.
Qed.

(** A greedy [+] whose continuation refuses every character of the class
    never gives a character back. *)
Lemma plus_loop_spec p (k : @cont R) :
  (forall i c t g, p c = true -> k i (c :: t) g = None) ->
  forall rest i g,
    plus_loop p i rest g k =
    match take_while p rest with
    | [] => None
    | tok => k (length tok + i) (drop_while p rest) g
    end.
Proof.
  intros Hk. induction rest as [|c t IH]; intros i g; cbn [plus_loop take_while drop_while].
  - reflexivity.
  - destruct (p c) eqn:Hc; [|reflexivity].
    rewrite IH. destruct t as [|d t']; cbn [take_while drop_while].
    + reflexivity.
    + destruct (p d) eqn:Hd; [|reflexivity].
      replace (length (d :: take_while p t') + S i)
        with (length (c :: d :: take_while p t') + i) by (cbn [length]; lia).
      destruct (k _ _ _); [reflexivity|]. now apply Hk.
Qed.
End Loops.

Lemma firstn_take_while p (s : str) :
  firstn (length (take_while p s)) s = take_while p s.
Proof.
  induction s as [|c t IH]; cbn [take_while]; [reflexivity|].
  destruct (p c); cbn [length firstn]; [now rewrite IH | reflexivity].
Qed.

Lemma take_drop_while p (s : str) : take_while p s ++ drop_while p s = s.
Proof.
  induction s as [|c t IH]; cbn [take_while drop_while]; [reflexivity|].
  destruct (p c); cbn [app]; [now rewrite IH | reflexivity].
Qed.

Lemma take_while_all p (s : str) : forallb p (take_while p s) = true.
Proof.
  induction s as [|c t IH]; cbn [take_while]; [reflexivity|].
  destruct (p c) eqn:Hc; cbn [forallb]; [now rewrite Hc, IH | reflexivity].
Qed.

(** A run of the class followed by something outside it is the whole of
    [take_while]. *)
Lemma take_while_app p (tok rest : str) :
  forallb p tok = true ->
  match rest with [] => True | c :: _ => p c = false end ->
  take_while p (tok ++ rest) = tok /\ drop_while p (tok ++ rest) = rest.
Proof.
  intros Htok Hrest. induction tok as [|c t IH]; cbn [app].
  - destruct rest as [|c r]; cbn [take_while drop_while]; [now split|].
    now rewrite Hrest.
  - cbn [forallb] in Htok. apply andb_true_iff in Htok as [Hc Ht].
    cbn [take_while drop_while]. rewrite Hc.
    destruct (IH Ht) as [-> ->]. now split.
Qed.

Lemma hexhy_not_LF c : hexhy c = true -> chr_eqb c LF = false.
Proof.
  intros H. destruct (chr_eqb c LF) eqn:E; [|reflexivity].
  apply Ascii.eqb_eq in E. subst c. discriminate H.
Qed.

Lemma hexhy_not_slash c : hexhy c = true -> chr_eqb c "/" = false.
Proof.
  intros H. destruct (chr_eqb c "/") eqn:E; [|reflexivity].
  apply Ascii.eqb_eq in E. subst c. discriminate H.
Qed.

Lemma digit_not_LF c : digit c = true -> chr_eqb c LF = false.
Proof.
  intros H. destruct (chr_eqb c LF) eqn:E; [|reflexivity].
  apply Ascii.eqb_eq in E. subst c. discriminate H.
Qed.

Lemma upper_not_slash c : upper c = true -> chr_eqb c "/" = false.
Proof.
  intros H. destruct (chr_eqb c "/") eqn:E; [|reflexivity].
  apply Ascii.eqb_eq in E. subst c. discriminate H.
Qed.

Section Steps.
Context {R : Type}.

Lemma rmatch_Seq r1 r2 i rest g (k : @cont R) :
  rmatch (Seq r1 r2) i rest g k =
  rmatch r1 i rest g (fun i' rest' g' => rmatch r2 i' rest' g' k).
Proof. reflexivity. Qed.

Lemma rmatch_Grp n r i rest g (k : @cont R) :
  rmatch (Grp n r) i rest g k =
  rmatch r i rest g (fun i' rest' g' => k i' rest' ((n, firstn (i' - i) rest) :: g')).
Proof. reflexivity. Qed.

Lemma rmatch_Rep n p i rest g (k : @cont R) :
  rmatch (Rep n p) i rest g k = rep_loop n p i rest g k.
Proof. reflexivity. Qed.

Lemma rmatch_Plus p i rest g (k : @cont R) :
  rmatch (Plus p) i rest g k = plus_loop p i rest g k.
Proof. reflexivity. Qed.

Lemma rmatch_Str s i rest g (k : @cont R) :
  rmatch (Str s) i rest g k =
  if startswith rest s then k (i + length s) (skipn (length s) rest) g else None.
Proof. reflexivity. Qed.
End Steps.

Section Tails.
Variable i0 : nat.

(** [($|/)] after group 2 has been captured. *)
Lemma ends_tail j rest tok g :
  group2 (rmatch (Grp 3 (Alt Eol (Chr "/"))) j rest ((2, tok) :: g) (finish i0)) =
  if ends_ok rest then Some (Some tok) else None.
Proof.
  unfold ends_ok, finish. cbn [rmatch].
  destruct rest as [|c [|d t]]; cbn -[chr_eqb LF].
  - reflexivity.
  - destruct (chr_eqb c LF); cbn -[chr_eqb LF]; [reflexivity|].
    now destruct (chr_eqb c "/").
  - now destruct (chr_eqb c "/").
Qed.

Lemma ends_tail_refuses j c t tok g :
  chr_eqb c LF = false -> chr_eqb c "/" = false ->
  rmatch (Grp 3 (Alt Eol (Chr "/"))) j (c :: t) ((2, tok) :: g) (finish i0) = None.
Proof.
  intros H1 H2. cbn [rmatch]. rewrite H1, H2. now destruct t.
Qed.

Lemma tail_direct j rest g :
  group2 (rmatch direct_tail j rest g (finish i0)) = option_map Some (direct_at rest).
Proof.
  unfold direct_tail, direct_at.
  rewrite rmatch_Seq, rmatch_Grp, rmatch_Seq, rmatch_Rep, rep_loop_spec.
  destruct ((4 <=? length rest) && forallb upper (firstn 4 rest)); [|reflexivity].
  rewrite rmatch_Rep, rep_loop_spec.
  destruct ((8 <=? length (skipn 4 rest)) && forallb digit (firstn 8 (skipn 4 rest)));
    [|reflexivity].
  replace (8 + (4 + j) - j) with 12 by lia.
  rewrite ends_tail. now destruct (ends_ok _).
Qed.

Lemma tail_star j rest g :
  group2 (rmatch star_tail j rest g (finish i0)) = option_map Some (star_at rest).
Proof.
  unfold star_tail, star_at. rewrite rmatch_Seq, rmatch_Str.
  destruct (startswith rest "PS*"); [|reflexivity].
  rewrite rmatch_Seq, rmatch_Grp, rmatch_Plus, plus_loop_spec.
  - change (length (lit "PS*")) with 3.
    destruct (take_while hexhy (skipn 3 rest)) as [|c tok] eqn:Ht;
      [reflexivity|].
    rewrite Nat.add_sub, <- Ht, firstn_take_while, ends_tail.
    now destruct (ends_ok _).
  - intros i c t g' Hc. apply ends_tail_refuses.
    + now apply hexhy_not_LF.
    + now apply hexhy_not_slash.
Qed.
End Tails.

(** What [(^|/)] followed by a tail does at a position. *)
Lemma match_at_delimited tail tok_at i rest :
  (forall i0 j r g, group2 (rmatch tail j r g (finish i0)) = option_map Some (tok_at r)) ->
  group2 (match_at (Seq (Grp 1 (Alt Bol (Chr "/"))) tail) i rest) =
  option_map Some (here tok_at i rest).
Proof.
  intros Htail. unfold match_at, here. cbn [rmatch].
  fold (finish i).
  destruct (i =? 0).
  - pose proof (Htail i i rest [(1, firstn (i - i) rest)]) as H0.
    destruct (rmatch tail i rest _ (finish i)) as [m|].
    + destruct (tok_at rest); [exact H0 | discriminate H0].
    + destruct (tok_at rest); [discriminate H0|].
      destruct rest as [|c r]; [reflexivity|].
      destruct (chr_eqb c "/"); [apply Htail | reflexivity].
  - destruct rest as [|c r]; [reflexivity|].
    destruct (chr_eqb c "/"); [apply Htail | reflexivity].
Qed.

Lemma match_at_direct i rest :
  group2 (match_at direct_re i rest) = option_map Some (here direct_at i rest).
Proof. apply (match_at_delimited direct_tail). intros. apply tail_direct. Qed.

Lemma match_at_star i rest :
  group2 (match_at star_re i rest) = option_map Some (here star_at i rest).
Proof. apply (match_at_delimited star_tail). intros. apply tail_star. Qed.

Lemma scan_true_some tok_at rest tok :
  tok_at rest = Some tok -> scan tok_at true rest = Some tok.
Proof. intros H. destruct rest; cbn [scan]; now rewrite H. Qed.

Lemma scan_true_none tok_at rest :
  tok_at rest = None -> scan tok_at true rest = scan tok_at false rest.
Proof. intros H. destruct rest; cbn [scan]; now rewrite H. Qed.

(** The search for such a pattern finds the leftmost delimited token. *)
Lemma search_scan r tok_at :
  (forall i rest, group2 (match_at r i rest) = option_map Some (here tok_at i rest)) ->
  forall rest i,
    group2 (search_from r i rest) = option_map Some (scan tok_at (i =? 0) rest).
Proof.
  intros Hm. induction rest as [|c t IH]; intros i.
  - cbn [search_from scan]. specialize (Hm i []). unfold here in Hm.
    destruct (match_at r i []); exact Hm.
  - cbn [search_from scan]. specialize (Hm i (c :: t)). unfold here in Hm.
    specialize (IH (S i)). cbn [Nat.eqb] in IH.
    destruct (if i =? 0 then tok_at (c :: t) else None) as [tk|].
    + destruct (match_at r i (c :: t)); [exact Hm | discriminate Hm].
    + destruct (chr_eqb c "/").
      * destruct (tok_at t) as [tk|] eqn:Ht.
        -- rewrite (scan_true_some _ _ _ Ht).
           destruct (match_at r i (c :: t)); [exact Hm | discriminate Hm].
        -- rewrite (scan_true_none _ _ Ht).
           destruct (match_at r i (c :: t)); [discriminate Hm | exact IH].
      * destruct (match_at r i (c :: t)); [discriminate Hm | exact IH].
Qed.

(** ** Delimiters *)

Lemma boundary_after_snoc done c :
  boundary_after (done ++ [c]) = chr_eqb c "/".
Proof. unfold boundary_after. now rewrite rev_unit. Qed.

Lemma boundary_after_iff pre :
  boundary_after pre = true <-> left_delimited pre.
Proof.
  unfold boundary_after, left_delimited. split.
  - destruct (rev pre) as [|c l] eqn:Hr; intros H.
    + left. apply (f_equal (@rev ascii)) in Hr. now rewrite rev_involutive in Hr.
    + right. apply Ascii.eqb_eq in H. subst c. exists (rev l).
      apply (f_equal (@rev ascii)) in Hr. now rewrite rev_involutive in Hr.
  - intros [-> | [p ->]]; [reflexivity|]. now rewrite rev_unit.
Qed.

Lemma ends_ok_cases post :
  ends_ok post = true ->
  post = [] \/ post = [LF] \/ exists q, post = "/"%char :: q.
Proof.
  destruct post as [|c t]; [now left|]. unfold ends_ok. intros H.
  apply orb_true_iff in H as [H | H].
  - destruct t; [|discriminate H]. apply Ascii.eqb_eq in H. subst c.
    right. now left.
  - apply Ascii.eqb_eq in H. subst c. right. right. now exists t.
Qed.

Lemma right_delimited_ends_ok post : right_delimited post -> ends_ok post = true.
Proof. intros [-> | [q ->]]; [reflexivity|]. now destruct q. Qed.

Lemma app_eq_length {A} (a b c d : list A) :
  a ++ b = c ++ d -> length a = length c -> a = c /\ b = d.
Proof.
  revert c. induction a as [|x a IH]; intros [|y c] H Hl; try discriminate Hl.
  - now split.
  - cbn in H. injection H as -> H. injection Hl as Hl.
    destruct (IH c H Hl) as [-> ->]. now split.
Qed.

(** ** The leftmost delimited token *)

Section Scan.
Variable tok_at : str -> option str.

Lemma scan_spec rest : forall done,
  match scan tok_at (boundary_after done) rest with
  | Some tok =>
      exists p q,
        rest = p ++ q /\ boundary_after (done ++ p) = true /\
        tok_at q = Some tok /\
        (forall p1 p2, p = p1 ++ p2 -> p2 <> [] ->
                       boundary_after (done ++ p1) = true ->
                       tok_at (p2 ++ q) = None)
  | None =>
      forall p q, rest = p ++ q -> boundary_after (done ++ p) = true ->
                  tok_at q = None
  end.
Proof.
  induction rest as [|c r IH]; intros done; cbn [scan].
  - destruct (boundary_after done) eqn:Hb; [destruct (tok_at []) as [tk|] eqn:Ht|].
    + exists [], []. rewrite (app_nil_r done).
      split; [reflexivity|]. split; [assumption|]. split; [assumption|].
      intros p1 p2 Hp Hne. symmetry in Hp. apply app_eq_nil in Hp as [_ ->].
      now elim Hne.
    + intros p q Hpq _. symmetry in Hpq. apply app_eq_nil in Hpq as [_ ->].
      exact Ht.
    + intros p q Hpq Hp. symmetry in Hpq. apply app_eq_nil in Hpq as [-> _].
      rewrite (app_nil_r done) in Hp. congruence.
  - rewrite <- (boundary_after_snoc done c). specialize (IH (done ++ [c])).
    destruct (if boundary_after done then tok_at (c :: r) else None) as [tk|] eqn:Hhere.
    + exists [], (c :: r). rewrite (app_nil_r done).
      destruct (boundary_after done); [|discriminate Hhere].
      split; [reflexivity|]. split; [reflexivity|]. split; [assumption|].
      intros p1 p2 Hp Hne. symmetry in Hp. apply app_eq_nil in Hp as [_ ->].
      now elim Hne.
    + destruct (scan tok_at (boundary_after (done ++ [c])) r) as [tok|].
      * destruct IH as (p & q & -> & Hb & Ht & Hmin).
        exists (c :: p), q. rewrite <- app_assoc in Hb.
        split; [reflexivity|]. split; [assumption|]. split; [assumption|].
        intros [|c1 p1] p2 Hp Hne Hb1.
        -- cbn [app] in Hp. subst p2. rewrite (app_nil_r done) in Hb1.
           rewrite Hb1 in Hhere. exact Hhere.
        -- cbn [app] in Hp. injection Hp as <- ->.
           apply Hmin with (p1 := p1); [reflexivity | assumption|].
           now rewrite <- app_assoc.
      * intros [|c1 p] q Hpq Hb.
        -- cbn [app] in Hpq. subst q. rewrite (app_nil_r done) in Hb.
           rewrite Hb in Hhere. exact Hhere.
        -- cbn [app] in Hpq. injection Hpq as <- ->.
           apply IH with (p := p); [reflexivity|]. now rewrite <- app_assoc.
Qed.

Variable shape : str -> Prop.
Variable mark : str.

Hypothesis tok_at_sound : forall q tok,
  tok_at q = Some tok ->
  exists post, q = mark ++ tok ++ post /\ shape tok /\ ends_ok post = true.
Hypothesis tok_at_complete : forall tok post,
  shape tok -> ends_ok post = true -> tok_at (mark ++ tok ++ post) = Some tok.
Hypothesis shape_chars : forall tok,
  shape tok ->
  tok <> [] /\
  forall c, In c tok -> chr_eqb c "/" = false /\ chr_eqb c LF = false.

(** Where the pattern's [$] accepts a last newline, the token it ends is
    the leftmost one only if no token is delimited by the end or a [/]. *)
Lemma newline_delimited_is_not_leftmost s pre tok post pre' tok' :
  occurs shape mark s pre tok post ->
  s = pre' ++ mark ++ tok' ++ [LF] ->
  shape tok' ->
  length pre' <= length pre -> False.
Proof.
  intros (Hs & Hshape & _ & Hpost) Hs' Hshape' Hle.
  destruct (shape_chars tok Hshape) as [Hne Hchars].
  destruct (shape_chars tok' Hshape') as [_ Hchars'].
  destruct Hpost as [-> | [q ->]].
  - destruct (exists_last Hne) as (t0 & z & ->).
    assert (Hz : z = LF).
    { assert (H : (pre ++ mark ++ t0) ++ [z] = (pre' ++ mark ++ tok') ++ [LF]).
      { rewrite <- !app_assoc. rewrite <- Hs', Hs. now rewrite app_nil_r. }
      now apply app_inj_tail in H. }
    destruct (Hchars z) as [_ H]; [apply in_or_app; right; now left|].
    subst z. discriminate H.
  - assert (H1 : nth_error s (length (pre ++ mark ++ tok)) = Some "/"%char).
    { rewrite Hs.
      replace (pre ++ mark ++ tok ++ "/"%char :: q)
        with ((pre ++ mark ++ tok) ++ "/"%char :: q) by now rewrite <- !app_assoc.
      rewrite nth_error_app2 by lia. now rewrite Nat.sub_diag. }
    rewrite Hs' in H1.
    replace (pre' ++ mark ++ tok' ++ [LF])
      with ((pre' ++ mark) ++ tok' ++ [LF]) in H1 by now rewrite <- !app_assoc.
    rewrite nth_error_app2 in H1 by (rewrite !length_app; lia).
    apply nth_error_In, in_app_or in H1 as [H1 | [H1 | []]].
    + destruct (Hchars' _ H1) as [H _]. discriminate H.
    + discriminate H1.
Qed.

(** The scan returns the leftmost token delimited by the end or a [/], as
    soon as there is one. *)
Lemma scan_leftmost s pre tok post :
  occurs shape mark s pre tok post ->
  exists pre' tok' post',
    occurs shape mark s pre' tok' post' /\
    (forall p t q, occurs shape mark s p t q -> length pre' <= length p) /\
    (length pre' = length pre -> tok' = tok) /\
    scan tok_at true s = Some tok'.
Proof.
  intros Hocc.
  pose proof (scan_spec s []) as Hscan. cbn [app] in Hscan.
  change (boundary_after []) with true in Hscan.
  assert (Hat : forall p t q, occurs shape mark s p t q ->
                  s = p ++ mark ++ t ++ q /\ boundary_after p = true /\
                  tok_at (mark ++ t ++ q) = Some t).
  { intros p t q (Hs & Hshape & Hl & Hr). repeat split.
    - exact Hs.
    - now apply boundary_after_iff.
    - apply tok_at_complete; [assumption | now apply right_delimited_ends_ok]. }
  destruct (scan tok_at true s) as [tok'|].
  - destruct Hscan as (pre' & q' & Hs' & Hb' & Ht' & Hmin).
    destruct (tok_at_sound _ _ Ht') as (post' & -> & Hshape' & Hends').
    assert (Hleft : forall p t q, occurs shape mark s p t q -> length pre' <= length p).
    { intros p t q Hptq. destruct (Hat p t q Hptq) as (Hs & Hb & Ht).
      destruct (le_lt_dec (length pre') (length p)) as [Hle | Hlt]; [assumption|].
      exfalso. rewrite Hs' in Hs.
      apply app_eq_app in Hs as [l [[Hp Hq] | [Hp Hq]]].
      - (* [pre' = p ++ l], and [l] is not empty *)
        destruct l as [|x l].
        + rewrite app_nil_r in Hp. subst p. lia.
        + specialize (Hmin p (x :: l) Hp ltac:(discriminate) Hb).
          rewrite <- Hq, Ht in Hmin. discriminate Hmin.
      - subst p. rewrite length_app in Hlt. lia. }
    exists pre', tok', post'. repeat split.
    + exact Hs'.
    + exact Hshape'.
    + now apply boundary_after_iff.
    + destruct (ends_ok_cases _ Hends') as [-> | [-> | [q ->]]].
      * now left.
      * exfalso.
        apply (newline_delimited_is_not_leftmost s pre tok post pre' tok');
          try assumption.
        now apply (Hleft pre tok post).
      * right. now exists q.
    + exact Hleft.
    + intros Hlen. destruct (Hat pre tok post Hocc) as (Hs & _ & Ht).
      rewrite Hs' in Hs. apply app_eq_length in Hs as [_ Hq]; [|assumption].
      rewrite Hq, Ht in Ht'. now injection Ht'.
  - exfalso. destruct (Hat pre tok post Hocc) as (Hs & Hb & Ht).
    rewrite (Hscan pre _ Hs Hb) in Ht. discriminate Ht.
Qed.
End Scan.

(** ** The two token shapes *)

Lemma upper_not_LF c : upper c = true -> chr_eqb c LF = false.
Proof.
  intros H. destruct (chr_eqb c LF) eqn:E; [|reflexivity].
  apply Ascii.eqb_eq in E. subst c. discriminate H.
Qed.

Lemma digit_not_slash c : digit c = true -> chr_eqb c "/" = false.
Proof.
  intros H. destruct (chr_eqb c "/") eqn:E; [|reflexivity].
  apply Ascii.eqb_eq in E. subst c. discriminate H.
Qed.

Lemma startswith_skipn (p : str) : forall s : str,
  startswith s p = true -> s = p ++ skipn (length p) s.
Proof.
  induction p as [|c p IH]; intros s H; [reflexivity|].
  destruct s as [|d s]; [discriminate H|]. cbn [startswith] in H.
  apply andb_true_iff in H as [Hc Hp]. apply Ascii.eqb_eq in Hc. subst d.
  cbn [length skipn app]. now rewrite <- (IH s Hp).
Qed.

Lemma direct_at_sound q tok :
  direct_at q = Some tok ->
  exists post, q = [] ++ tok ++ post /\ is_direct_token tok /\ ends_ok post = true.
Proof.
  unfold direct_at.
  destruct ((4 <=? length q) && forallb upper (firstn 4 q)) eqn:H1; [|discriminate].
  destruct ((8 <=? length (skipn 4 q)) && forallb digit (firstn 8 (skipn 4 q))) eqn:H2;
    [|discriminate].
  destruct (ends_ok (skipn 8 (skipn 4 q))) eqn:H3; [|discriminate].
  intros H. assert (Ht : tok = firstn 12 q) by congruence. subst tok. clear H.
  apply andb_true_iff in H1 as [L1 U]. apply andb_true_iff in H2 as [L2 D].
  apply Nat.leb_le in L1, L2. rewrite skipn_skipn in H3. cbn [Nat.add] in H3.
  exists (skipn 12 q). split; [|split].
  - rewrite app_nil_l. now rewrite firstn_skipn.
  - exists (firstn 4 q), (firstn 8 (skipn 4 q)). split; [|split; [|split; [|split]]].
    + rewrite firstn_skipn_comm. cbn [Nat.add].
      rewrite <- (firstn_skipn 4 (firstn 12 q)) at 1.
      rewrite firstn_firstn. reflexivity.
    + now apply firstn_length_le.
    + exact U.
    + now apply firstn_length_le.
    + exact D.
  - exact H3.
Qed.

Lemma direct_at_complete tok post :
  is_direct_token tok -> ends_ok post = true ->
  direct_at ([] ++ tok ++ post) = Some tok.
Proof.
  intros (letters & digits & -> & Ll & U & Ld & D) He.
  destruct letters as [|a [|b [|c [|d [|? ?]]]]]; try discriminate Ll.
  destruct digits as [|d1 [|d2 [|d3 [|d4 [|d5 [|d6 [|d7 [|d8 [|? ?]]]]]]]]];
    try discriminate Ld.
  unfold direct_at. cbn [app length firstn skipn Nat.leb andb].
  cbn [app] in U. rewrite U, D, He. reflexivity.
Qed.

Lemma direct_token_chars tok :
  is_direct_token tok ->
  tok <> [] /\
  forall c, In c tok -> chr_eqb c "/" = false /\ chr_eqb c LF = false.
Proof.
  intros (letters & digits & -> & Ll & U & Ld & D). split.
  - destruct letters; [discriminate Ll | discriminate].
  - intros c Hc. apply in_app_or in Hc as [Hc | Hc].
    + rewrite forallb_forall in U. specialize (U c Hc).
      split; [now apply upper_not_slash | now apply upper_not_LF].
    + rewrite forallb_forall in D. specialize (D c Hc).
      split; [now apply digit_not_slash | now apply digit_not_LF].
Qed.

Lemma star_at_sound q tok :
  star_at q = Some tok ->
  exists post, q = lit "PS*" ++ tok ++ post /\ is_star_token tok /\ ends_ok post = true.
Proof.
  unfold star_at. destruct (startswith q "PS*") eqn:Hp; [|discriminate].
  apply startswith_skipn in Hp. change (length (lit "PS*")) with 3 in Hp.
  destruct (take_while hexhy (skipn 3 q)) as [|c t] eqn:Ht; [discriminate|].
  destruct (ends_ok (drop_while hexhy (skipn 3 q))) eqn:He; [|discriminate].
  intros [= <-]. exists (drop_while hexhy (skipn 3 q)). split; [|split].
  - rewrite <- Ht, take_drop_while. exact Hp.
  - split; [discriminate|]. rewrite <- Ht. apply take_while_all.
  - exact He.
Qed.

Lemma star_at_complete tok post :
  is_star_token tok -> ends_ok post = true ->
  star_at (lit "PS*" ++ tok ++ post) = Some tok.
Proof.
  intros [Hne Hall] He. unfold star_at.
  change (startswith (lit "PS*" ++ tok ++ post) "PS*") with true.
  change (skipn 3 (lit "PS*" ++ tok ++ post)) with (tok ++ post).
  destruct (take_while_app hexhy tok post Hall) as [-> ->].
  - destruct (ends_ok_cases _ He) as [-> | [-> | [q ->]]]; [exact I | |]; reflexivity.
  - rewrite He. destruct tok; [now elim Hne | reflexivity].
Qed.

Lemma star_token_chars tok :
  is_star_token tok ->
  tok <> [] /\
  forall c, In c tok -> chr_eqb c "/" = false /\ chr_eqb c LF = false.
Proof.
  intros [Hne Hall]. split; [assumption|].
  intros c Hc. rewrite forallb_forall in Hall. specialize (Hall c Hc).
  split; [now apply hexhy_not_slash | now apply hexhy_not_LF].
Qed.

(** The search for the direct pattern, and the search for the star-form
    pattern, return the leftmost delimited token in group 2. *)
Lemma re_search_direct s pre tok post :
  direct_token_in s pre tok post ->
  exists pre' tok' post' m,
    direct_token_in s pre' tok' post' /\
    (forall p t q, direct_token_in s p t q -> length pre' <= length p) /\
    (length pre' = length pre -> tok' = tok) /\
    re_search direct_re s = Some m /\ group m 2 = Some tok'.
Proof.
  intros Hocc.
  destruct (scan_leftmost direct_at is_direct_token [] direct_at_sound
              direct_at_complete direct_token_chars s pre tok post Hocc)
    as (pre' & tok' & post' & Hocc' & Hmin & Hsame & Hscan).
  pose proof (search_scan direct_re direct_at match_at_direct s 0) as H.
  cbn [Nat.eqb] in H. rewrite Hscan in H. fold (re_search direct_re s) in H.
  destruct (re_search direct_re s) as [m|]; [|discriminate H].
  injection H as H. now exists pre', tok', post', m.
Qed.

Lemma re_search_star s pre tok post :
  star_token_in s pre tok post ->
  exists pre' tok' post' m,
    star_token_in s pre' tok' post' /\
    (forall p t q, star_token_in s p t q -> length pre' <= length p) /\
    (length pre' = length pre -> tok' = tok) /\
    re_search star_re s = Some m /\ group m 2 = Some tok'.
Proof.
  intros Hocc.
  destruct (scan_leftmost star_at is_star_token "PS*" star_at_sound
              star_at_complete star_token_chars s pre tok post Hocc)
    as (pre' & tok' & post' & Hocc' & Hmin & Hsame & Hscan).
  pose proof (search_scan star_re star_at match_at_star s 0) as H.
  cbn [Nat.eqb] in H. rewrite Hscan in H. fold (re_search star_re s) in H.
  destruct (re_search star_re s) as [m|]; [|discriminate H].
  injection H as H. now exists pre', tok', post', m.
Qed.

(** ** The fetch primitive *)

Section Fetch.
Context {E : External}.

Lemma get_req_unfold url headers :
  get_req url headers =
  (log_request url ;;
   match requests_get url headers with
   | inl req => ret (Some req)
   | inr (MissingSchema _) =>
       session <- load_global "session" ;;
       get_req_depth (pred recursion_limit) (format "https://{}" [url]) session
   | inr (RequestException e) => error e ;; ret None
   end).
Proof. reflexivity. Qed.

Lemma get_req_response url headers r st :
  requests_get url headers = inl r ->
  get_req url headers st = (Ok (Some r), logged url st).
Proof.
  intros H. rewrite get_req_unfold. unfold bind, log_request. now rewrite H.
Qed.

Lemma get_req_failure url headers e st :
  requests_get url headers = inr (RequestException e) ->
  get_req url headers st =
  (Ok None, printed (format "Error: {}" [e]) (logged url st)).
Proof.
  intros H. rewrite get_req_unfold. unfold bind, log_request. now rewrite H.
Qed.

Lemma get_req_on_missing_schema url headers msg st :
  requests_get url headers = inr (MissingSchema msg) ->
  get_req url headers st = (Raise (NameError "session"), logged url st).
Proof.
  intros H. rewrite get_req_unfold. unfold bind, log_request. now rewrite H.
Qed.
End Fetch.

(** C2.  On a URL without a scheme [requests.get] raises [MissingSchema]; the
    handler of [get_req] then reads the name [session], which nothing binds,
    so a [NameError] leaves [get_req]: no second request is made (the log
    holds the one request) and no null result is returned. *)
Theorem get_req_missing_schema_raises :
  forall (E : External) (url : str) (headers : value) (msg : str) (st : state),
    requests_get url headers = inr (MissingSchema msg) ->
    get_req url headers st =
    (Raise (NameError "session"),
     MkState (files st) (stdout st) (requested st ++ [url])).
Proof.
  intros E url headers msg st H. exact (get_req_on_missing_schema url headers msg st H).
Qed.

Lemma get_req_missing_schema_witness :
  get_req (E := schemeless) "tv.nrk.no/serie/fleksnes" VNone st0 =
  (Raise (NameError "session"), MkState [] [] [lit "tv.nrk.no/serie/fleksnes"]).
Proof.
  apply (get_req_missing_schema_raises schemeless "tv.nrk.no/serie/fleksnes" VNone
           "No scheme supplied" st0).
  vm_compute. reflexivity.
Defined.

(** ** The resolver *)

Section Resolver.
Context {E : External}.

Lemma resolver_on_match s m :
  or_else (re_search direct_re s) (re_search star_re s) = Some m ->
  get_program_id s = ret (group_value m 2).
Proof. intros H. unfold get_program_id. now rewrite H. Qed.

Lemma resolver_on_no_match s :
  re_search direct_re s = None -> re_search star_re s = None ->
  re_search media_re s = None ->
  get_program_id s = get_program_id_from_html s.
Proof. intros H1 H2 H3. unfold get_program_id. now rewrite H1, H2, H3. Qed.

(** The scrape gives [None] when the fetch gives no usable response ... *)
Lemma get_program_id_from_html_no_response url st st' req :
  get_req url VNone st = (Ok req, st') -> not_req req = true ->
  get_program_id_from_html url st = (Ok VNone, st').
Proof.
  intros H Hn. unfold get_program_id_from_html.
  rewrite (bind_ok _ _ _ _ _ H). now rewrite Hn.
Qed.

(** ... when the page has neither the section nor a figure ... *)
Lemma get_program_id_from_html_no_element url st st' r :
  get_req url VNone st = (Ok (Some r), st') -> ok r = true ->
  soup_find (BeautifulSoup (text r)) is_section_program_info = None ->
  soup_find (BeautifulSoup (text r)) (is_tag "figure") = None ->
  get_program_id_from_html url st = (Ok VNone, st').
Proof.
  intros H Hok H1 H2. unfold get_program_id_from_html.
  rewrite (bind_ok _ _ _ _ _ H). cbn [not_req]. rewrite Hok.
  cbn [negb req_text]. unfold bind, ret. now rewrite H1, H2.
Qed.

(** ... and when the element found has neither attribute. *)
Lemma get_program_id_from_html_no_attribute url st st' r el :
  get_req url VNone st = (Ok (Some r), st') -> ok r = true ->
  or_else (soup_find (BeautifulSoup (text r)) is_section_program_info)
          (soup_find (BeautifulSoup (text r)) (is_tag "figure")) = Some el ->
  tag_get el "data-ga-from-id" = VNone ->
  tag_get el "data-video-id" = VNone ->
  get_program_id_from_html url st = (Ok VNone, st').
Proof.
  intros H Hok Hel H1 H2. unfold get_program_id_from_html.
  rewrite (bind_ok _ _ _ _ _ H). cbn [not_req]. rewrite Hok.
  cbn [negb req_text]. unfold bind, ret. now rewrite Hel, H1, H2.
Qed.

(** The media-ID strategy gives [None] when the fetch gives no usable
    response, and when the JSON has no [activeMedia.psId]. *)
Lemma get_program_id_from_media_id_no_response media_id st st' req :
  get_req (format MIMIR_BASE_URL [py_str media_id]) VNone st = (Ok req, st') ->
  not_req req = true ->
  get_program_id_from_media_id media_id st = (Ok VNone, st').
Proof.
  intros H Hn. unfold get_program_id_from_media_id.
  rewrite (bind_ok _ _ _ _ _ H). now rewrite Hn.
Qed.

Lemma get_program_id_from_media_id_no_field media_id st st' r script json_info :
  get_req (format MIMIR_BASE_URL [py_str media_id]) VNone st = (Ok (Some r), st') ->
  ok r = true ->
  soup_find (BeautifulSoup (text r)) (is_tag "script") = Some script ->
  json_loads (get_text script) = Some (VDict json_info) ->
  (assoc (lit "activeMedia") json_info = None \/
   exists active, assoc (lit "activeMedia") json_info = Some (VDict active) /\
                  assoc (lit "psId") active = None) ->
  get_program_id_from_media_id media_id st = (Ok VNone, st').
Proof.
  intros H Hok Hs Hj Hf. unfold get_program_id_from_media_id.
  rewrite (bind_ok _ _ _ _ _ H). cbn [not_req]. rewrite Hok.
  cbn [negb req_text]. unfold bind, ret.
  rewrite Hs, Hj. unfold dict_get.
  destruct Hf as [Hf | (active & Hf & Hp)]; rewrite Hf.
  - reflexivity.
  - now rewrite Hp.
Qed.

Lemma get_program_id_from_media_id_no_script media_id st r :
  requests_get (format MIMIR_BASE_URL [py_str media_id]) VNone = inl r ->
  ok r = true ->
  soup_find (BeautifulSoup (text r)) (is_tag "script") = None ->
  get_program_id_from_media_id media_id st =
  (Raise (AttributeError "get_text"),
   logged (format MIMIR_BASE_URL [py_str media_id]) st).
Proof.
  intros H Hok Hs. unfold get_program_id_from_media_id.
  rewrite (bind_ok _ _ _ _ _ (get_req_response _ _ _ _ H)).
  cbn [not_req]. rewrite Hok.
  cbn [negb req_text]. unfold bind, ret. now rewrite Hs.
Qed.
End Resolver.

(** C4, as the code has it.  When the reference holds a token of four
    upper-case letters and eight digits, delimited on the left by the start
    of the string or a [/] and on the right by the end of the string or a
    [/], the resolver returns such a token of the reference, the leftmost
    one: the given token itself when none starts before it.  It returns it without any other strategy:
    whatever the world outside, the state, with its log of requests, is
    unchanged. *)
Theorem get_program_id_direct_token :
  forall (E : External) (s pre tok post : str) (st : state),
    direct_token_in s pre tok post ->
    exists pre' tok' post',
      direct_token_in s pre' tok' post' /\
      (forall p t q, direct_token_in s p t q -> length pre' <= length p) /\
      (length pre' = length pre -> tok' = tok) /\
      get_program_id s st = (Ok (VStr tok'), st).
Proof.
  intros E s pre tok post st Hocc.
  destruct (re_search_direct s pre tok post Hocc)
    as (pre' & tok' & post' & m & Hocc' & Hmin & Hsame & Hm & Hg).
  exists pre', tok', post'. split; [assumption|]. split; [assumption|].
  split; [assumption|].
  rewrite (resolver_on_match s m) by now rewrite Hm.
  unfold group_value. now rewrite Hg.
Qed.

Lemma get_program_id_direct_token_witness :
  exists pre' tok' post',
    direct_token_in "https://tv.nrk.no/serie/fleksnes/KMTE20000116/sesong-1" pre' tok' post' /\
    (forall p t q,
        direct_token_in "https://tv.nrk.no/serie/fleksnes/KMTE20000116/sesong-1" p t q ->
        length pre' <= length p) /\
    (length pre' = length (lit "https://tv.nrk.no/serie/fleksnes/") ->
     tok' = lit "KMTE20000116") /\
    get_program_id (E := offline)
      "https://tv.nrk.no/serie/fleksnes/KMTE20000116/sesong-1" st0 =
    (Ok (VStr tok'), st0).
Proof.
  apply (get_program_id_direct_token offline
           "https://tv.nrk.no/serie/fleksnes/KMTE20000116/sesong-1"
           "https://tv.nrk.no/serie/fleksnes/" "KMTE20000116" "/sesong-1" st0).
  split; [reflexivity|]. split; [|split].
  - exists (lit "KMTE"), (lit "20000116"). repeat split.
  - right. now exists (lit "https://tv.nrk.no/serie/fleksnes").
  - right. now exists (lit "sesong-1").
Defined.

(** C4, as stated, fails: a reference may hold two such tokens, and the
    resolver returns the first, not the second. *)
Lemma later_direct_token_is_not_returned :
  direct_token_in "https://tv.nrk.no/ABCD12345678/EFGH12345678"
                  "https://tv.nrk.no/ABCD12345678/" "EFGH12345678" [] /\
  get_program_id (E := offline) "https://tv.nrk.no/ABCD12345678/EFGH12345678" st0 =
  (Ok (VStr "ABCD12345678"), st0) /\
  get_program_id (E := offline) "https://tv.nrk.no/ABCD12345678/EFGH12345678" st0 <>
  (Ok (VStr "EFGH12345678"), st0).
Proof.
  split; [|split].
  - split; [reflexivity|]. split; [|split].
    + exists (lit "EFGH"), (lit "12345678"). repeat split.
    + right. now exists (lit "https://tv.nrk.no/ABCD12345678").
    + now left.
  - vm_compute. reflexivity.
  - vm_compute. discriminate.
Qed.

(** C1, as the code has it.  When the reference holds a token of
    hexadecimal digits and hyphens after [PS*], delimited like the direct
    token, and the direct pattern does not match, the resolver returns the
    leftmost such token: group 2 of the pattern, the characters after
    [PS*], without the prefix. *)
Theorem get_program_id_star_token :
  forall (E : External) (s pre tok post : str) (st : state),
    star_token_in s pre tok post ->
    re_search direct_re s = None ->
    exists pre' tok' post',
      star_token_in s pre' tok' post' /\
      (forall p t q, star_token_in s p t q -> length pre' <= length p) /\
      (length pre' = length pre -> tok' = tok) /\
      get_program_id s st = (Ok (VStr tok'), st).
Proof.
  intros E s pre tok post st Hocc Hd.
  destruct (re_search_star s pre tok post Hocc)
    as (pre' & tok' & post' & m & Hocc' & Hmin & Hsame & Hm & Hg).
  exists pre', tok', post'. split; [assumption|]. split; [assumption|].
  split; [assumption|].
  rewrite (resolver_on_match s m) by now rewrite Hd, Hm.
  unfold group_value. now rewrite Hg.
Qed.

Lemma get_program_id_star_token_witness :
  exists pre' tok' post',
    star_token_in "https://tv.nrk.no/program/PS*1a2b-3c/x" pre' tok' post' /\
    (forall p t q,
        star_token_in "https://tv.nrk.no/program/PS*1a2b-3c/x" p t q ->
        length pre' <= length p) /\
    (length pre' = length (lit "https://tv.nrk.no/program/") -> tok' = lit "1a2b-3c") /\
    get_program_id (E := offline) "https://tv.nrk.no/program/PS*1a2b-3c/x" st0 =
    (Ok (VStr tok'), st0).
Proof.
  apply (get_program_id_star_token offline "https://tv.nrk.no/program/PS*1a2b-3c/x"
           "https://tv.nrk.no/program/" "1a2b-3c" "/x" st0).
  - split; [reflexivity|]. split; [|split].
    + split; [discriminate | reflexivity].
    + right. now exists (lit "https://tv.nrk.no/program").
    + right. now exists (lit "x").
  - vm_compute. reflexivity.
Defined.

(** C1, as stated, fails: for the reference [PS*1a2b-3c], which matches the
    star-form pattern and not the direct one, the resolver returns
    [1a2b-3c], not the token with its prefix. *)
Lemma star_prefix_is_dropped :
  star_token_in "PS*1a2b-3c" [] "1a2b-3c" [] /\
  re_search direct_re "PS*1a2b-3c" = None /\
  get_program_id (E := offline) "PS*1a2b-3c" st0 = (Ok (VStr "1a2b-3c"), st0) /\
  get_program_id (E := offline) "PS*1a2b-3c" st0 <> (Ok (VStr "PS*1a2b-3c"), st0).
Proof.
  split; [|split; [|split]].
  - split; [reflexivity|]. split; [|split].
    + split; [discriminate | reflexivity].
    + now left.
    + now left.
  - vm_compute. reflexivity.
  - vm_compute. reflexivity.
  - vm_compute. discriminate.
Qed.

(** C3.  When the page of the lookup endpoint has no script element,
    [soup.script] is [None] and the call of [get_text] on it raises an
    [AttributeError]: the strategy does not yield [None]. *)
Theorem media_id_without_script_raises :
  forall (E : External) (media_id : value) (r : response) (st : state),
    requests_get (format MIMIR_BASE_URL [py_str media_id]) VNone = inl r ->
    ok r = true ->
    soup_find (BeautifulSoup (text r)) (is_tag "script") = None ->
    get_program_id_from_media_id media_id st =
    (Raise (AttributeError "get_text"),
     logged (format MIMIR_BASE_URL [py_str media_id]) st).
Proof.
  intros E media_id r st H Hok Hs.
  exact (get_program_id_from_media_id_no_script media_id st r H Hok Hs).
Qed.

Lemma media_id_without_script_witness :
  get_program_id_from_media_id (E := no_script) (VStr "12345") st0 =
  (Raise (AttributeError "get_text"),
   logged (format MIMIR_BASE_URL [lit "12345"]) st0).
Proof.
  apply (media_id_without_script_raises no_script (VStr "12345")
           (MkResponse true "<html><body></body></html>") st0);
    vm_compute; reflexivity.
Defined.

(** C8.  A reference without a scheme that matches none of the patterns is
    fetched as a page; [requests.get] raises [MissingSchema], and the
    [NameError] of [get_req] leaves the resolver: it raises instead of
    returning [None]. *)
Theorem resolver_raises_without_scheme :
  forall (E : External) (s msg : str) (st : state),
    re_search direct_re s = None ->
    re_search star_re s = None ->
    re_search media_re s = None ->
    requests_get s VNone = inr (MissingSchema msg) ->
    get_program_id s st = (Raise (NameError "session"), logged s st).
Proof.
  intros E s msg st H1 H2 H3 H.
  rewrite (resolver_on_no_match s H1 H2 H3).
  unfold get_program_id_from_html.
  now rewrite (bind_raise _ _ _ _ _ (get_req_on_missing_schema _ _ _ _ H)).
Qed.

Lemma resolver_raises_without_scheme_witness :
  get_program_id (E := schemeless) "tv.nrk.no/serie/fleksnes" st0 =
  (Raise (NameError "session"), logged "tv.nrk.no/serie/fleksnes" st0).
Proof.
  apply (resolver_raises_without_scheme schemeless "tv.nrk.no/serie/fleksnes"
           "No scheme supplied" st0); vm_compute; reflexivity.
Defined.

(** C10.  A reference matched by the direct or by the star-form pattern is
    resolved without a fetch: whatever the world outside, the resolver
    returns the same identifier and leaves the state, the log of requests
    included, as it was. *)
Theorem get_program_id_matched_no_fetch :
  forall (E1 E2 : External) (s : str) (st1 st2 : state),
    re_search direct_re s <> None \/ re_search star_re s <> None ->
    exists id : value,
      get_program_id (E := E1) s st1 = (Ok id, st1) /\
      get_program_id (E := E2) s st2 = (Ok id, st2).
Proof.
  intros E1 E2 s st1 st2 H.
  assert (Hm : exists m, or_else (re_search direct_re s) (re_search star_re s) = Some m).
  { destruct (re_search direct_re s) as [m|] eqn:Hd.
    - now exists m.
    - destruct (re_search star_re s) as [m|] eqn:Hs.
      + now exists m.
      + destruct H as [H | H]; now elim H. }
  destruct Hm as [m Hm]. exists (group_value m 2).
  now rewrite !(resolver_on_match s m Hm).
Qed.

Lemma get_program_id_matched_no_fetch_witness :
  exists id : value,
    get_program_id (E := offline) "https://tv.nrk.no/program/KOID75000320/x" st0 = (Ok id, st0) /\
    get_program_id (E := no_script) "https://tv.nrk.no/program/KOID75000320/x" st0 = (Ok id, st0).
Proof.
  apply (get_program_id_matched_no_fetch offline no_script
           "https://tv.nrk.no/program/KOID75000320/x" st0 st0).
  left. vm_compute. discriminate.
Defined.

(** ** The subtitle locator *)

Lemma is_directive_head line :
  is_directive line -> exists c l, line = c :: l /\ chr_eqb c "#" = true.
Proof.
  destruct line as [|c l]; [discriminate|].
  unfold is_directive, startswith, lit; cbn [list_ascii_of_string].
  intros H. exists c, l. split; [reflexivity|].
  now destruct (chr_eqb c "#").
Qed.

Lemma find_sub_filename_empty_line pre post st :
  Forall is_directive pre ->
  find_sub_filename (pre ++ [] :: post) st = (Raise IndexError, st).
Proof.
  induction 1 as [|l pre Hl _ IH]; cbn.
  - reflexivity.
  - destruct (is_directive_head _ Hl) as (c & l' & -> & Hc).
    cbn [negb]. now rewrite Hc.
Qed.

Lemma find_sub_filename_first pre c l post st :
  Forall is_directive pre -> chr_eqb c "#" = false ->
  find_sub_filename (pre ++ (c :: l) :: post) st = (Ok (Some (c :: l)), st).
Proof.
  intros Hpre Hc. induction Hpre as [|l0 pre Hl _ IH]; cbn.
  - now rewrite Hc.
  - destruct (is_directive_head _ Hl) as (c0 & l0' & -> & Hc0).
    cbn [negb]. now rewrite Hc0.
Qed.

Section Locator.
Context {E : External}.

(** The run of [get_vtt_file_url] up to the scan of the sub-manifest. *)
Lemma locator_reaches_scan media_url r1 line m sub_url r2 st :
  requests_get (py_str media_url) VNone = inl r1 ->
  find_sub_stream_line (splitlines (text r1)) = Some line ->
  re_search uri_re line = Some m ->
  group m 1 = Some sub_url ->
  requests_get sub_url VNone = inl r2 ->
  get_vtt_file_url media_url st =
  (found <- find_sub_filename (splitlines (text r2)) ;;
   match found with
   | None => raise (UnboundLocalError "sub_filename")
   | Some sub_filename => ret (urljoin sub_url sub_filename)
   end) (logged sub_url (logged (py_str media_url) st)).
Proof.
  intros H1 Hl Hm Hg H2. unfold get_vtt_file_url.
  rewrite (bind_ok _ _ _ _ _ (get_req_response _ _ _ _ H1)). cbn [req_text].
  unfold bind at 1. cbn [ret]. rewrite Hl, Hm, Hg.
  rewrite (bind_ok _ _ _ _ _ (get_req_response _ _ _ _ H2)). cbn [req_text].
  reflexivity.
Qed.

(** With no empty line in the way, the locator is the first line that is
    not a directive, resolved against the URL of the sub-manifest. *)
Lemma locator_takes_first_line media_url r1 line m sub_url r2 pre c l post st :
  requests_get (py_str media_url) VNone = inl r1 ->
  find_sub_stream_line (splitlines (text r1)) = Some line ->
  re_search uri_re line = Some m ->
  group m 1 = Some sub_url ->
  requests_get sub_url VNone = inl r2 ->
  splitlines (text r2) = pre ++ (c :: l) :: post ->
  Forall is_directive pre -> chr_eqb c "#" = false ->
  get_vtt_file_url media_url st =
  (Ok (urljoin sub_url (c :: l)), logged sub_url (logged (py_str media_url) st)).
Proof.
  intros H1 Hl Hm Hg H2 Hs Hpre Hc.
  rewrite (locator_reaches_scan _ _ _ _ _ _ _ H1 Hl Hm Hg H2), Hs.
  now rewrite (bind_ok _ _ _ _ _ (find_sub_filename_first pre c l post _ Hpre Hc)).
Qed.

Lemma locator_stops_at_empty_line media_url r1 line m sub_url r2 pre post st :
  requests_get (py_str media_url) VNone = inl r1 ->
  find_sub_stream_line (splitlines (text r1)) = Some line ->
  re_search uri_re line = Some m ->
  group m 1 = Some sub_url ->
  requests_get sub_url VNone = inl r2 ->
  splitlines (text r2) = pre ++ [] :: post ->
  Forall is_directive pre ->
  get_vtt_file_url media_url st =
  (Raise IndexError, logged sub_url (logged (py_str media_url) st)).
Proof.
  intros H1 Hl Hm Hg H2 Hs Hpre.
  rewrite (locator_reaches_scan _ _ _ _ _ _ _ H1 Hl Hm Hg H2), Hs.
  now rewrite (bind_raise _ _ _ _ _ (find_sub_filename_empty_line pre post _ Hpre)).
Qed.
End Locator.

(** C6.  When the first line of the sub-manifest that does not start with
    [#] is empty, the test [line[0] == '#'] raises an [IndexError]: the empty
    line is not selected and nothing is resolved against the sub-manifest's
    URL. *)
Theorem get_vtt_file_url_empty_line_raises :
  forall (E : External) (media_url : value) (r1 r2 : response)
         (line sub_url : str) (m : rematch) (pre post : list str) (st : state),
    requests_get (py_str media_url) VNone = inl r1 ->
    find_sub_stream_line (splitlines (text r1)) = Some line ->
    re_search uri_re line = Some m ->
    group m 1 = Some sub_url ->
    requests_get sub_url VNone = inl r2 ->
    splitlines (text r2) = pre ++ [] :: post ->
    Forall is_directive pre ->
    get_vtt_file_url media_url st =
    (Raise IndexError, logged sub_url (logged (py_str media_url) st)).
Proof.
  intros E media_url r1 r2 line sub_url m pre post st H1 Hl Hm Hg H2 Hs Hpre.
  exact (locator_stops_at_empty_line media_url r1 line m sub_url r2 pre post st
           H1 Hl Hm Hg H2 Hs Hpre).
Qed.

Lemma get_vtt_file_url_empty_line_witness :
  get_vtt_file_url (E := empty_line) (VStr "https://host/master.m3u8") st0 =
  (Raise IndexError,
   logged "https://host/path/sub.m3u8" (logged "https://host/master.m3u8" st0)).
Proof.
  apply (get_vtt_file_url_empty_line_raises empty_line (VStr "https://host/master.m3u8")
            (MkResponse true master_m3u8) (MkResponse true sub_m3u8)
            (cat "#EXT-X-MEDIA:TYPE=SUBTITLES,URI="
                 (QUOTE :: cat "https://host/path/sub.m3u8" [QUOTE]))
            "https://host/path/sub.m3u8"
            (MkMatch 28 60 [(1, lit "https://host/path/sub.m3u8")])
            [lit "#EXTM3U"] [lit "seg.vtt"] st0);
    try (vm_compute; reflexivity).
  repeat constructor.
Defined.

(** ** The subtitle converter *)

Lemma CR_is_not_LF c : chr_eqb c CR = true -> chr_eqb c LF = false.
Proof.
  unfold chr_eqb. intros H. apply Ascii.eqb_eq in H. now subst c.
Qed.

(** At any position the blank-line pattern matches exactly the four
    delimiters. *)
Lemma match_at_blank_line i rest :
  match_at blank_line_re i rest =
  option_map (fun k => MkMatch i (k + i) []) (delimiter_at rest).
Proof.
  unfold match_at, blank_line_re, delimiter_at, blank_line_delimiters.
  destruct rest as [|a [|b [|c [|d r]]]];
    cbn -[chr_eqb CR LF];
    repeat match goal with
      | |- context [chr_eqb ?x CR] =>
          let H := fresh "Hcr" in
          destruct (chr_eqb x CR) eqn:H;
          [rewrite ?(CR_is_not_LF x H)|]; cbn -[chr_eqb CR LF]
      | |- context [chr_eqb ?x LF] =>
          destruct (chr_eqb x LF); cbn -[chr_eqb CR LF]
      end; reflexivity.
Qed.

Lemma re_split_blank_line_loop s : forall i skip cur,
  split_loop blank_line_re i s skip cur = spec_split s skip cur.
Proof.
  induction s as [|c t IH]; intros i skip cur; cbn [split_loop spec_split].
  - reflexivity.
  - destruct skip as [|k]; [|apply IH].
    rewrite match_at_blank_line.
    destruct (delimiter_at (c :: t)) as [k|]; cbn [option_map m_end].
    + rewrite Nat.add_sub. destruct k; now rewrite IH.
    + apply IH.
Qed.

(** The blocks the script splits the text into are the blocks between
    blank-line delimiters. *)
Lemma re_split_blank_line vtt : re_split blank_line_re vtt = spec_blocks vtt.
Proof. apply re_split_blank_line_loop. Qed.

(** [update_at] changes the line of its index and no other. *)
Lemma update_at_nth i f lines : forall j,
  nth_error (update_at i f lines) j =
  if j =? i then option_map f (nth_error lines j) else nth_error lines j.
Proof.
  revert i. induction lines as [|l rest IH]; intros i j.
  - destruct i, j; cbn [update_at nth_error option_map]; now destruct (_ =? _).
  - destruct i as [|i]; cbn [update_at].
    + destruct j; reflexivity.
    + destruct j as [|j]; [reflexivity|]. cbn [nth_error Nat.eqb]. apply IH.
Qed.

Lemma update_at_length i f lines : length (update_at i f lines) = length lines.
Proof.
  revert i. induction lines as [|l rest IH]; intros [|i]; cbn [update_at length];
    try reflexivity. now rewrite IH.
Qed.

Lemma convert_cue_lines_two lines st :
  2 <= length lines ->
  convert_cue_lines lines st = (Ok (update_at 1 (replace_chr "." ",") lines), st).
Proof.
  destruct lines as [|l0 [|l1 rest]]; cbn; intros H; try lia. reflexivity.
Qed.

Lemma convert_cue_lines_short lines st :
  length lines < 2 -> convert_cue_lines lines st = (Raise IndexError, st).
Proof.
  destruct lines as [|l0 [|l1 rest]]; cbn; intros H; try lia; reflexivity.
Qed.

Lemma convert_cues_ok cues : forall acc st,
  Forall has_two_lines cues ->
  convert_cues cues acc st = (Ok (acc ++ map spec_convert_block cues), st).
Proof.
  induction cues as [|cue cues IH]; intros acc st H; cbn [convert_cues map].
  - now rewrite app_nil_r.
  - inversion H as [|? ? H1 H2]; subst.
    rewrite (bind_ok _ _ _ _ _ (convert_cue_lines_two _ st H1)).
    rewrite IH by assumption. now rewrite <- app_assoc.
Qed.

Lemma convert_cues_fail cues : forall acc st,
  ~ Forall has_two_lines cues ->
  convert_cues cues acc st = (Raise IndexError, st).
Proof.
  induction cues as [|cue cues IH]; intros acc st H; cbn [convert_cues].
  - elim H. constructor.
  - destruct (le_lt_dec 2 (length (splitlines cue))) as [H1 | H1].
    + rewrite (bind_ok _ _ _ _ _ (convert_cue_lines_two _ st H1)).
      apply IH. intros HF. apply H. now constructor.
    + now rewrite (bind_raise _ _ _ _ _ (convert_cue_lines_short _ st H1)).
Qed.

Lemma has_two_lines_forallb cues :
  Forall has_two_lines cues <->
  forallb (fun cue => 2 <=? length (splitlines cue)) cues = true.
Proof.
  rewrite forallb_forall, Forall_forall. unfold has_two_lines.
  split; intros H cue Hin; specialize (H cue Hin);
    [now apply Nat.leb_le | now apply Nat.leb_le in H].
Qed.

Lemma nrk_vtt_to_srt_ok vtt st :
  Forall has_two_lines (tl (spec_blocks vtt)) ->
  nrk_vtt_to_srt vtt st = (Ok (spec_convert vtt), st).
Proof.
  intros H. unfold nrk_vtt_to_srt. rewrite re_split_blank_line.
  now rewrite (bind_ok _ _ _ _ _ (convert_cues_ok _ [] st H)).
Qed.

Lemma nrk_vtt_to_srt_fail vtt st :
  ~ Forall has_two_lines (tl (spec_blocks vtt)) ->
  nrk_vtt_to_srt vtt st = (Raise IndexError, st).
Proof.
  intros H. unfold nrk_vtt_to_srt. rewrite re_split_blank_line.
  now rewrite (bind_raise _ _ _ _ _ (convert_cues_fail _ [] st H)).
Qed.

(** C5.  Whenever every block after the first has a line of index 1, the
    converter returns the text the specification describes: the input split
    into blocks at blank lines (line endings bare or prefixed by a carriage
    return), the first block dropped, every [.] of the line of index 1 of
    each other block replaced by [,] with the other lines as they were, and
    the blocks joined with one blank line between them; the example text
    gives the example output. *)
Theorem nrk_vtt_to_srt_converts :
  forall (vtt : str) (st : state),
    (Forall has_two_lines (tl (spec_blocks vtt)) ->
     nrk_vtt_to_srt vtt st = (Ok (spec_convert vtt), st)) /\
    nrk_vtt_to_srt example_vtt st = (Ok example_srt, st).
Proof.
  intros vtt st. split.
  - apply nrk_vtt_to_srt_ok.
  - rewrite nrk_vtt_to_srt_ok.
    + vm_compute. reflexivity.
    + apply has_two_lines_forallb. vm_compute. reflexivity.
Qed.

Lemma nrk_vtt_to_srt_converts_witness :
  nrk_vtt_to_srt example_vtt st0 = (Ok example_srt, st0).
Proof.
  refine (eq_trans (proj1 (nrk_vtt_to_srt_converts example_vtt st0) _) _).
  - apply has_two_lines_forallb. vm_compute. reflexivity.
  - vm_compute. reflexivity.
Defined.

(** C9.  The converter returns normally exactly when every block after the
    first has at least two lines, and raises an [IndexError] otherwise: so
    it does for a text that ends in two newlines, whose last block is empty,
    and for a text with a cue block of one line. *)
Theorem nrk_vtt_to_srt_partial :
  (forall (vtt : str) (st : state),
      (exists srt, nrk_vtt_to_srt vtt st = (Ok srt, st)) <->
      Forall has_two_lines (tl (re_split blank_line_re vtt))) /\
  (forall (vtt : str) (st : state),
      ~ Forall has_two_lines (tl (re_split blank_line_re vtt)) ->
      nrk_vtt_to_srt vtt st = (Raise IndexError, st)) /\
  (forall st, nrk_vtt_to_srt trailing_blank_vtt st = (Raise IndexError, st)) /\
  (forall st, nrk_vtt_to_srt single_line_vtt st = (Raise IndexError, st)).
Proof.
  assert (Hdec : forall cues, Forall has_two_lines cues \/ ~ Forall has_two_lines cues).
  { intros cues. destruct (Forall_dec has_two_lines) with (l := cues) as [H | H];
      [|now left|now right].
    intros cue. unfold has_two_lines. apply le_dec. }
  split; [|split; [|split]].
  - intros vtt st. split.
    + intros [srt H]. rewrite re_split_blank_line.
      destruct (Hdec (tl (spec_blocks vtt))) as [HF | HF]; [assumption|].
      rewrite (nrk_vtt_to_srt_fail vtt st HF) in H. discriminate.
    + intros H. rewrite re_split_blank_line in H.
      exists (spec_convert vtt). now apply nrk_vtt_to_srt_ok.
  - intros vtt st H. rewrite re_split_blank_line in H.
    now apply nrk_vtt_to_srt_fail.
  - intros st. apply nrk_vtt_to_srt_fail. intros H.
    apply has_two_lines_forallb in H. vm_compute in H. discriminate.
  - intros st. apply nrk_vtt_to_srt_fail. intros H.
    apply has_two_lines_forallb in H. vm_compute in H. discriminate.
Qed.

(** ** The batch loop *)

Section Batch.
Context {E : External}.

Lemma main_loop_app n pre : forall i post st,
  main_loop n i (pre ++ post) st =
  (main_loop n i pre ;; main_loop n (i + length pre) post) st.
Proof.
  induction pre as [|p pre IH]; intros i post st.
  - cbn [app main_loop length]. rewrite Nat.add_0_r. reflexivity.
  - cbn [app main_loop length]. unfold bind.
    destruct (main_body n i p st) as [[[]|e] st']; [|reflexivity].
    rewrite IH. unfold bind.
    replace (S i + length pre) with (i + S (length pre)) by lia.
    reflexivity.
Qed.
End Batch.

Lemma load_global_session : load_global "session" = raise (NameError "session").
Proof. reflexivity. Qed.

Section BatchSteps.
Context {E : External}.

(** The fetch primitive and the resolver leave the files alone. *)
Lemma get_req_files url headers st :
  files (snd (get_req url headers st)) = files st.
Proof.
  rewrite get_req_unfold. unfold bind, log_request.
  destruct (requests_get url headers) as [r | [msg | e]];
    try rewrite load_global_session; reflexivity.
Qed.

Lemma get_program_id_from_html_files url st :
  files (snd (get_program_id_from_html url st)) = files st.
Proof.
  unfold get_program_id_from_html, bind.
  pose proof (get_req_files url VNone st) as H.
  destruct (get_req url VNone st) as [[req | e] st']; cbn [snd] in H;
    [|exact H].
  destruct (not_req req); [exact H|].
  destruct req as [r|]; cbn [req_text]; unfold ret, raise; [|exact H].
  now destruct (or_else _ _).
Qed.

Lemma get_program_id_from_media_id_files media_id st :
  files (snd (get_program_id_from_media_id media_id st)) = files st.
Proof.
  unfold get_program_id_from_media_id, bind.
  pose proof (get_req_files (format MIMIR_BASE_URL [py_str media_id]) VNone st) as H.
  destruct (get_req _ VNone st) as [[req | e] st']; cbn [snd] in H;
    [|exact H].
  destruct (not_req req); [exact H|].
  destruct req as [r|]; cbn [req_text]; unfold ret, raise; [|exact H].
  destruct (soup_find _ _); [|exact H].
  destruct (json_loads _) as [[| | | | | |d]|]; try exact H.
  now destruct (dict_get d _ _).
Qed.




(** A transport failure of the metadata fetch is not one of them. *)
Lemma download_no_response program_id e st :
  requests_get (format TVAPI_BASE_URL [py_str program_id]) TVAPI_HEADERS =
  inr (RequestException e) ->
  download program_id st =
  (Raise (AttributeError "json"),
   printed (format "Error: {}" [e])
           (logged (format TVAPI_BASE_URL [py_str program_id]) st)).
Proof.
  intros H. unfold download.
  now rewrite (bind_ok _ _ _ _ _ (get_req_failure _ _ _ _ H)).
Qed.

(** One turn of the loop after the references before it. *)
Lemma main_loop_turn n i pre program post st st1 :
  main_loop n i pre st = (Ok tt, st1) ->
  main_loop n i (pre ++ program :: post) st =
  (main_body n (i + length pre) program ;;
   main_loop n (S (i + length pre)) post) st1.
Proof.
  intros H. rewrite main_loop_app. now rewrite (bind_ok _ _ _ _ _ H).
Qed.

Lemma main_body_resolved n i program st v st2 :
  get_program_id program (printed (header n i) st) = (Ok v, st2) ->
  main_body n i program st =
  (if truthy v then download v
   else error (format "Could not parse program ID from '{}'" [program])) st2.
Proof.
  intros H. unfold main_body. unfold bind at 1. cbn [print].
  fold (header n i). now rewrite (bind_ok _ _ _ _ _ H).
Qed.
End BatchSteps.



(** C7.  The batch loop does not survive a failed download.  When, after
    the references before it were handled, a reference resolves to an
    identifier and the metadata fetch of [download] fails with a transport
    error, [get_req] prints the error and returns [None], on which
    [req.json()] raises an [AttributeError] that neither [download] nor
    [main] handles.  [main] ends there with that exception: the failure is
    not reported as one, and the references after it are never attempted,
    whatever they are. *)
Theorem main_aborts_on_failed_metadata_fetch :
  forall (E : External) (pre : list str) (program : str) (post : list str)
         (v : value) (e : str) (st st1 st2 : state),
    main_loop (length (pre ++ program :: post)) 0 pre (printed banner st) = (Ok tt, st1) ->
    get_program_id program
      (printed (header (length (pre ++ program :: post)) (length pre)) st1) = (Ok v, st2) ->
    truthy v = true ->
    requests_get (format TVAPI_BASE_URL [py_str v]) TVAPI_HEADERS =
    inr (RequestException e) ->
    forall post' : list str,
      length post' = length post ->
      main (pre ++ program :: post') st =
      (Raise (AttributeError "json"),
       printed (format "Error: {}" [e])
               (logged (format TVAPI_BASE_URL [py_str v]) st2)).
Proof.
  intros E pre program post v e st st1 st2 Hpre Hid Hv Hreq post' Hlen.
  assert (Hn : length (pre ++ program :: post') = length (pre ++ program :: post)).
  { rewrite !length_app. cbn [length]. now rewrite Hlen. }
  unfold main. unfold bind at 1. cbn [print]. fold banner. rewrite Hn.
  rewrite (main_loop_turn _ 0 pre program post' _ st1 Hpre). cbn [Nat.add].
  unfold bind at 1. rewrite (main_body_resolved _ _ _ _ _ _ Hid), Hv.
  now rewrite (download_no_response v e st2 Hreq).
Qed.

(** With no network the first of three references ends the run: its
    metadata request is the only one made, and no line announces the second
    or the third reference. *)
Lemma main_aborts_on_failed_metadata_fetch_witness :
  main (E := offline) [lit "ABCD12345678"; lit "PS*12-ab"; lit "KMTE20000116"] st0 =
  (Raise (AttributeError "json"),
   MkState []
           [cat "NRK Download 1.1.3" NL; lit "Downloading 1 of 3:";
            lit "Error: connection refused"]
           [lit "https://tvapi.nrk.no/v1/programs/ABCD12345678"]).
Proof.
  apply (main_aborts_on_failed_metadata_fetch offline [] "ABCD12345678"
           [lit "PS*12-ab"; lit "KMTE20000116"] (VStr "ABCD12345678")
           "connection refused" st0 (printed banner st0)
           (printed (header 3 0) (printed banner st0))).
  - reflexivity.
  - vm_compute. reflexivity.
  - reflexivity.
  - reflexivity.
  - reflexivity.
Defined.

(** * Further properties of the script *)

(** ** [create_filename_base] *)

Lemma split_loop_nonempty r s : forall i skip cur, split_loop r i s skip cur <> [].
Proof.
  induction s as [|c t IH]; intros i skip cur; cbn [split_loop]; [discriminate|].
  destruct skip; [|apply IH].
  destruct (match_at r i (c :: t)) as [m|]; [|apply IH].
  destruct (m_end m - i); [apply IH | discriminate].
Qed.

Lemma join_cons sep p rest :
  rest <> [] -> join sep (p :: rest) = p ++ sep ++ join sep rest.
Proof. destruct rest; [now intros H; elim H | reflexivity]. Qed.

(** Substituting one character for a class of characters is a [map]. *)
Lemma re_sub_class_loop p u s : forall i cur,
  join [u] (split_loop (Cls p) i s 0 cur) =
  rev cur ++ map (fun c => if p c then u else c) s.
Proof.
  induction s as [|c t IH]; intros i cur; cbn [split_loop map].
  - cbn [join]. now rewrite app_nil_r.
  - unfold match_at. cbn [rmatch]. destruct (p c).
    + cbn [m_end]. replace (S i - i) with 1 by lia.
      rewrite join_cons by apply split_loop_nonempty.
      rewrite IH. reflexivity.
    + rewrite IH. cbn [rev]. now rewrite <- app_assoc.
Qed.

Lemma re_sub_unsafe title : re_sub unsafe_re "_" title = sanitized title.
Proof. unfold re_sub, re_split, unsafe_re. apply (re_sub_class_loop unsafe_chr "_"). Qed.

Lemma sanitized_safe title : forallb (fun c => negb (unsafe_chr c)) (sanitized title) = true.
Proof.
  unfold sanitized. induction title as [|c t IH]; [reflexivity|].
  cbn [map forallb]. rewrite IH, andb_true_r.
  destruct (unsafe_chr c) eqn:Hc; [reflexivity | now rewrite Hc].
Qed.

Lemma create_filename_base_free title st :
  isfile (format "{}.ts" [sanitized title]) st = false ->
  create_filename_base (VStr title) st = (Ok (sanitized title), st).
Proof.
  intros H. unfold create_filename_base. rewrite re_sub_unsafe. now rewrite H.
Qed.

Lemma create_filename_base_taken title st :
  isfile (format "{}.ts" [sanitized title]) st = true ->
  create_filename_base (VStr title) st =
  (Ok (sanitized title ++ lit " (" ++
       str_of_nat (first_free (S (length (files st))) (sanitized title) 1 st) ++
       lit ").ts"), st).
Proof.
  intros H. unfold create_filename_base. rewrite re_sub_unsafe, H. reflexivity.
Qed.

(** X1.  For a title whose sanitized form names no existing [.ts] file,
    [create_filename_base] returns the title with every character of
    [/\?%*:|<>] and the double quote replaced by an underscore and every
    other character as it is: the name has the length of the title, holds
    none of those characters, and the state is unchanged. *)
Theorem create_filename_base_sanitizes :
  forall (title : str) (st : state),
    isfile (format "{}.ts" [sanitized title]) st = false ->
    create_filename_base (VStr title) st = (Ok (sanitized title), st) /\
    length (sanitized title) = length title /\
    forallb (fun c => negb (unsafe_chr c)) (sanitized title) = true.
Proof.
  intros title st H. split; [|split].
  - now apply create_filename_base_free.
  - apply length_map.
  - apply sanitized_safe.
Qed.

Lemma create_filename_base_sanitizes_witness :
  create_filename_base (VStr "Dagsrevyen 21: 3/4 <direkte>") st0 =
  (Ok (lit "Dagsrevyen 21_ 3_4 _direkte_"), st0) /\
  length (sanitized "Dagsrevyen 21: 3/4 <direkte>") =
  length (lit "Dagsrevyen 21: 3/4 <direkte>") /\
  forallb (fun c => negb (unsafe_chr c)) (sanitized "Dagsrevyen 21: 3/4 <direkte>") = true.
Proof.
  apply (create_filename_base_sanitizes "Dagsrevyen 21: 3/4 <direkte>" st0).
  vm_compute. reflexivity.
Defined.

(** X2.  When the sanitized title already names a [.ts] file,
    [create_filename_base] returns the numbered name [basename (i).ts] for
    the least [i >= 1] whose numbered name is free: that name is no existing
    file, every lower number is taken, and the returned name already ends
    in [.ts]. *)
Theorem create_filename_base_numbers :
  forall (title : str) (st : state),
    isfile (format "{}.ts" [sanitized title]) st = true ->
    exists i : nat,
      1 <= i /\
      create_filename_base (VStr title) st =
      (Ok (sanitized title ++ lit " (" ++ str_of_nat i ++ lit ").ts"), st) /\
      isfile (numbered (sanitized title) i) st = false /\
      forall j, 1 <= j < i -> isfile (numbered (sanitized title) j) st = true.
Proof.
  intros title st H.
  exists (first_free (S (length (files st))) (sanitized title) 1 st).
  destruct (first_free_fuel (sanitized title) st) as [Hfree Htaken].
  destruct (first_free_range (sanitized title) st (S (length (files st))) 1) as [Hr _].
  cbn zeta in *. split; [lia|]. split; [|split; assumption].
  now apply create_filename_base_taken.
Qed.

Lemma create_filename_base_numbers_witness :
  exists i : nat,
    1 <= i /\
    create_filename_base (VStr "a") st_taken =
    (Ok (sanitized "a" ++ lit " (" ++ str_of_nat i ++ lit ").ts"), st_taken) /\
    isfile (numbered (sanitized "a") i) st_taken = false /\
    forall j, 1 <= j < i -> isfile (numbered (sanitized "a") j) st_taken = true.
Proof.
  apply (create_filename_base_numbers "a" st_taken). vm_compute. reflexivity.
Defined.

(** ** [get_req] *)

(** X3.  Every call of [get_req] hands exactly one URL to [requests.get] and
    leaves the files alone.  A response is returned as it is, whatever its
    status, and nothing is printed; a transport failure other than a missing
    scheme gives [None] and one printed error line; a missing scheme gives
    the [NameError] of the unbound name, with nothing printed and no second
    request. *)
Theorem get_req_one_request :
  forall (E : External) (url : str) (headers : value) (st : state),
    requested (snd (get_req url headers st)) = requested st ++ [url] /\
    files (snd (get_req url headers st)) = files st /\
    match requests_get url headers with
    | inl r =>
        fst (get_req url headers st) = Ok (Some r) /\
        stdout (snd (get_req url headers st)) = stdout st
    | inr (RequestException e) =>
        fst (get_req url headers st) = Ok None /\
        stdout (snd (get_req url headers st)) = stdout st ++ [format "Error: {}" [e]]
    | inr (MissingSchema _) =>
        fst (get_req url headers st) = Raise (NameError "session") /\
        stdout (snd (get_req url headers st)) = stdout st
    end.
Proof.
  intros E url headers st.
  destruct (requests_get url headers) as [r | [msg | e]] eqn:H.
  - rewrite (get_req_response _ _ _ st H). now repeat split.
  - rewrite (get_req_on_missing_schema _ _ _ st H). now repeat split.
  - rewrite (get_req_failure _ _ _ st H). now repeat split.
Qed.

(** ** [save_stream] *)

Section Stream.
Context {E : External}.

Lemma save_stream_unfold d st :
  save_stream (VDict d) st =
  (filename_base <- create_filename_base (chosen_title d) ;;
   (if truthy (dict_get d "hasSubtitles" VNone) then
      media_url <- dict_item d "mediaUrl" ;;
      save_subtitles media_url (format "{}.srt" [filename_base])
    else ret tt) ;;
   print (format (cat "Saving {}.ts" NL) [filename_base]) ;;
   media_url <- dict_item d "mediaUrl" ;;
   hls_dump media_url (format "{}.ts" [filename_base]))
    (printed (format "Found {}" [py_str (chosen_title d)]) st).
Proof. reflexivity. Qed.

Lemma create_filename_base_state title st :
  snd (create_filename_base title st) = st.
Proof.
  unfold create_filename_base. destruct title; try reflexivity.
  now destruct (isfile _ st).
Qed.
End Stream.

(** X4.  When the metadata gives no string as title (neither [fullTitle]
    nor [title] is there, say), [save_stream] prints its [Found] line and
    then raises a [TypeError] from the substitution in
    [create_filename_base]: nothing is requested, written or handed to the
    downloader. *)
Theorem save_stream_without_title :
  forall (E : External) (d : list (str * value)) (st : state),
    (forall s, chosen_title d <> VStr s) ->
    save_stream (VDict d) st =
    (Raise TypeError, printed (format "Found {}" [py_repr (chosen_title d)]) st).
Proof.
  intros E d st H. rewrite save_stream_unfold.
  destruct (chosen_title d) as [| | | |s| |] eqn:Ht;
    try reflexivity.
  now elim (H s).
Qed.

Lemma save_stream_without_title_witness :
  save_stream (E := offline) (VDict untitled) st0 =
  (Raise TypeError, printed "Found ?" st0).
Proof.
  apply (save_stream_without_title offline untitled st0).
  intros s. vm_compute. discriminate.
Defined.



(** ** [get_vtt_file_url] and [save_subtitles] *)

Lemma find_sub_filename_state lines st : snd (find_sub_filename lines st) = st.
Proof.
  induction lines as [|l rest IH]; cbn [find_sub_filename]; [reflexivity|].
  destruct l as [|c l]; [reflexivity|].
  destruct (negb (chr_eqb c "#")); [reflexivity | exact IH].
Qed.

Lemma find_sub_filename_directives lines st :
  Forall is_directive lines -> find_sub_filename lines st = (Ok None, st).
Proof.
  induction 1 as [|l rest Hl _ IH]; cbn [find_sub_filename]; [reflexivity|].
  destruct (is_directive_head _ Hl) as (c & l' & -> & Hc).
  now rewrite Hc.
Qed.

(** The first loop binds the first line that starts with the marker. *)
Lemma find_sub_stream_line_first pre line post :
  Forall (fun l => startswith l SUBTITLES_MARK = false) pre ->
  startswith line SUBTITLES_MARK = true ->
  find_sub_stream_line (pre ++ line :: post) = Some line.
Proof.
  intros Hpre Hline. induction Hpre as [|l pre Hl _ IH]; cbn [app find_sub_stream_line].
  - fold SUBTITLES_MARK. now rewrite Hline.
  - fold SUBTITLES_MARK. now rewrite Hl.
Qed.

Lemma find_sub_stream_line_none lines :
  Forall (fun l => startswith l SUBTITLES_MARK = false) lines ->
  find_sub_stream_line lines = None.
Proof.
  induction 1 as [|l rest Hl _ IH]; cbn [find_sub_stream_line]; [reflexivity|].
  fold SUBTITLES_MARK. now rewrite Hl.
Qed.

Section Subtitles.
Context {E : External}.

Lemma get_vtt_file_url_files media_url st :
  files (snd (get_vtt_file_url media_url st)) = files st.
Proof.
  unfold get_vtt_file_url, bind.
  pose proof (get_req_files (py_str media_url) VNone st) as H1.
  destruct (get_req (py_str media_url) VNone st) as [[req | e] s1];
    cbn [snd] in H1; [|exact H1].
  destruct req as [r|]; cbn [req_text]; unfold ret, raise; [|exact H1].
  destruct (find_sub_stream_line _) as [line|]; [|exact H1].
  destruct (re_search uri_re line) as [m|]; [|exact H1].
  destruct (group m 1) as [sub_url|]; [|exact H1].
  pose proof (get_req_files sub_url VNone s1) as H2.
  destruct (get_req sub_url VNone s1) as [[req2 | e2] s2];
    cbn [snd] in H2; [|cbn [snd]; congruence].
  destruct req2 as [r2|]; cbn [req_text]; unfold ret, raise;
    [|cbn [snd]; congruence].
  pose proof (find_sub_filename_state (splitlines (text r2)) s2) as H3.
  destruct (find_sub_filename (splitlines (text r2)) s2) as [[found | e3] s3];
    cbn [snd] in H3; subst s3; [|cbn [snd]; congruence].
  destruct found; cbn [snd]; congruence.
Qed.

Lemma nrk_vtt_to_srt_state vtt st : snd (nrk_vtt_to_srt vtt st) = st.
Proof.
  destruct (Forall_dec has_two_lines) with (l := tl (spec_blocks vtt)) as [H | H].
  - intros cue. apply le_dec.
  - now rewrite (nrk_vtt_to_srt_ok vtt st H).
  - now rewrite (nrk_vtt_to_srt_fail vtt st H).
Qed.

Lemma save_subtitles_unfold media_url filename st :
  save_subtitles media_url filename st =
  (sub_url <- get_vtt_file_url media_url ;;
   vtt_req <- get_req sub_url VNone ;;
   vtt <- req_text vtt_req ;;
   srt <- nrk_vtt_to_srt vtt ;;
   write_file filename srt) (printed (format "Saving {}" [filename]) st).
Proof. reflexivity. Qed.
End Subtitles.

(** X6.  With a main manifest whose first line starting with the subtitle
    marker carries the sub-manifest's URL, and a sub-manifest in which no
    empty line comes before the first line that does not start with [#],
    [get_vtt_file_url] returns that line resolved against the
    sub-manifest's URL, after exactly two requests: the main manifest, then
    the sub-manifest. *)
Theorem get_vtt_file_url_first :
  forall (E : External) (media_url : value) (r1 r2 : response)
         (pre1 post1 : list str) (line sub_url : str) (m : rematch)
         (pre post : list str) (c : ascii) (l : str) (st : state),
    requests_get (py_str media_url) VNone = inl r1 ->
    splitlines (text r1) = pre1 ++ line :: post1 ->
    Forall (fun l => startswith l SUBTITLES_MARK = false) pre1 ->
    startswith line SUBTITLES_MARK = true ->
    re_search uri_re line = Some m ->
    group m 1 = Some sub_url ->
    requests_get sub_url VNone = inl r2 ->
    splitlines (text r2) = pre ++ (c :: l) :: post ->
    Forall is_directive pre ->
    chr_eqb c "#" = false ->
    get_vtt_file_url media_url st =
    (Ok (urljoin sub_url (c :: l)),
     MkState (files st) (stdout st) (requested st ++ [py_str media_url; sub_url])).
Proof.
  intros E media_url r1 r2 pre1 post1 line sub_url m pre post c l st
         H1 Hs1 Hpre1 Hline Hm Hg H2 Hs2 Hpre Hc.
  rewrite (locator_takes_first_line media_url r1 line m sub_url r2 pre c l post st);
    try assumption.
  - unfold logged. cbn [files stdout requested]. now rewrite <- app_assoc.
  - rewrite Hs1. now apply find_sub_stream_line_first.
Qed.

Lemma get_vtt_file_url_first_witness :
  get_vtt_file_url (E := with_subtitles) (VStr "https://host/master.m3u8") st0 =
  (Ok (lit "https://host/path/seg.vtt"),
   MkState [] [] [lit "https://host/master.m3u8"; lit "https://host/path/sub.m3u8"]).
Proof.
  apply (get_vtt_file_url_first with_subtitles (VStr "https://host/master.m3u8")
           (MkResponse true master_m3u8) (MkResponse true good_sub_m3u8)
           [lit "#EXTM3U"] []
           (cat "#EXT-X-MEDIA:TYPE=SUBTITLES,URI="
                (QUOTE :: cat "https://host/path/sub.m3u8" [QUOTE]))
           "https://host/path/sub.m3u8"
           (MkMatch 28 60 [(1, lit "https://host/path/sub.m3u8")])
           [lit "#EXTM3U"; lit "#EXT-X-TARGETDURATION:10"] [lit "#EXT-X-ENDLIST"]
           "s" "eg.vtt" st0);
    try (vm_compute; reflexivity).
  - repeat constructor.
  - repeat constructor.
Defined.

(** X7.  [get_vtt_file_url] uses what [get_req] returns without a check:
    when the main manifest cannot be fetched, and when the sub-manifest
    cannot be fetched, the reading of [text] on [None] raises an
    [AttributeError], after the error line of [get_req]. *)
Theorem get_vtt_file_url_without_response :
  forall (E : External) (media_url : value) (st : state),
    (forall e, requests_get (py_str media_url) VNone = inr (RequestException e) ->
       get_vtt_file_url media_url st =
       (Raise (AttributeError "text"),
        printed (format "Error: {}" [e]) (logged (py_str media_url) st))) /\
    (forall r1 line m sub_url e,
       requests_get (py_str media_url) VNone = inl r1 ->
       find_sub_stream_line (splitlines (text r1)) = Some line ->
       re_search uri_re line = Some m ->
       group m 1 = Some sub_url ->
       requests_get sub_url VNone = inr (RequestException e) ->
       get_vtt_file_url media_url st =
       (Raise (AttributeError "text"),
        printed (format "Error: {}" [e])
                (logged sub_url (logged (py_str media_url) st)))).
Proof.
  intros E media_url st. split.
  - intros e H. unfold get_vtt_file_url.
    now rewrite (bind_ok _ _ _ _ _ (get_req_failure _ _ _ _ H)).
  - intros r1 line m sub_url e H1 Hl Hm Hg H2. unfold get_vtt_file_url.
    rewrite (bind_ok _ _ _ _ _ (get_req_response _ _ _ _ H1)). cbn [req_text].
    unfold bind at 1. cbn [ret]. rewrite Hl, Hm, Hg.
    now rewrite (bind_ok _ _ _ _ _ (get_req_failure _ _ _ _ H2)).
Qed.

Lemma get_vtt_file_url_without_response_witness :
  get_vtt_file_url (E := offline) (VStr "https://host/master.m3u8") st0 =
  (Raise (AttributeError "text"),
   printed (format "Error: {}" [lit "connection refused"])
           (logged "https://host/master.m3u8" st0)).
Proof.
  apply (proj1 (get_vtt_file_url_without_response offline
                  (VStr "https://host/master.m3u8") st0)).
  reflexivity.
Defined.

(** X8.  A manifest that lacks the expected line makes [get_vtt_file_url]
    raise: an [UnboundLocalError] when no line of the main manifest starts
    with the subtitle marker, an [AttributeError] when the line found has no
    quoted [URI], and an [UnboundLocalError] when every line of the
    sub-manifest starts with [#]. *)
Theorem get_vtt_file_url_missing_line :
  forall (E : External) (media_url : value) (r1 : response) (st : state),
    requests_get (py_str media_url) VNone = inl r1 ->
    (Forall (fun l => startswith l SUBTITLES_MARK = false) (splitlines (text r1)) ->
     get_vtt_file_url media_url st =
     (Raise (UnboundLocalError "sub_stream_line"), logged (py_str media_url) st)) /\
    (forall line,
       find_sub_stream_line (splitlines (text r1)) = Some line ->
       re_search uri_re line = None ->
       get_vtt_file_url media_url st =
       (Raise (AttributeError "group"), logged (py_str media_url) st)) /\
    (forall line m sub_url r2,
       find_sub_stream_line (splitlines (text r1)) = Some line ->
       re_search uri_re line = Some m ->
       group m 1 = Some sub_url ->
       requests_get sub_url VNone = inl r2 ->
       Forall is_directive (splitlines (text r2)) ->
       get_vtt_file_url media_url st =
       (Raise (UnboundLocalError "sub_filename"),
        logged sub_url (logged (py_str media_url) st))).
Proof.
  intros E media_url r1 st H1. split; [|split].
  - intros Hnone. unfold get_vtt_file_url.
    rewrite (bind_ok _ _ _ _ _ (get_req_response _ _ _ _ H1)). cbn [req_text].
    unfold bind at 1. cbn [ret]. now rewrite (find_sub_stream_line_none _ Hnone).
  - intros line Hl Hm. unfold get_vtt_file_url.
    rewrite (bind_ok _ _ _ _ _ (get_req_response _ _ _ _ H1)). cbn [req_text].
    unfold bind at 1. cbn [ret]. now rewrite Hl, Hm.
  - intros line m sub_url r2 Hl Hm Hg H2 Hall.
    rewrite (locator_reaches_scan _ _ _ _ _ _ _ H1 Hl Hm Hg H2).
    now rewrite (bind_ok _ _ _ _ _ (find_sub_filename_directives _ _ Hall)).
Qed.

Lemma get_vtt_file_url_missing_line_witness :
  get_vtt_file_url (E := no_subtitle_track) (VStr "https://host/master.m3u8") st0 =
  (Raise (UnboundLocalError "sub_stream_line"), logged "https://host/master.m3u8" st0).
Proof.
  refine (proj1 (get_vtt_file_url_missing_line no_subtitle_track
                   (VStr "https://host/master.m3u8") _ st0 eq_refl) _).
  vm_compute. repeat constructor.
Defined.

Lemma str_eqb_refl (a : str) : str_eqb a a = true.
Proof. now apply str_eqb_eq. Qed.

Lemma str_eqb_neq (a b : str) : a <> b -> str_eqb a b = false.
Proof.
  intros H. destruct (str_eqb a b) eqn:E; [|reflexivity].
  apply str_eqb_eq in E. now elim H.
Qed.

(** Writing a file leaves the content of every other file as it was. *)
Lemma assoc_filter_other {A} (filename other : str) (fs : list (str * A)) :
  other <> filename ->
  assoc other (filter (fun f => negb (str_eqb filename (fst f))) fs) = assoc other fs.
Proof.
  intros Hne. induction fs as [|[k v] fs IH]; [reflexivity|].
  cbn [filter fst assoc]. destruct (str_eqb filename k) eqn:Hk; cbn [negb].
  - apply str_eqb_eq in Hk. subst k. now rewrite (str_eqb_neq _ _ Hne).
  - cbn [assoc]. now rewrite IH.
Qed.

Lemma put_file_same filename content st :
  assoc filename (files (put_file filename content st)) = Some content.
Proof. cbn [put_file files assoc]. now rewrite str_eqb_refl. Qed.

Lemma put_file_other filename content other st :
  other <> filename ->
  assoc other (files (put_file filename content st)) = assoc other (files st).
Proof.
  intros Hne. cbn [put_file files assoc]. rewrite (str_eqb_neq _ _ Hne).
  now apply assoc_filter_other.
Qed.

Section Writing.
Context {E : External}.

(** What [write_file] does, by the outcome of the open and of the write. *)
Lemma write_file_cases filename content st :
  match io_open filename with
  | Some e => write_file filename content st = (Raise e, st)
  | None =>
      match f_write filename content with
      | Some (partial, e) =>
          write_file filename content st =
          (Raise e, put_file filename partial (put_file filename [] st))
      | None =>
          write_file filename content st =
          (Ok tt, put_file filename content (put_file filename [] st))
      end
  end.
Proof.
  unfold write_file, bind, open_for_writing, write_and_close.
  destruct (io_open filename) as [e|]; [reflexivity|].
  now destruct (f_write filename content) as [[partial e]|].
Qed.

(** Up to the open of the file, [save_subtitles] leaves the files alone. *)
Lemma save_subtitles_before_open media_url filename st :
  (exists e st1, files st1 = files st /\
                 save_subtitles media_url filename st = (Raise e, st1)) \/
  (exists srt st1, files st1 = files st /\
                   save_subtitles media_url filename st = write_file filename srt st1).
Proof.
  remember (save_subtitles media_url filename st) as res eqn:Hres.
  rewrite save_subtitles_unfold in Hres.
  set (st1 := printed (format "Saving {}" [filename]) st) in Hres.
  assert (H0 : files st1 = files st) by reflexivity.
  unfold bind at 1 in Hres.
  pose proof (get_vtt_file_url_files media_url st1) as H1.
  destruct (get_vtt_file_url media_url st1) as [[sub_url | e1] s2]; cbn [snd] in H1.
  2:{ left. exists e1, s2. split; [congruence | assumption]. }
  unfold bind at 1 in Hres.
  pose proof (get_req_files sub_url VNone s2) as H2.
  destruct (get_req sub_url VNone s2) as [[req | e2] s3]; cbn [snd] in H2.
  2:{ left. exists e2, s3. split; [congruence | assumption]. }
  unfold bind at 1 in Hres.
  destruct req as [r|]; cbn [req_text] in Hres.
  2:{ left. exists (AttributeError "text"), s3. split; [congruence | assumption]. }
  unfold ret at 1 in Hres. unfold bind at 1 in Hres.
  pose proof (nrk_vtt_to_srt_state (text r) s3) as H3.
  destruct (nrk_vtt_to_srt (text r) s3) as [[srt | e3] s4]; cbn [snd] in H3; subst s4.
  - right. exists srt, s3. split; [congruence | assumption].
  - left. exists e3, s3. split; [congruence | assumption].
Qed.
End Writing.

(** X9.  [save_subtitles] opens the subtitle file only after the location,
    the fetch and the conversion have succeeded.  Whenever it raises, every
    other file is as it was; and the files are changed at all only when the
    open succeeded and the write then failed, in which case the subtitle
    file holds what the failed write left in it.  A failure of the location,
    the fetch, the conversion or the open leaves the files as they were. *)
Theorem save_subtitles_failure_files :
  forall (E : External) (media_url : value) (filename : str)
         (st st' : state) (e : exn),
    save_subtitles media_url filename st = (Raise e, st') ->
    (forall other, other <> filename ->
                   assoc other (files st') = assoc other (files st)) /\
    (files st' = files st \/
     exists srt partial,
       io_open filename = None /\
       f_write filename srt = Some (partial, e) /\
       assoc filename (files st') = Some partial).
Proof.
  intros E media_url filename st st' e H.
  destruct (save_subtitles_before_open media_url filename st)
    as [(e1 & st1 & Hf & Hs) | (srt & st1 & Hf & Hs)]; rewrite Hs in H.
  - injection H as _ <-. split; [intros other _; now rewrite Hf | now left].
  - pose proof (write_file_cases filename srt st1) as Hw.
    destruct (io_open filename) as [e0|] eqn:Hopen.
    + rewrite Hw in H. injection H as _ <-.
      split; [intros other _; now rewrite Hf | now left].
    + destruct (f_write filename srt) as [[partial e0]|] eqn:Hwrite;
        rewrite Hw in H; [|discriminate H].
      injection H as <- <-. split.
      * intros other Hne. rewrite !put_file_other by assumption. now rewrite Hf.
      * right. exists srt, partial. split; [reflexivity|].
        split; [assumption | apply put_file_same].
Qed.

Lemma save_subtitles_failure_files_witness :
  (forall other,
      other <> lit "a.srt" ->
      assoc other
        (files (snd (save_subtitles (E := full_disk) (VStr "https://host/master.m3u8")
                       "a.srt" st_taken))) =
      assoc other (files st_taken)) /\
  (files (snd (save_subtitles (E := full_disk) (VStr "https://host/master.m3u8")
                 "a.srt" st_taken)) = files st_taken \/
   exists srt partial,
     @io_open full_disk "a.srt" = None /\
     @f_write full_disk "a.srt" srt = Some (partial, OSError) /\
     assoc (lit "a.srt")
       (files (snd (save_subtitles (E := full_disk) (VStr "https://host/master.m3u8")
                      "a.srt" st_taken))) = Some partial).
Proof.
  apply (save_subtitles_failure_files full_disk (VStr "https://host/master.m3u8")
           "a.srt" st_taken _ OSError).
  vm_compute. reflexivity.
Defined.



(** ** [nrk_vtt_to_srt], further *)

Lemma spec_split_no_delimiter s : forall cur,
  (forall p q, s = p ++ q -> delimiter_at q = None) ->
  spec_split s 0 cur = [rev cur ++ s].
Proof.
  induction s as [|c t IH]; intros cur H; cbn [spec_split].
  - now rewrite app_nil_r.
  - rewrite (H [] (c :: t) eq_refl). rewrite IH.
    + cbn [rev]. now rewrite <- app_assoc.
    + intros p q Hpq. apply (H (c :: p) q). now rewrite Hpq.
Qed.

(** X11.  A text without a blank line (only a header, or nothing at all) has
    one block, which is dropped: the conversion returns the empty text and
    raises nothing. *)
Theorem nrk_vtt_to_srt_header_only :
  forall (vtt : str) (st : state),
    (forall p q, vtt = p ++ q -> delimiter_at q = None) ->
    nrk_vtt_to_srt vtt st = (Ok [], st).
Proof.
  intros vtt st H.
  assert (Hb : spec_blocks vtt = [vtt]) by (apply (spec_split_no_delimiter vtt [] H)).
  rewrite nrk_vtt_to_srt_ok; rewrite ?Hb; cbn [tl]; [|constructor].
  unfold spec_convert. now rewrite Hb.
Qed.

Lemma no_delimiter_check (s : str) :
  forallb (fun n => match delimiter_at (skipn n s) with None => true | Some _ => false end)
          (seq 0 (S (length s))) = true ->
  forall p q, s = p ++ q -> delimiter_at q = None.
Proof.
  intros H p q Hpq. rewrite forallb_forall in H.
  specialize (H (length p)). subst s.
  rewrite skipn_app, skipn_all, Nat.sub_diag in H. cbn [app skipn] in H.
  destruct (delimiter_at q); [|reflexivity].
  discriminate H. apply in_seq. rewrite length_app. lia.
Qed.

Lemma nrk_vtt_to_srt_header_only_witness :
  nrk_vtt_to_srt header_only_vtt st0 = (Ok [], st0).
Proof.
  apply (nrk_vtt_to_srt_header_only header_only_vtt st0).
  apply no_delimiter_check. vm_compute. reflexivity.
Defined.

Lemma forallb_rev {A} (f : A -> bool) (l : list A) : forallb f (rev l) = forallb f l.
Proof.
  destruct (forallb f l) eqn:H.
  - rewrite forallb_forall in *. intros x Hx. apply H. now apply in_rev.
  - destruct (forallb f (rev l)) eqn:H'; [|reflexivity].
    rewrite forallb_forall in H'. rewrite <- H. symmetry. apply forallb_forall.
    intros x Hx. apply H'. now apply in_rev in Hx.
Qed.

(** The lines of [splitlines] hold no line boundary. *)
Lemma splitlines_aux_no_break n : forall s cur,
  length s <= n ->
  forallb (fun c => negb (is_linebreak c)) cur = true ->
  Forall (fun l => forallb (fun c => negb (is_linebreak c)) l = true)
         (splitlines_aux cur s).
Proof.
  induction n as [|n IH]; intros s cur Hn Hcur.
  - destruct s; [|cbn in Hn; lia]. cbn [splitlines_aux].
    destruct cur; constructor; [|constructor].
    rewrite forallb_rev. exact Hcur.
  - destruct s as [|c t]; cbn [splitlines_aux].
    + destruct cur; constructor; [|constructor].
      rewrite forallb_rev. exact Hcur.
    + cbn [length] in Hn. destruct (is_linebreak c) eqn:Hc.
      * constructor; [rewrite forallb_rev; exact Hcur|].
        destruct (chr_eqb c CR).
        -- destruct t as [|d t']; [apply IH; [cbn; lia | reflexivity]|].
           destruct (chr_eqb d LF); apply IH; cbn [length] in *; try lia; reflexivity.
        -- apply IH; [lia | reflexivity].
      * apply IH; [lia|]. cbn [forallb]. now rewrite Hc, Hcur.
Qed.

Lemma splitlines_no_break s :
  Forall (fun l => forallb (fun c => negb (is_linebreak c)) l = true) (splitlines s).
Proof. apply (splitlines_aux_no_break (length s)); [lia | reflexivity]. Qed.

Lemma update_at_Forall (P : str -> Prop) i f lines :
  (forall l, P l -> P (f l)) -> Forall P lines -> Forall P (update_at i f lines).
Proof.
  intros Hf H. revert i. induction H as [|l rest Hl Hrest IH]; intros [|i];
    cbn [update_at]; try constructor; auto.
Qed.

Lemma replace_dot_no_break l :
  forallb (fun c => negb (is_linebreak c)) l = true ->
  forallb (fun c => negb (is_linebreak c)) (replace_chr "." "," l) = true.
Proof.
  unfold replace_chr. induction l as [|c t IH]; [reflexivity|].
  cbn [forallb map]. intros H. apply andb_true_iff in H as [Hc Ht].
  rewrite (IH Ht), andb_true_r. now destruct (chr_eqb c ".").
Qed.

(** A character of a joined text comes from the separator or from a part. *)
Lemma in_join c sep parts :
  In c (join sep parts) -> In c sep \/ exists p, In p parts /\ In c p.
Proof.
  induction parts as [|p rest IH]; cbn [join]; [intros []|].
  destruct rest as [|p' rest'].
  - intros H. right. exists p. split; [now left | assumption].
  - intros H. apply in_app_or in H as [H | H].
    + right. exists p. split; [now left | assumption].
    + apply in_app_or in H as [H | H]; [now left|].
      destruct (IH H) as [Hs | (q & Hq & Hc)]; [now left|].
      right. exists q. split; [now right | assumption].
Qed.

(** X12.  Whenever the conversion returns, the only line boundary in its
    result is the bare newline: carriage returns and the other boundaries at
    which [splitlines] cuts are gone from the text. *)
Theorem nrk_vtt_to_srt_bare_newlines :
  forall (vtt srt : str) (st st' : state),
    nrk_vtt_to_srt vtt st = (Ok srt, st') ->
    forall c, In c srt -> is_linebreak c = true -> c = LF.
Proof.
  intros vtt srt st st' H c Hin Hbreak.
  destruct (Forall_dec has_two_lines) with (l := tl (spec_blocks vtt)) as [Ht | Ht].
  { intros cue. apply le_dec. }
  2:{ rewrite (nrk_vtt_to_srt_fail vtt st Ht) in H. discriminate H. }
  rewrite (nrk_vtt_to_srt_ok vtt st Ht) in H.
  assert (Hsrt : srt = spec_convert vtt) by congruence. subst srt. clear H.
  unfold spec_convert in Hin.
  apply in_join in Hin as [Hin | (block & Hblock & Hin)].
  - destruct Hin as [<- | [<- | []]]; reflexivity.
  - apply in_map_iff in Hblock as (cue & <- & _). unfold spec_convert_block in Hin.
    apply in_join in Hin as [Hin | (l & Hl & Hin)].
    + destruct Hin as [<- | []]. reflexivity.
    + exfalso.
      pose proof (update_at_Forall
                    (fun l => forallb (fun c => negb (is_linebreak c)) l = true)
                    1 (replace_chr "." ",") (splitlines cue)
                    replace_dot_no_break (splitlines_no_break cue)) as Hall.
      rewrite Forall_forall in Hall. specialize (Hall l Hl).
      rewrite forallb_forall in Hall. specialize (Hall c Hin).
      now rewrite Hbreak in Hall.
Qed.

(** *** Carriage returns *)

Lemma rev_rcrlf cur : rev (rcrlf cur) = crlf (rev cur).
Proof.
  unfold rcrlf, crlf. induction cur as [|c cur IH]; [reflexivity|].
  cbn [flat_map rev]. rewrite rev_app_distr, IH, flat_map_app. cbn [flat_map].
  rewrite app_nil_r. now destruct (chr_eqb c LF).
Qed.

Lemma delimiter_at_other c t :
  chr_eqb c LF = false -> chr_eqb c CR = false -> delimiter_at (c :: t) = None.
Proof.
  intros H1 H2. unfold delimiter_at, blank_line_delimiters.
  cbn [find startswith]. now rewrite H1, H2.
Qed.

Lemma delimiter_at_LF_other d t :
  chr_eqb d LF = false -> chr_eqb d CR = false -> delimiter_at (LF :: d :: t) = None.
Proof.
  intros H1 H2. unfold delimiter_at, blank_line_delimiters.
  cbn [find startswith]. rewrite H1, H2. reflexivity.
Qed.

Lemma delimiter_at_CRLF_other d t :
  chr_eqb d LF = false -> chr_eqb d CR = false ->
  delimiter_at (CR :: LF :: d :: t) = None.
Proof.
  intros H1 H2. unfold delimiter_at, blank_line_delimiters.
  cbn [find startswith]. rewrite H1, H2. reflexivity.
Qed.

Lemma LF_is_not_CR c : chr_eqb c LF = true -> chr_eqb c CR = false.
Proof. unfold chr_eqb. intros H. apply Ascii.eqb_eq in H. now subst c. Qed.

(** The head of a text without carriage returns, after [crlf]. *)
Lemma crlf_cons c t :
  crlf (c :: t) = (if chr_eqb c LF then [CR; LF] else [c]) ++ crlf t.
Proof. reflexivity. Qed.

Lemma splitlines_aux_crlf s : forall cur,
  no_CR s = true -> splitlines_aux cur (crlf s) = splitlines_aux cur s.
Proof.
  induction s as [|c t IH]; intros cur H; [reflexivity|].
  cbn [no_CR forallb] in H. apply andb_true_iff in H as [Hc Ht].
  apply negb_true_iff in Hc. rewrite crlf_cons.
  destruct (chr_eqb c LF) eqn:Hlf.
  - unfold chr_eqb in Hlf. apply Ascii.eqb_eq in Hlf. subst c.
    cbn [app]. cbn [splitlines_aux].
    change (is_linebreak CR) with true. change (is_linebreak LF) with true.
    change (chr_eqb CR CR) with true. change (chr_eqb LF LF) with true.
    change (chr_eqb LF CR) with false. cbn iota.
    now rewrite IH.
  - cbn [app splitlines_aux]. rewrite Hc.
    destruct (is_linebreak c); now rewrite IH.
Qed.

Lemma splitlines_crlf s : no_CR s = true -> splitlines (crlf s) = splitlines s.
Proof. apply splitlines_aux_crlf. Qed.

(** Splitting at blank lines commutes with [crlf]: at a position that is
    not being skipped, and at the second newline of a delimiter. *)
Lemma spec_split_crlf s :
  no_CR s = true ->
  (forall cur, spec_split (crlf s) 0 (rcrlf cur) = map crlf (spec_split s 0 cur)) /\
  (forall cur t, s = LF :: t ->
     spec_split (crlf s) 2 (rcrlf cur) = map crlf (spec_split s 1 cur)).
Proof.
  induction s as [|c t IH]; intros H.
  - split; [|discriminate]. intros cur. cbn [crlf flat_map spec_split map].
    now rewrite rev_rcrlf.
  - cbn [no_CR forallb] in H. apply andb_true_iff in H as [Hc Ht].
    apply negb_true_iff in Hc. destruct (IH Ht) as [IH0 IH1]. split.
    + intros cur. rewrite crlf_cons. destruct (chr_eqb c LF) eqn:Hlf.
      * unfold chr_eqb in Hlf. apply Ascii.eqb_eq in Hlf. subst c. cbn [app].
        destruct t as [|d t'].
        -- exact (IH0 (LF :: cur)).
        -- cbn [no_CR forallb] in Ht. apply andb_true_iff in Ht as [Hd Ht'].
           apply negb_true_iff in Hd. rewrite crlf_cons.
           destruct (chr_eqb d LF) eqn:Hdlf.
           ++ unfold chr_eqb in Hdlf. apply Ascii.eqb_eq in Hdlf. subst d.
              cbn [app].
              change (spec_split (CR :: LF :: CR :: LF :: crlf t') 0 (rcrlf cur))
                with (rev (rcrlf cur) :: spec_split (crlf (LF :: t')) 2 []).
              change (spec_split (LF :: LF :: t') 0 cur)
                with (rev cur :: spec_split (LF :: t') 1 []).
              cbn [map]. rewrite rev_rcrlf.
              apply (f_equal (cons (crlf (rev cur)))).
              exact (IH1 [] t' eq_refl).
           ++ cbn [app].
              cbn [spec_split].
              rewrite (delimiter_at_CRLF_other d (crlf t') Hdlf Hd).
              rewrite (delimiter_at_LF_other d (crlf t') Hdlf Hd).
              rewrite (delimiter_at_LF_other d t' Hdlf Hd).
              specialize (IH0 (LF :: cur)). rewrite crlf_cons, Hdlf in IH0.
              exact IH0.
      * cbn [app spec_split].
        rewrite (delimiter_at_other c (crlf t) Hlf Hc).
        rewrite (delimiter_at_other c t Hlf Hc).
        specialize (IH0 (c :: cur)). cbn [rcrlf flat_map] in IH0.
        rewrite Hlf in IH0. exact IH0.
    + intros cur t0 [= -> <-].
      change (spec_split (crlf (LF :: t)) 2 (rcrlf cur))
        with (spec_split (crlf t) 0 (rcrlf cur)).
      change (spec_split (LF :: t) 1 cur) with (spec_split t 0 cur).
      apply IH0.
Qed.

Lemma spec_blocks_crlf vtt :
  no_CR vtt = true -> spec_blocks (crlf vtt) = map crlf (spec_blocks vtt).
Proof. intros H. exact (proj1 (spec_split_crlf vtt H) []). Qed.

(** The blocks hold characters of the text only. *)
Lemma spec_split_chars (P : ascii -> bool) s : forall skip cur,
  forallb P s = true -> forallb P cur = true ->
  Forall (fun b => forallb P b = true) (spec_split s skip cur).
Proof.
  induction s as [|c t IH]; intros skip cur Hs Hcur; cbn [spec_split].
  - constructor; [|constructor]. now rewrite forallb_rev.
  - cbn [forallb] in Hs. apply andb_true_iff in Hs as [Hc Ht].
    destruct skip; [|now apply IH].
    assert (Hacc : forallb P (c :: cur) = true) by (cbn [forallb]; now rewrite Hc).
    destruct (delimiter_at (c :: t)) as [[|k]|]; try now apply IH.
    constructor; [now rewrite forallb_rev | now apply IH].
Qed.

Lemma convert_cues_crlf cues : forall acc st,
  Forall (fun b => no_CR b = true) cues ->
  convert_cues (map crlf cues) acc st = convert_cues cues acc st.
Proof.
  induction cues as [|cue cues IH]; intros acc st H; [reflexivity|].
  inversion H as [|? ? Hcue Hrest]; subst. cbn [map convert_cues].
  rewrite (splitlines_crlf cue Hcue). unfold bind.
  destruct (convert_cue_lines (splitlines cue) st) as [[cue_lines | e] st'];
    [|reflexivity].
  now apply IH.
Qed.

(** X13.  Carriage returns before the newlines make no difference: a text
    without carriage returns and the same text with one put before every
    newline are converted to the same result, or fail alike. *)
Theorem nrk_vtt_to_srt_crlf :
  forall (vtt : str) (st : state),
    no_CR vtt = true ->
    nrk_vtt_to_srt (crlf vtt) st = nrk_vtt_to_srt vtt st.
Proof.
  intros vtt st H. unfold nrk_vtt_to_srt.
  rewrite !re_split_blank_line, (spec_blocks_crlf vtt H).
  assert (Hblocks : Forall (fun b => no_CR b = true) (tl (spec_blocks vtt))).
  { pose proof (spec_split_chars (fun c => negb (chr_eqb c CR)) vtt 0 [] H eq_refl) as Hb.
    fold (spec_blocks vtt) in Hb. destruct (spec_blocks vtt); [constructor|].
    now inversion Hb. }
  replace (tl (map crlf (spec_blocks vtt))) with (map crlf (tl (spec_blocks vtt)))
    by (now destruct (spec_blocks vtt)).
  unfold bind. now rewrite (convert_cues_crlf _ [] st Hblocks).
Qed.

Lemma nrk_vtt_to_srt_crlf_witness :
  nrk_vtt_to_srt (crlf example_vtt) st0 = (Ok example_srt, st0).
Proof.
  refine (eq_trans (nrk_vtt_to_srt_crlf example_vtt st0 _) _);
    vm_compute; reflexivity.
Defined.

Lemma nrk_vtt_to_srt_bare_newlines_witness :
  no_CR example_srt = true.
Proof.
  apply forallb_forall. intros c Hin.
  destruct (chr_eqb c CR) eqn:Hc; [|reflexivity]. exfalso.
  apply Ascii.eqb_eq in Hc. subst c.
  assert (H : CR = LF).
  { apply (nrk_vtt_to_srt_bare_newlines (crlf example_vtt) example_srt st0 st0).
    - vm_compute. reflexivity.
    - exact Hin.
    - reflexivity. }
  discriminate H.
Defined.

(** ** [download] *)

(** X14.  [download] takes the metadata response for granted: a transport
    failure leaves [None], on which [json] raises an [AttributeError]; a body
    that is no JSON raises a [ValueError]; a number or a boolean that is true
    raises a [TypeError] at the test for [mediaUrl].  The status of the
    response is never looked at, and one request is made in each case. *)
Theorem download_without_metadata :
  forall (E : External) (program_id : value) (st : state),
    (forall e,
        requests_get (format TVAPI_BASE_URL [py_str program_id]) TVAPI_HEADERS =
        inr (RequestException e) ->
        download program_id st =
        (Raise (AttributeError "json"),
         printed (format "Error: {}" [e])
                 (logged (format TVAPI_BASE_URL [py_str program_id]) st))) /\
    (forall r,
        requests_get (format TVAPI_BASE_URL [py_str program_id]) TVAPI_HEADERS = inl r ->
        json_loads (text r) = None ->
        download program_id st =
        (Raise ValueError, logged (format TVAPI_BASE_URL [py_str program_id]) st)) /\
    (forall r data,
        requests_get (format TVAPI_BASE_URL [py_str program_id]) TVAPI_HEADERS = inl r ->
        json_loads (text r) = Some data ->
        truthy data = true ->
        (exists b, data = VBool b) \/ (exists z, data = VInt z) \/
        (exists m e, data = VFloat m e) ->
        download program_id st =
        (Raise TypeError, logged (format TVAPI_BASE_URL [py_str program_id]) st)).
Proof.
  intros E program_id st. split; [|split].
  - intros e H. exact (download_no_response program_id e st H).
  - intros r H Hj. unfold download.
    rewrite (bind_ok _ _ _ _ _ (get_req_response _ _ _ _ H)). cbn [req_json].
    now rewrite Hj.
  - intros r data H Hj Ht Hd. unfold download.
    rewrite (bind_ok _ _ _ _ _ (get_req_response _ _ _ _ H)). cbn [req_json].
    rewrite Hj. unfold bind at 1. cbn [ret]. rewrite Ht. cbn [negb].
    destruct Hd as [[b ->] | [[z ->] | (m & e & ->)]]; reflexivity.
Qed.

Lemma download_without_metadata_witness :
  download (E := offline) (VStr "KOID75000320") st0 =
  (Raise (AttributeError "json"),
   printed (format "Error: {}" [lit "connection refused"])
           (logged (format TVAPI_BASE_URL [lit "KOID75000320"]) st0)).
Proof.
  apply (proj1 (download_without_metadata offline (VStr "KOID75000320") st0)).
  reflexivity.
Defined.

(** ** The strategies of the resolver *)

Section Strategies.
Context {E : External}.

Lemma get_program_id_from_html_fetched url r st :
  requests_get url VNone = inl r -> ok r = true ->
  get_program_id_from_html url st =
  (match id_element_of (BeautifulSoup (text r)) with
   | None => Ok VNone
   | Some el => Ok (py_or (tag_get el "data-ga-from-id") (tag_get el "data-video-id"))
   end, logged url st).
Proof.
  intros H Hok. unfold get_program_id_from_html.
  rewrite (bind_ok _ _ _ _ _ (get_req_response _ _ _ _ H)).
  cbn [not_req]. rewrite Hok. cbn [negb req_text]. unfold bind, ret.
  unfold id_element_of, or_else.
  destruct (soup_find _ is_section_program_info); [reflexivity|].
  now destruct (soup_find _ (is_tag "figure")).
Qed.
End Strategies.

(** X15.  On a page that was fetched with a good status the scrape reads
    the program-info section when the page has one, whatever figures it has,
    and its first figure otherwise.  A [data-ga-from-id] that is not empty is
    the identifier; when it is missing or empty the value of [data-video-id]
    is returned as it is, which may be the empty string or [None]. *)
Theorem get_program_id_from_html_precedence :
  forall (E : External) (url : str) (r : response) (el : node) (st : state),
    requests_get url VNone = inl r ->
    ok r = true ->
    soup_find (BeautifulSoup (text r)) is_section_program_info = Some el \/
    (soup_find (BeautifulSoup (text r)) is_section_program_info = None /\
     soup_find (BeautifulSoup (text r)) (is_tag "figure") = Some el) ->
    (forall v, tag_get el "data-ga-from-id" = VStr v -> v <> [] ->
               get_program_id_from_html url st = (Ok (VStr v), logged url st)) /\
    (tag_get el "data-ga-from-id" = VNone \/ tag_get el "data-ga-from-id" = VStr [] ->
     get_program_id_from_html url st = (Ok (tag_get el "data-video-id"), logged url st)).
Proof.
  intros E url r el st H Hok Hel.
  rewrite (get_program_id_from_html_fetched url r st H Hok).
  assert (Hid : id_element_of (BeautifulSoup (text r)) = Some el).
  { unfold id_element_of. destruct Hel as [-> | [-> ->]]; reflexivity. }
  rewrite Hid. split.
  - intros v Hv Hne. rewrite Hv. unfold py_or. cbn [truthy].
    destruct v; [now elim Hne | reflexivity].
  - intros [-> | ->]; reflexivity.
Qed.

Lemma get_program_id_from_html_precedence_witness :
  get_program_id_from_html (E := page_world) "https://tv.nrk.no/program/x" st0 =
  (Ok (VStr "KOID75000320"), logged "https://tv.nrk.no/program/x" st0).
Proof.
  refine (proj2 (get_program_id_from_html_precedence page_world
                   "https://tv.nrk.no/program/x" (MkResponse true "<html>...</html>")
                   (Tag "section" [(lit "id", lit "program-info");
                                   (lit "data-ga-from-id", lit "");
                                   (lit "data-video-id", lit "KOID75000320")] [])
                   st0 eq_refl eq_refl _) _).
  - left. vm_compute. reflexivity.
  - right. vm_compute. reflexivity.
Defined.

(** X16.  The scrape yields [None], and raises nothing, when the fetch fails
    with a transport error other than a missing scheme, when the response
    has an error status, when the page has neither the program-info section
    nor a figure, and when the element read has neither attribute. *)
Theorem get_program_id_from_html_none :
  forall (E : External) (url : str) (st : state),
    (exists e, requests_get url VNone = inr (RequestException e)) \/
    (exists r, requests_get url VNone = inl r /\
               (ok r = false \/
                id_element_of (BeautifulSoup (text r)) = None \/
                exists el, id_element_of (BeautifulSoup (text r)) = Some el /\
                           tag_get el "data-ga-from-id" = VNone /\
                           tag_get el "data-video-id" = VNone)) ->
    fst (get_program_id_from_html url st) = Ok VNone /\
    requested (snd (get_program_id_from_html url st)) = requested st ++ [url] /\
    files (snd (get_program_id_from_html url st)) = files st.
Proof.
  intros E url st H.
  split; [|split; [|apply get_program_id_from_html_files]].
  - destruct H as [[e H] | (r & H & Hr)].
    + now rewrite (get_program_id_from_html_no_response url st _ None
                     (get_req_failure _ _ _ _ H) eq_refl).
    + destruct (ok r) eqn:Hok.
      * rewrite (get_program_id_from_html_fetched url r st H Hok).
        destruct Hr as [Hr | [-> | (el & -> & -> & ->)]];
          [discriminate Hr | reflexivity | reflexivity].
      * rewrite (get_program_id_from_html_no_response url st _ (Some r)
                   (get_req_response _ _ _ _ H)); [reflexivity|].
        cbn [not_req]. now rewrite Hok.
  - destruct H as [[e H] | (r & H & Hr)].
    + now rewrite (get_program_id_from_html_no_response url st _ None
                     (get_req_failure _ _ _ _ H) eq_refl).
    + destruct (ok r) eqn:Hok.
      * now rewrite (get_program_id_from_html_fetched url r st H Hok).
      * rewrite (get_program_id_from_html_no_response url st _ (Some r)
                   (get_req_response _ _ _ _ H)); [reflexivity|].
        cbn [not_req]. now rewrite Hok.
Qed.

Lemma get_program_id_from_html_none_witness :
  fst (get_program_id_from_html (E := offline) "https://tv.nrk.no/program/x" st0) = Ok VNone /\
  requested (snd (get_program_id_from_html (E := offline) "https://tv.nrk.no/program/x" st0)) =
  requested st0 ++ [lit "https://tv.nrk.no/program/x"] /\
  files (snd (get_program_id_from_html (E := offline) "https://tv.nrk.no/program/x" st0)) =
  files st0.
Proof.
  apply (get_program_id_from_html_none offline "https://tv.nrk.no/program/x" st0).
  left. now exists (lit "connection refused").
Defined.

(** ** References that are a media identifier *)

Lemma digit_not_upper c : digit c = true -> upper c = false.
Proof.
  unfold digit, upper, in_range. intros H. apply andb_true_iff in H as [_ H].
  apply Nat.leb_le in H. apply andb_false_iff. left. apply Nat.leb_gt.
  change (nat_of_ascii "9") with 57 in H. change (nat_of_ascii "A") with 65. lia.
Qed.

Lemma digit_not_P c : digit c = true -> chr_eqb c "P" = false.
Proof.
  intros H. destruct (chr_eqb c "P") eqn:E; [|reflexivity].
  apply Ascii.eqb_eq in E. subst c. discriminate H.
Qed.

Lemma digit_not_amp c : digit c = true -> chr_eqb c "&" = false.
Proof.
  intros H. destruct (chr_eqb c "&") eqn:E; [|reflexivity].
  apply Ascii.eqb_eq in E. subst c. discriminate H.
Qed.

Lemma direct_at_digit c t : digit c = true -> direct_at (c :: t) = None.
Proof.
  intros H. unfold direct_at.
  replace (forallb upper (firstn 4 (c :: t))) with false
    by (cbn [firstn forallb]; now rewrite (digit_not_upper c H)).
  now rewrite andb_false_r.
Qed.

Lemma star_at_digit c t : digit c = true -> star_at (c :: t) = None.
Proof.
  intros H. unfold star_at.
  change (startswith (c :: t) "PS*") with (chr_eqb c "P" && startswith t "S*").
  now rewrite (digit_not_P c H).
Qed.

(** A string of digits holds no delimited token. *)
Lemma scan_digits tok_at :
  tok_at [] = None ->
  (forall c t, digit c = true -> tok_at (c :: t) = None) ->
  forall s b, forallb digit s = true -> scan tok_at b s = None.
Proof.
  intros Hnil Hdig. induction s as [|c t IH]; intros b Hs.
  - cbn [scan]. rewrite Hnil. now destruct b.
  - cbn [forallb] in Hs. apply andb_true_iff in Hs as [Hc Ht].
    cbn [scan]. rewrite (Hdig c t Hc). destruct b; now apply IH.
Qed.

Lemma take_while_whole p (s : str) :
  forallb p s = true -> take_while p s = s /\ drop_while p s = [].
Proof.
  intros H. destruct (take_while_app p s [] H I) as [H1 H2].
  now rewrite app_nil_r in H1, H2.
Qed.

(** On a string of digits the media pattern matches at once, and its second
    group is the whole string. *)
Lemma re_search_media_digits s :
  s <> [] -> forallb digit s = true ->
  exists m, re_search media_re s = Some m /\ group m 2 = Some s.
Proof.
  intros Hne Hs. unfold re_search.
  assert (Hm : match_at media_re 0 s =
               Some (MkMatch 0 (length s) [(3, []); (2, s); (1, [])])).
  { unfold match_at, media_re. rewrite rmatch_Seq, rmatch_Grp.
    cbn [rmatch Nat.eqb]. rewrite plus_loop_spec.
    - destruct (take_while_whole digit s Hs) as [-> ->].
      destruct s as [|c t]; [now elim Hne|].
      rewrite Nat.add_0_r, Nat.sub_0_r, firstn_all, Nat.sub_diag. reflexivity.
    - intros i c t g Hc. rewrite (digit_not_LF c Hc), (digit_not_amp c Hc).
      now destruct t. }
  exists (MkMatch 0 (length s) [(3, []); (2, s); (1, [])]). split; [|reflexivity].
  destruct s; cbn [search_from]; now rewrite Hm.
Qed.

Lemma re_search_no_token_digits r tok_at s :
  (forall i rest, group2 (match_at r i rest) = option_map Some (here tok_at i rest)) ->
  tok_at [] = None ->
  (forall c t, digit c = true -> tok_at (c :: t) = None) ->
  forallb digit s = true -> re_search r s = None.
Proof.
  intros Hm Hnil Hdig Hs. pose proof (search_scan r tok_at Hm s 0) as H.
  cbn [Nat.eqb] in H. rewrite (scan_digits tok_at Hnil Hdig s true Hs) in H.
  unfold re_search. now destruct (search_from r 0 s).
Qed.

Section Requests.
Context {E : External}.

Lemma get_req_requested url headers st :
  requested (snd (get_req url headers st)) = requested st ++ [url].
Proof.
  rewrite get_req_unfold. unfold bind, log_request.
  destruct (requests_get url headers) as [r | [msg | e]];
    try rewrite load_global_session; reflexivity.
Qed.


Lemma get_program_id_from_media_id_requested media_id st :
  requested (snd (get_program_id_from_media_id media_id st)) =
  requested st ++ [format MIMIR_BASE_URL [py_str media_id]].
Proof.
  unfold get_program_id_from_media_id, bind.
  pose proof (get_req_requested (format MIMIR_BASE_URL [py_str media_id]) VNone st) as H.
  destruct (get_req _ VNone st) as [[req | e] st']; cbn [snd] in H;
    [|exact H].
  destruct (not_req req); [exact H|].
  destruct req as [r|]; cbn [req_text]; unfold ret, raise; [|exact H].
  destruct (soup_find _ _); [|exact H].
  destruct (json_loads _) as [[| | | | | |d]|]; try exact H.
  now destruct (dict_get d _ _).
Qed.
End Requests.

(** X17.  A reference that is nothing but digits is taken for a media
    identifier: the resolver asks the lookup endpoint about it, with the
    digits at the end of the lookup URL, and requests nothing else.  What it
    returns is what the lookup strategy returns. *)
Theorem get_program_id_digits :
  forall (E : External) (s : str) (st : state),
    s <> [] ->
    forallb digit s = true ->
    get_program_id s st = get_program_id_from_media_id (VStr s) st /\
    requested (snd (get_program_id s st)) =
    requested st ++ [lit "https://mimir.nrk.no/plugin/1.0/static?mediaId=" ++ s].
Proof.
  intros E s st Hne Hs.
  assert (Hid : get_program_id s = get_program_id_from_media_id (VStr s)).
  { unfold get_program_id.
    rewrite (re_search_no_token_digits direct_re direct_at s match_at_direct
               eq_refl direct_at_digit Hs).
    rewrite (re_search_no_token_digits star_re star_at s match_at_star
               eq_refl star_at_digit Hs).
    destruct (re_search_media_digits s Hne Hs) as (m & -> & Hg).
    cbn [or_else]. unfold group_value. now rewrite Hg. }
  rewrite Hid. split; [reflexivity|].
  rewrite get_program_id_from_media_id_requested. cbn [py_str].
  change (format MIMIR_BASE_URL [s])
    with (lit "https://mimir.nrk.no/plugin/1.0/static?mediaId=" ++ s ++ []).
  now rewrite app_nil_r.
Qed.

Lemma get_program_id_digits_witness :
  get_program_id (E := lookup_world) "12345" st0 =
  get_program_id_from_media_id (E := lookup_world) (VStr "12345") st0 /\
  requested (snd (get_program_id (E := lookup_world) "12345" st0)) =
  requested st0 ++ [lit "https://mimir.nrk.no/plugin/1.0/static?mediaId=" ++ lit "12345"].
Proof.
  apply (get_program_id_digits lookup_world "12345" st0).
  - discriminate.
  - vm_compute. reflexivity.
Defined.

(** ** [get_program_id_from_media_id] *)

Section Lookup.
Context {E : External}.

Lemma get_program_id_from_media_id_fetched media_id r script st :
  requests_get (format MIMIR_BASE_URL [py_str media_id]) VNone = inl r ->
  ok r = true ->
  soup_find (BeautifulSoup (text r)) (is_tag "script") = Some script ->
  get_program_id_from_media_id media_id st =
  (match json_loads (get_text script) with
   | None => Raise ValueError
   | Some (VDict json_info) =>
       match dict_get json_info "activeMedia" (VDict []) with
       | VDict active => Ok (dict_get active "psId" VNone)
       | _ => Raise (AttributeError "get")
       end
   | Some _ => Raise (AttributeError "get")
   end, logged (format MIMIR_BASE_URL [py_str media_id]) st).
Proof.
  intros H Hok Hs. unfold get_program_id_from_media_id.
  rewrite (bind_ok _ _ _ _ _ (get_req_response _ _ _ _ H)).
  cbn [not_req]. rewrite Hok. cbn [negb req_text]. unfold bind, ret. rewrite Hs.
  destruct (json_loads (get_text script)) as [[| | | | | |d]|]; try reflexivity.
  now destruct (dict_get d _ _).
Qed.
End Lookup.

(** X18.  When the lookup page is fetched with a good status and the text of
    its first script element is a JSON object, the lookup returns the value
    of [psId] inside [activeMedia] as it is, whatever kind of value that is;
    it returns [None] when [activeMedia] is an object without [psId] and
    when the JSON has no [activeMedia] at all. *)
Theorem get_program_id_from_media_id_reads_psId :
  forall (E : External) (media_id : value) (r : response) (script : node)
         (json_info : list (str * value)) (st : state),
    requests_get (format MIMIR_BASE_URL [py_str media_id]) VNone = inl r ->
    ok r = true ->
    soup_find (BeautifulSoup (text r)) (is_tag "script") = Some script ->
    json_loads (get_text script) = Some (VDict json_info) ->
    (forall active v,
        assoc (lit "activeMedia") json_info = Some (VDict active) ->
        assoc (lit "psId") active = Some v ->
        get_program_id_from_media_id media_id st =
        (Ok v, logged (format MIMIR_BASE_URL [py_str media_id]) st)) /\
    (forall active,
        assoc (lit "activeMedia") json_info = Some (VDict active) ->
        assoc (lit "psId") active = None ->
        get_program_id_from_media_id media_id st =
        (Ok VNone, logged (format MIMIR_BASE_URL [py_str media_id]) st)) /\
    (assoc (lit "activeMedia") json_info = None ->
     get_program_id_from_media_id media_id st =
     (Ok VNone, logged (format MIMIR_BASE_URL [py_str media_id]) st)).
Proof.
  intros E media_id r script json_info st H Hok Hs Hj.
  rewrite (get_program_id_from_media_id_fetched media_id r script st H Hok Hs), Hj.
  unfold dict_get. split; [|split].
  - intros active v -> ->. reflexivity.
  - intros active -> ->. reflexivity.
  - intros ->. reflexivity.
Qed.

Lemma get_program_id_from_media_id_reads_psId_witness :
  get_program_id_from_media_id (E := lookup_world) (VStr "12345") st0 =
  (Ok (VStr "XYZA98765432"),
   logged "https://mimir.nrk.no/plugin/1.0/static?mediaId=12345" st0).
Proof.
  refine (proj1 (get_program_id_from_media_id_reads_psId lookup_world (VStr "12345")
                   (MkResponse true "<script>{}</script>")
                   (Tag "script" [] [Text "{}"])
                   [(lit "activeMedia", VDict [(lit "psId", VStr "XYZA98765432")])]
                   st0 eq_refl eq_refl _ _)
                [(lit "psId", VStr "XYZA98765432")] (VStr "XYZA98765432") eq_refl eq_refl).
  - vm_compute. reflexivity.
  - vm_compute. reflexivity.
Defined.

(** X19.  The lookup yields [None], and raises nothing, when the fetch fails
    with a transport error other than a missing scheme and when the response
    has an error status: the page is not parsed.  One request is made, to
    the lookup URL of the media identifier, and no file is touched. *)
Theorem get_program_id_from_media_id_none :
  forall (E : External) (media_id : value) (st : state),
    (exists e, requests_get (format MIMIR_BASE_URL [py_str media_id]) VNone =
               inr (RequestException e)) \/
    (exists r, requests_get (format MIMIR_BASE_URL [py_str media_id]) VNone = inl r /\
               ok r = false) ->
    fst (get_program_id_from_media_id media_id st) = Ok VNone /\
    requested (snd (get_program_id_from_media_id media_id st)) =
    requested st ++ [format MIMIR_BASE_URL [py_str media_id]] /\
    files (snd (get_program_id_from_media_id media_id st)) = files st.
Proof.
  intros E media_id st H.
  split; [|split; [apply get_program_id_from_media_id_requested
                  |apply get_program_id_from_media_id_files]].
  destruct H as [[e H] | (r & H & Hok)].
  - now rewrite (get_program_id_from_media_id_no_response media_id st _ None
                   (get_req_failure _ _ _ _ H) eq_refl).
  - rewrite (get_program_id_from_media_id_no_response media_id st _ (Some r)
               (get_req_response _ _ _ _ H)); [reflexivity|].
    cbn [not_req]. now rewrite Hok.
Qed.

Lemma get_program_id_from_media_id_none_witness :
  fst (get_program_id_from_media_id (E := offline) (VStr "12345") st0) = Ok VNone /\
  requested (snd (get_program_id_from_media_id (E := offline) (VStr "12345") st0)) =
  requested st0 ++ [format MIMIR_BASE_URL [lit "12345"]] /\
  files (snd (get_program_id_from_media_id (E := offline) (VStr "12345") st0)) = files st0.
Proof.
  apply (get_program_id_from_media_id_none offline (VStr "12345") st0).
  left. now exists (lit "connection refused").
Defined.

(** X20.  The lookup takes the shape of the JSON for granted.  With the page
    fetched and a script element found, a script text that is no JSON raises
    a [ValueError]; JSON that is not an object raises an [AttributeError];
    and so does an object whose [activeMedia] is there but is not an object,
    [null] included, since the default of the first [get] only stands in for
    a missing key. *)
Theorem get_program_id_from_media_id_malformed :
  forall (E : External) (media_id : value) (r : response) (script : node) (st : state),
    requests_get (format MIMIR_BASE_URL [py_str media_id]) VNone = inl r ->
    ok r = true ->
    soup_find (BeautifulSoup (text r)) (is_tag "script") = Some script ->
    (json_loads (get_text script) = None ->
     get_program_id_from_media_id media_id st =
     (Raise ValueError, logged (format MIMIR_BASE_URL [py_str media_id]) st)) /\
    (forall v,
        json_loads (get_text script) = Some v ->
        (forall d, v <> VDict d) ->
        get_program_id_from_media_id media_id st =
        (Raise (AttributeError "get"),
         logged (format MIMIR_BASE_URL [py_str media_id]) st)) /\
    (forall json_info v,
        json_loads (get_text script) = Some (VDict json_info) ->
        assoc (lit "activeMedia") json_info = Some v ->
        (forall d, v <> VDict d) ->
        get_program_id_from_media_id media_id st =
        (Raise (AttributeError "get"),
         logged (format MIMIR_BASE_URL [py_str media_id]) st)).
Proof.
  intros E media_id r script st H Hok Hs.
  rewrite (get_program_id_from_media_id_fetched media_id r script st H Hok Hs).
  split; [|split].
  - intros ->. reflexivity.
  - intros v -> Hv. destruct v; try reflexivity. now elim (Hv d).
  - intros json_info v -> Ha Hv. unfold dict_get. rewrite Ha.
    destruct v; try reflexivity. now elim (Hv d).
Qed.

Lemma get_program_id_from_media_id_malformed_witness :
  get_program_id_from_media_id (E := null_media) (VStr "12345") st0 =
  (Raise (AttributeError "get"), logged (format MIMIR_BASE_URL [lit "12345"]) st0).
Proof.
  refine (proj2 (proj2 (get_program_id_from_media_id_malformed null_media (VStr "12345")
                   (MkResponse true "<script>{}</script>")
                   (Tag "script" [] [Text "{}"]) st0 eq_refl eq_refl _))
                [(lit "activeMedia", VNone)] VNone eq_refl eq_refl _).
  - vm_compute. reflexivity.
  - intros d. discriminate.
Defined.

(** ** [get_program_id]: requests *)


(** ** [save_stream] and [download]: the order of things *)

Section Order.
Context {E : External}.

Lemma save_stream_named d title st :
  chosen_title d = VStr title ->
  isfile (sanitized title ++ lit ".ts") st = false ->
  save_stream (VDict d) st =
  ((if truthy (dict_get d "hasSubtitles" VNone) then
      media_url <- dict_item d "mediaUrl" ;;
      save_subtitles media_url (sanitized title ++ lit ".srt")
    else ret tt) ;;
   print (lit "Saving " ++ sanitized title ++ lit ".ts" ++ NL) ;;
   media_url <- dict_item d "mediaUrl" ;;
   hls_dump media_url (sanitized title ++ lit ".ts"))
    (printed (lit "Found " ++ title) st).
Proof.
  intros Ht Hfree. rewrite save_stream_unfold, Ht. cbn [py_str].
  change (format "Found {}" [title]) with (lit "Found " ++ title ++ []).
  rewrite app_nil_r.
  assert (Hfile : isfile (format "{}.ts" [sanitized title])
                         (printed (lit "Found " ++ title) st) =
                  isfile (sanitized title ++ lit ".ts") st).
  { unfold isfile. cbn [files printed]. f_equal. }
  rewrite Hfree in Hfile.
  rewrite (bind_ok _ _ _ _ _ (create_filename_base_free title _ Hfile)).
  reflexivity.
Qed.
End Order.

(** X22.  For a programme with subtitles, [save_stream] saves the
    subtitles first, under the base name followed by [.srt], and only then
    announces and starts the download of the video.  An exception from the
    subtitles ends [save_stream] there: the video is not downloaded. *)
Theorem save_stream_subtitles_first :
  forall (E : External) (d : list (str * value)) (title : str) (url : value)
         (st : state),
    chosen_title d = VStr title ->
    isfile (sanitized title ++ lit ".ts") st = false ->
    truthy (dict_get d "hasSubtitles" VNone) = true ->
    assoc (lit "mediaUrl") d = Some url ->
    (forall e st',
        save_subtitles url (sanitized title ++ lit ".srt")
                       (printed (lit "Found " ++ title) st) = (Raise e, st') ->
        save_stream (VDict d) st = (Raise e, st')) /\
    (forall st',
        save_subtitles url (sanitized title ++ lit ".srt")
                       (printed (lit "Found " ++ title) st) = (Ok tt, st') ->
        save_stream (VDict d) st =
        hls_dump url (sanitized title ++ lit ".ts")
                 (printed (lit "Saving " ++ sanitized title ++ lit ".ts" ++ NL) st')).
Proof.
  intros E d title url st Ht Hfree Hsub Hu.
  rewrite (save_stream_named d title st Ht Hfree), Hsub.
  unfold dict_item. rewrite Hu. split.
  - intros e st' H. unfold bind at 1. unfold bind at 1. unfold ret at 1.
    now rewrite H.
  - intros st' H. unfold bind at 1. unfold bind at 1. unfold ret at 1.
    rewrite H. reflexivity.
Qed.

Lemma save_stream_subtitles_first_witness :
  save_stream (E := no_subtitle_track) (VDict subtitled) st0 =
  (Raise (UnboundLocalError "sub_stream_line"),
   logged "https://host/master.m3u8"
          (printed "Saving a.srt" (printed "Found a" st0))).
Proof.
  refine (proj1 (save_stream_subtitles_first no_subtitle_track subtitled "a"
                   (VStr "https://host/master.m3u8") st0 eq_refl eq_refl eq_refl eq_refl)
                _ _ _).
  vm_compute. reflexivity.
Defined.



(** ** [main]: exceptions *)

(** X24.  [main] has no handler: when the handling of a reference raises,
    after the references before it were handled, [main] ends with that
    exception in the state the reference left.  The references after it are
    never looked at: any others in their place, as many, give the same
    outcome. *)
Theorem main_stops_at_exception :
  forall (E : External) (pre : list str) (program : str) (post : list str)
         (e : exn) (st st1 st2 : state),
    main_loop (length (pre ++ program :: post)) 0 pre (printed banner st) = (Ok tt, st1) ->
    main_body (length (pre ++ program :: post)) (length pre) program st1 = (Raise e, st2) ->
    forall post' : list str,
      length post' = length post ->
      main (pre ++ program :: post') st = (Raise e, st2).
Proof.
  intros E pre program post e st st1 st2 Hpre Hbody post' Hlen.
  assert (Hn : length (pre ++ program :: post') = length (pre ++ program :: post)).
  { rewrite !length_app. cbn [length]. now rewrite Hlen. }
  unfold main. unfold bind at 1. cbn [print]. fold banner. rewrite Hn.
  rewrite (main_loop_turn _ 0 pre program post' _ st1 Hpre). cbn [Nat.add].
  now rewrite (bind_raise _ _ _ _ _ Hbody).
Qed.

Lemma main_stops_at_exception_witness :
  main (E := offline) [lit "ABCD12345678"; lit "https://www.nrk.no/ingenting"] st0 =
  (Raise (AttributeError "json"),
   printed "Error: connection refused"
     (logged "https://tvapi.nrk.no/v1/programs/ABCD12345678"
        (printed "Downloading 1 of 2:" (printed banner st0)))).
Proof.
  apply (main_stops_at_exception offline [] "ABCD12345678" [lit "PS*12-ab"]
           (AttributeError "json") st0 (printed banner st0)).
  - reflexivity.
  - vm_compute. reflexivity.
  - reflexivity.
Defined.

(** ** References with a [mediaId] parameter *)

Section MediaTail.
Variable i0 : nat.

Lemma media_ends_tail j rest tok g :
  group2 (rmatch (Grp 3 (Alt Eol (Chr "&"))) j rest ((2, tok) :: g) (finish i0)) =
  if media_ends_ok rest then Some (Some tok) else None.
Proof.
  unfold media_ends_ok, finish. cbn [rmatch].
  destruct rest as [|c [|d t]]; cbn -[chr_eqb LF].
  - reflexivity.
  - destruct (chr_eqb c LF); cbn -[chr_eqb LF]; [reflexivity|].
    now destruct (chr_eqb c "&").
  - now destruct (chr_eqb c "&").
Qed.

Lemma tail_media j rest g :
  group2 (rmatch media_tail j rest g (finish i0)) = option_map Some (media_at rest).
Proof.
  unfold media_tail, media_at.
  rewrite rmatch_Seq, rmatch_Grp, rmatch_Plus, plus_loop_spec.
  - destruct (take_while digit rest) as [|c tok] eqn:Ht; [reflexivity|].
    rewrite Nat.add_sub, <- Ht, firstn_take_while, media_ends_tail.
    now destruct (media_ends_ok _).
  - intros i c t g' Hc. cbn [rmatch].
    rewrite (digit_not_LF c Hc), (digit_not_amp c Hc). now destruct t.
Qed.
End MediaTail.

(** What the media pattern does at a position. *)
Lemma match_at_media i rest :
  group2 (match_at media_re i rest) = option_map Some (media_here i rest).
Proof.
  unfold match_at, media_here, media_re. fold media_tail.
  rewrite rmatch_Seq, rmatch_Grp. fold (finish i).
  change (rmatch (Alt Bol (Str "mediaId=")) i rest [])
    with (fun k : @cont rematch =>
            match (if i =? 0 then k i rest [] else None) with
            | Some res => Some res
            | None => if startswith rest "mediaId="
                      then k (i + 8) (skipn 8 rest) [] else None
            end).
  cbv beta.
  destruct (i =? 0).
  - pose proof (tail_media i i rest [(1, firstn (i - i) rest)]) as H0.
    destruct (rmatch media_tail i rest _ (finish i)) as [m|].
    + destruct (media_at rest); [exact H0 | discriminate H0].
    + destruct (media_at rest); [discriminate H0|].
      destruct (startswith rest "mediaId="); [apply tail_media | reflexivity].
  - destruct (startswith rest "mediaId="); [apply tail_media | reflexivity].
Qed.

Lemma search_from_hit r i rest m :
  match_at r i rest = Some m -> search_from r i rest = Some m.
Proof. intros H. destruct rest; cbn [search_from]; now rewrite H. Qed.

(** The search passes over the positions that have no match. *)
Lemma search_from_skip r : forall n i rest,
  n <= length rest ->
  (forall k, k < n -> match_at r (i + k) (skipn k rest) = None) ->
  search_from r i rest = search_from r (i + n) (skipn n rest).
Proof.
  induction n as [|n IH]; intros i rest Hn Hk.
  - now rewrite Nat.add_0_r.
  - destruct rest as [|c t]; [cbn [length] in Hn; lia|].
    cbn [search_from skipn].
    pose proof (Hk 0 ltac:(lia)) as H0. rewrite Nat.add_0_r in H0.
    cbn [skipn] in H0. rewrite H0.
    rewrite (IH (S i) t).
    + now rewrite Nat.add_succ_r.
    + cbn [length] in Hn. lia.
    + intros k Hlt. specialize (Hk (S k) ltac:(lia)).
      now rewrite Nat.add_succ_r in Hk.
Qed.

Lemma marker_before_false s n k :
  marker_before s n = false -> k < n -> startswith (skipn k s) "mediaId=" = false.
Proof.
  unfold marker_before. intros H Hk.
  destruct (startswith (skipn k s) "mediaId=") eqn:Hs; [|reflexivity].
  assert (Hex : existsb (fun k => startswith (skipn k s) "mediaId=") (seq 0 n) = true).
  { apply existsb_exists. exists k. split; [apply in_seq; lia | exact Hs]. }
  congruence.
Qed.

Lemma media_at_token digits post :
  digits <> [] -> forallb digit digits = true ->
  post = [] \/ (exists q, post = "&"%char :: q) ->
  media_at (digits ++ post) = Some digits.
Proof.
  intros Hne Hd Hpost. unfold media_at.
  assert (Hrest : match post with [] => True | c :: _ => digit c = false end).
  { destruct Hpost as [-> | [q ->]]; [exact I | reflexivity]. }
  destruct (take_while_app digit digits post Hd Hrest) as [-> ->].
  destruct digits as [|c t]; [now elim Hne|].
  destruct Hpost as [-> | [q ->]]; [reflexivity | now destruct q].
Qed.

(** The media pattern finds the digits after the first marker of a
    reference that does not start with a digit. *)
Lemma re_search_media_marker pre digits post :
  (forall c t, pre = c :: t -> digit c = false) ->
  marker_before (pre ++ lit "mediaId=" ++ digits ++ post) (length pre) = false ->
  digits <> [] -> forallb digit digits = true ->
  post = [] \/ (exists q, post = "&"%char :: q) ->
  exists m, re_search media_re (pre ++ lit "mediaId=" ++ digits ++ post) = Some m /\
            group m 2 = Some digits.
Proof.
  intros Hpre Hmark Hne Hd Hpost.
  set (s := pre ++ lit "mediaId=" ++ digits ++ post) in *.
  assert (Hhere : media_here (length pre) (skipn (length pre) s) = Some digits).
  { unfold s. rewrite skipn_app, Nat.sub_diag, skipn_all. cbn [skipn app].
    unfold media_here.
    replace (if length pre =? 0 then media_at (lit "mediaId=" ++ digits ++ post) else None)
      with (@None str) by (now destruct (length pre =? 0)).
    change (startswith (lit "mediaId=" ++ digits ++ post) "mediaId=") with true.
    change (skipn 8 (lit "mediaId=" ++ digits ++ post)) with (digits ++ post).
    now apply media_at_token. }
  assert (Hskip : forall k, k < length pre ->
                            match_at media_re (0 + k) (skipn k s) = None).
  { intros k Hk. pose proof (match_at_media (0 + k) (skipn k s)) as H.
    enough (Hn : media_here (0 + k) (skipn k s) = None).
    { rewrite Hn in H. now destruct (match_at media_re (0 + k) (skipn k s)). }
    unfold media_here. rewrite (marker_before_false s (length pre) k Hmark Hk).
    cbn [Nat.add]. destruct k as [|k]; [|reflexivity].
    cbn [Nat.eqb skipn]. destruct pre as [|c t]; [cbn [length] in Hk; lia|].
    unfold s, media_at. cbn [app take_while]. now rewrite (Hpre c t eq_refl). }
  pose proof (match_at_media (length pre) (skipn (length pre) s)) as Hm.
  rewrite Hhere in Hm.
  destruct (match_at media_re (length pre) (skipn (length pre) s)) as [m|] eqn:Hat;
    [|discriminate Hm].
  exists m. split; [|now injection Hm].
  unfold re_search. rewrite (search_from_skip media_re (length pre) 0 s).
  - now apply search_from_hit.
  - unfold s. rewrite length_app. lia.
  - exact Hskip.
Qed.

(** X25.  A reference of the school pages.  When neither token pattern
    matches the reference, the reference does not start with a digit, and
    its first [mediaId=] is followed by digits up to the end or an [&], the
    resolver asks the lookup endpoint about those digits, and about nothing
    else: what it returns is what the lookup returns. *)
Theorem get_program_id_media_parameter :
  forall (E : External) (pre digits post : str) (st : state),
    re_search direct_re (pre ++ lit "mediaId=" ++ digits ++ post) = None ->
    re_search star_re (pre ++ lit "mediaId=" ++ digits ++ post) = None ->
    (forall c t, pre = c :: t -> digit c = false) ->
    marker_before (pre ++ lit "mediaId=" ++ digits ++ post) (length pre) = false ->
    digits <> [] ->
    forallb digit digits = true ->
    post = [] \/ (exists q, post = "&"%char :: q) ->
    get_program_id (pre ++ lit "mediaId=" ++ digits ++ post) st =
    get_program_id_from_media_id (VStr digits) st /\
    requested (snd (get_program_id (pre ++ lit "mediaId=" ++ digits ++ post) st)) =
    requested st ++ [lit "https://mimir.nrk.no/plugin/1.0/static?mediaId=" ++ digits].
Proof.
  intros E pre digits post st H1 H2 Hpre Hmark Hne Hd Hpost.
  assert (Hid : get_program_id (pre ++ lit "mediaId=" ++ digits ++ post) =
                get_program_id_from_media_id (VStr digits)).
  { unfold get_program_id. rewrite H1, H2.
    destruct (re_search_media_marker pre digits post Hpre Hmark Hne Hd Hpost)
      as (m & -> & Hg).
    cbn [or_else]. unfold group_value. now rewrite Hg. }
  rewrite Hid. split; [reflexivity|].
  rewrite get_program_id_from_media_id_requested. cbn [py_str].
  change (format MIMIR_BASE_URL [digits])
    with (lit "https://mimir.nrk.no/plugin/1.0/static?mediaId=" ++ digits ++ []).
  now rewrite app_nil_r.
Qed.

Lemma get_program_id_media_parameter_witness :
  get_program_id (E := school_world)
    (lit "https://www.nrk.no/skole/?page=search&mediaId=" ++ lit "12345" ++ lit "&q=x") st0 =
  (Ok (VStr "XYZA98765432"),
   logged "https://mimir.nrk.no/plugin/1.0/static?mediaId=12345" st0).
Proof.
  refine (eq_trans (proj1 (get_program_id_media_parameter school_world
            "https://www.nrk.no/skole/?page=search&" "12345" "&q=x" st0
            _ _ _ _ _ _ _)) _).
  - vm_compute. reflexivity.
  - vm_compute. reflexivity.
  - intros c t [= <- _]. reflexivity.
  - vm_compute. reflexivity.
  - discriminate.
  - vm_compute. reflexivity.
  - right. now exists (lit "q=x").
  - vm_compute. reflexivity.
Defined.
